(** * Transaction deduplication and double-entry posting of dinero-ai

    A shallow embedding of the ledger core of [src/app.py]:
    [create_transaction_signature], [get_or_create_default_accounts],
    [get_or_create_client], [filter_duplicate_transactions] and
    [save_transactions_to_database], over a model of the SQLAlchemy session
    of [src/database/connection.py] and the tables of
    [src/database/models.py].

    Modelling conventions.
    - A Python [str] is a [list ascii]: one element per code point, for
      code points below 256 (Latin-1); texts with other characters are not
      modelled.  [str.lower], [str.strip] and [str.encode] are given on that
      range as CPython defines them; there [str.lower] maps each character
      on its own (its context-sensitive rule, the Greek final sigma, and its
      one-to-many mappings concern code points above 255).
    - A Decimal amount, and a [Numeric(14, 2)] column, is a [Z] counting
      hundredths (paise).  A pandas amount cell is either such a number or a
      text that is not a decimal numeral.  Amounts with more than two
      decimal places are not modelled (the source signs them with the
      binary float rounded to two places, while PostgreSQL rounds the
      decimal half away from zero).  A number of hundredths below 10^14 in
      absolute value is held exactly by a float64, so [float(.)], [str(.)]
      and [Decimal(.)] give back the same number.
    - A date is a calendar triple; [str(date)] is its [YYYY-MM-DD] form.
      The date cell of a row is its text, as [read_csv] gives it (a missing
      date is not modelled); [pd.to_datetime] is a parameter, see
      [DateParser].
    - Values are checked against their columns when they are flushed:
      [String(n)] holds at most [n] characters, a [Numeric(14, 2)] value is
      below 10^12 in absolute value, and no text holds the character NUL.
      The [businesses] table is not modelled: the business of every call
      exists ([main] creates its row before anything is saved).
    - A table is a list of rows in insertion order; [.first()] is the first
      match.  Primary keys (UUIDs in the source) are drawn from a counter
      [st_next] of the store. *)

From Stdlib Require Import ZArith Lia List Bool Ascii String.
Import ListNotations.
Open Scope Z_scope.

(* ------------------------------------------------------------------ *)
(** ** Python strings *)

Module Py.

Definition str := list ascii.

Definition code (c : ascii) : Z := Z.of_nat (nat_of_ascii c).

Definition chr (n : Z) : ascii := ascii_of_nat (Z.to_nat n).

Definition lit (s : string) : str := list_ascii_of_string s.

(** [str.isspace] on code points below 256: \t \n \v \f \r, the
    separators 0x1c-0x1f, space, NEL (0x85) and NBSP (0xa0). *)
Definition is_space (c : ascii) : bool :=
  let n := code c in
  ((9 <=? n) && (n <=? 13)) || ((28 <=? n) && (n <=? 32))
  || (n =? 133) || (n =? 160).

(** [str.lower] on one code point below 256: A-Z and the Latin-1
    capitals 0xc0-0xde except the multiplication sign 0xd7. *)
Definition lower_char (c : ascii) : ascii :=
  let n := code c in
  if ((65 <=? n) && (n <=? 90)) || ((192 <=? n) && (n <=? 222) && negb (n =? 215))
  then chr (n + 32) else c.

Definition lower (s : str) : str := map lower_char s.

Fixpoint lstrip (s : str) : str :=
  match s with
  | [] => []
  | c :: s' => if is_space c then lstrip s' else s
  end.

Definition rstrip (s : str) : str := rev (lstrip (rev s)).

(** [str.strip()] *)
Definition strip (s : str) : str := rstrip (lstrip s).

(** [s.replace(' ', '')] *)
Definition remove_spaces (s : str) : str :=
  filter (fun c => negb (Ascii.eqb c " "%char)) s.

(** [str.encode()] (UTF-8) for code points below 256. *)
Definition encode (s : str) : list Z :=
  flat_map (fun c => let n := code c in
                     if n <? 128 then [n]
                     else [Z.lor 192 (Z.shiftr n 6); Z.lor 128 (Z.land n 63)]) s.

Definition join_bar (fields : list str) : str :=
  match fields with
  | [] => []
  | f :: fs => f ++ flat_map (fun g => "|"%char :: g) fs
  end.

Definition digit (n : Z) : ascii := chr (48 + n).

(** Decimal rendering of a natural number. *)
Fixpoint digits_aux (fuel : nat) (n : Z) (acc : str) : str :=
  match fuel with
  | O => acc
  | S f => if n <? 10 then digit n :: acc
           else digits_aux f (n / 10) (digit (n mod 10) :: acc)
  end.

Definition show_nat (n : Z) : str := digits_aux 64 n [].

(** Zero-padded rendering on [w] digits. *)
Definition pad_left (w : nat) (s : str) : str :=
  List.repeat "0"%char (w - List.length s) ++ s.

End Py.

(* ------------------------------------------------------------------ *)
(** ** MD5 ([hashlib.md5(...).hexdigest()]) *)

Module MD5.

Definition mask32 (x : Z) : Z := Z.land x (Z.ones 32).

Definition add32 (x y : Z) : Z := mask32 (x + y).

Definition rotl32 (x : Z) (n : Z) : Z :=
  mask32 (Z.lor (Z.shiftl x n) (Z.shiftr x (32 - n))).

Definition not32 (x : Z) : Z := Z.lxor x (Z.ones 32).

Definition K : list Z :=
  [3614090360; 3905402710; 606105819; 3250441966; 4118548399; 1200080426;
   2821735955; 4249261313; 1770035416; 2336552879; 4294925233; 2304563134;
   1804603682; 4254626195; 2792965006; 1236535329; 4129170786; 3225465664;
   643717713; 3921069994; 3593408605; 38016083; 3634488961; 3889429448;
   568446438; 3275163606; 4107603335; 1163531501; 2850285829; 4243563512;
   1735328473; 2368359562; 4294588738; 2272392833; 1839030562; 4259657740;
   2763975236; 1272893353; 4139469664; 3200236656; 681279174; 3936430074;
   3572445317; 76029189; 3654602809; 3873151461; 530742520; 3299628645;
   4096336452; 1126891415; 2878612391; 4237533241; 1700485571; 2399980690;
   4293915773; 2240044497; 1873313359; 4264355552; 2734768916; 1309151649;
   4149444226; 3174756917; 718787259; 3951481745].

Definition SH : list Z :=
  [7; 12; 17; 22; 7; 12; 17; 22; 7; 12; 17; 22; 7; 12; 17; 22;
   5; 9; 14; 20; 5; 9; 14; 20; 5; 9; 14; 20; 5; 9; 14; 20;
   4; 11; 16; 23; 4; 11; 16; 23; 4; 11; 16; 23; 4; 11; 16; 23;
   6; 10; 15; 21; 6; 10; 15; 21; 6; 10; 15; 21; 6; 10; 15; 21].

(** Little-endian bytes of a [w]-byte number. *)
Fixpoint le_bytes (w : nat) (x : Z) : list Z :=
  match w with
  | O => []
  | S w' => Z.land x 255 :: le_bytes w' (Z.shiftr x 8)
  end.

Fixpoint le_word (bs : list Z) : Z :=
  match bs with
  | [] => 0
  | b :: bs' => b + 256 * le_word bs'
  end.

Definition pad (msg : list Z) : list Z :=
  let len := Z.of_nat (List.length msg) in
  let zeros := Z.to_nat ((55 - len) mod 64) in
  msg ++ [128] ++ List.repeat 0 zeros ++ le_bytes 8 (8 * len).

Fixpoint words (fuel : nat) (bs : list Z) : list Z :=
  match fuel with
  | O => []
  | S f => match bs with
           | [] => []
           | _ => le_word (firstn 4 bs) :: words f (skipn 4 bs)
           end
  end.

Fixpoint blocks (fuel : nat) (bs : list Z) : list (list Z) :=
  match fuel with
  | O => []
  | S f => match bs with
           | [] => []
           | _ => words 16 (firstn 64 bs) :: blocks f (skipn 64 bs)
           end
  end.

Record st := mk { A : Z; B : Z; C : Z; D : Z }.

Definition init : st := mk 1732584193 4023233417 2562383102 271733878.

Definition round (m : list Z) (s : st) (i : nat) : st :=
  let b := B s in let c := C s in let d := D s in
  let '(f, g) :=
    if (i <? 16)%nat then (Z.lor (Z.land b c) (Z.land (not32 b) d), i)
    else if (i <? 32)%nat then (Z.lor (Z.land d b) (Z.land (not32 d) c), (5 * i + 1) mod 16)%nat
    else if (i <? 48)%nat then (Z.lxor b (Z.lxor c d), (3 * i + 5) mod 16)%nat
    else (Z.lxor c (Z.lor b (not32 d)), (7 * i) mod 16)%nat in
  let f' := add32 (add32 (add32 f (A s)) (nth i K 0)) (nth g m 0) in
  mk d (add32 b (rotl32 f' (nth i SH 0))) b c.

Definition compress (s : st) (m : list Z) : st :=
  let s' := fold_left (round m) (seq 0 64) s in
  mk (add32 (A s) (A s')) (add32 (B s) (B s')) (add32 (C s) (C s')) (add32 (D s) (D s')).

Definition hex_digit (n : Z) : ascii :=
  if n <? 10 then Py.chr (48 + n) else Py.chr (87 + n).

Definition hex_byte (b : Z) : Py.str := [hex_digit (Z.shiftr b 4); hex_digit (Z.land b 15)].

Definition digest (msg : list Z) : list Z :=
  let p := pad msg in
  let s := fold_left compress (blocks (List.length p) p) init in
  le_bytes 4 (A s) ++ le_bytes 4 (B s) ++ le_bytes 4 (C s) ++ le_bytes 4 (D s).

Definition hexdigest (msg : list Z) : Py.str := flat_map hex_byte (digest msg).

End MD5.

(* ------------------------------------------------------------------ *)
(** ** Dates, cells and transaction rows *)

Fixpoint str_eqb (s t : Py.str) : bool :=
  match s, t with
  | [], [] => true
  | a :: s', b :: t' => Ascii.eqb a b && str_eqb s' t'
  | _, _ => false
  end.

Record date := mkdate { year : Z; month : Z; day : Z }.

(** [str(date)]: [YYYY-MM-DD]. *)
Definition render_date (d : date) : Py.str :=
  Py.pad_left 4 (Py.show_nat (year d)) ++ ["-"%char]
  ++ Py.pad_left 2 (Py.show_nat (month d)) ++ ["-"%char]
  ++ Py.pad_left 2 (Py.show_nat (day d)).

(** [d1 >= d2] on [datetime.date]. *)
Definition date_geb (d1 d2 : date) : bool :=
  (year d2 <? year d1)
  || ((year d1 =? year d2) && ((month d2 <? month d1)
      || ((month d1 =? month d2) && (day d2 <=? day d1)))).

(** [pd.to_datetime(text).date()]: the date pandas reads from the text of a
    date cell, or [None] when it raises (a text it cannot read, an
    impossible date such as 2026-02-30, a date outside the range of
    [Timestamp]).  Pandas' parser is not modelled: the statements hold for
    every parser, and those that depend on how a text is read say so in
    their hypotheses. *)
Class DateParser := to_datetime : Py.str -> option date.

(** The examples use [iso_to_datetime], which reads the texts [Y-M-D] with a
    four-digit year and a one- or two-digit month and day, as pandas'
    ISO 8601 reader does: the date when it exists in the Gregorian calendar
    and lies in the range of [Timestamp] (1677-09-22 to 2262-04-11 at
    midnight), [None] otherwise.  It also returns [None] on every other
    text, many of which pandas reads; the examples use none of them. *)
Definition is_digit (c : ascii) : bool := (48 <=? Py.code c) && (Py.code c <=? 57).

Fixpoint read_number (s : Py.str) (acc : Z) : Z :=
  match s with
  | [] => acc
  | c :: s' => read_number s' (10 * acc + (Py.code c - 48))
  end.

(** [text.split('-')] *)
Fixpoint split_dash (s : Py.str) : list Py.str :=
  match s with
  | [] => [[]]
  | c :: s' =>
      if Ascii.eqb c "-"%char then [] :: split_dash s'
      else match split_dash s' with
           | [] => [[c]]
           | f :: fs => (c :: f) :: fs
           end
  end.

Definition is_leap (y : Z) : bool :=
  ((y mod 4 =? 0) && negb (y mod 100 =? 0)) || (y mod 400 =? 0).

Definition days_in_month (y m : Z) : Z :=
  if m =? 2 then (if is_leap y then 29 else 28)
  else if (m =? 4) || (m =? 6) || (m =? 9) || (m =? 11) then 30 else 31.

Definition digits_field (lo hi : nat) (f : Py.str) : bool :=
  forallb is_digit f && Nat.leb lo (List.length f) && Nat.leb (List.length f) hi.

Definition iso_to_datetime (t : Py.str) : option date :=
  match split_dash t with
  | [ys; ms; ds] =>
      if digits_field 4 4 ys && digits_field 1 2 ms && digits_field 1 2 ds then
        let d := mkdate (read_number ys 0) (read_number ms 0) (read_number ds 0) in
        if (1 <=? month d) && (month d <=? 12)
           && (1 <=? day d) && (day d <=? days_in_month (year d) (month d))
           && date_geb d (mkdate 1677 9 22) && date_geb (mkdate 2262 4 11) d
        then Some d else None
      else None
  | _ => None
  end.

(** [f"{float(x):.2f}"] for an amount of [c] hundredths. *)
Definition render_cents (c : Z) : Py.str :=
  let u := Z.abs c in
  (if c <? 0 then ["-"%char] else [])
  ++ Py.show_nat (u / 100) ++ ["."%char] ++ Py.pad_left 2 (Py.show_nat (u mod 100)).

(** A text cell of a pandas row: a string or a missing value ([NaN]). *)
Inductive cell := CStr (s : Py.str) | CNaN.

(** [str(cell)] *)
Definition str_cell (x : cell) : Py.str :=
  match x with CStr s => s | CNaN => Py.lit "nan" end.

(** The amount cell: a number of hundredths, or a text that is not a
    decimal numeral (so [float(.)] and [Decimal(.)] raise on it). *)
Inductive amount_cell := ANum (cents : Z) | AText (s : Py.str).

(** One row of the uploaded ledger: columns [date] (its text), [client,
    description, amount, type] and the optional column [gst_category]
    ([None] when the DataFrame has no such column, so
    [row.get('gst_category', '')] is ['']). *)
Record row := mkrow {
  r_date : Py.str;
  r_client : cell;
  r_description : cell;
  r_amount : amount_cell;
  r_type : cell;
  r_gst : option cell
}.

Inductive exn :=
| ValueError          (* float() of a non-numeral *)
| InvalidOperation    (* Decimal() of a non-numeral *)
| IntegrityError      (* a CHECK constraint rejected a flushed row *)
| DataError           (* a flushed value does not fit its column *)
| PendingRollbackError
| OperationalError    (* the database cannot be reached *)
| AttributeError      (* attribute of a missing related row *)
| KeyError.           (* missing dict key *)

Inductive result (A : Type) := Ok (a : A) | Err (e : exn).
Arguments Ok {A} a.
Arguments Err {A} e.

(* ------------------------------------------------------------------ *)
(** ** Signature engine: [create_transaction_signature] *)

(** [str(x).lower().strip().replace(' ', '')] *)
Definition norm_text (s : Py.str) : Py.str := Py.remove_spaces (Py.strip (Py.lower s)).

Definition norm_cell (x : cell) : Py.str :=
  match x with CStr s => norm_text s | CNaN => [] end.

Definition norm_type (x : cell) : Py.str :=
  match x with CStr s => Py.strip (Py.lower s) | CNaN => [] end.

(** [f"{date}|{client}|{description}|{amount}|{type}"], hashed. *)
Definition signature_of (date_str client desc amount ty : Py.str) : Py.str :=
  MD5.hexdigest (Py.encode (Py.join_bar [date_str; client; desc; amount; ty])).

(** [str(row['date'])[:10]] *)
Definition date_text (r : row) : Py.str := firstn 10 (r_date r).

Definition create_transaction_signature (r : row) : result Py.str :=
  match r_amount r with
  | AText _ => Err ValueError
  | ANum c =>
      Ok (signature_of (date_text r) (norm_cell (r_client r))
            (norm_cell (r_description r)) (render_cents c) (norm_type (r_type r)))
  end.

(* ------------------------------------------------------------------ *)
(** ** Ledger store ([src/database/models.py]) *)

Inductive account_type := ASSET | LIABILITY | EQUITY | INCOME | EXPENSE.

Definition account_type_eqb (x y : account_type) : bool :=
  match x, y with
  | ASSET, ASSET | LIABILITY, LIABILITY | EQUITY, EQUITY
  | INCOME, INCOME | EXPENSE, EXPENSE => true
  | _, _ => false
  end.

Inductive entry_source := MANUAL | CSV_IMPORT | AI_SUGGESTED | SYSTEM_GENERATED.

Record account := mkaccount {
  acc_id : Z; acc_business : Z; acc_code : Py.str; acc_name : Py.str;
  acc_type : account_type; acc_system : bool; acc_active : bool
}.

Record client := mkclient {
  cl_id : Z; cl_business : Z; cl_name : Py.str; cl_type : Py.str; cl_active : bool
}.

(** [je_ref] holds [reference_number]; its timestamp and uuid parts are
    rendered from the fresh key of the entry. *)
Record entry := mkentry {
  je_id : Z; je_business : Z; je_ref : Py.str; je_date : date;
  je_description : option Py.str; je_source : entry_source;
  je_posted : bool; je_created_by : Py.str
}.

Record line := mkline {
  ln_entry : Z; ln_account : Z; ln_client : option Z; ln_number : Z;
  ln_debit : Z; ln_credit : Z; ln_description : Py.str; ln_gst : Py.str
}.

(** [st_up] is false when the database cannot be reached: every
    statement sent to it raises. *)
Record store := mkstore {
  st_up : bool;
  st_accounts : list account;
  st_clients : list client;
  st_entries : list entry;
  st_lines : list line;
  st_next : Z
}.

(** The CHECK constraints of [journal_entry_lines]: [check_debit_or_credit]
    and [check_non_negative]. *)
Definition line_checks (l : line) : bool :=
  let d := ln_debit l in let c := ln_credit l in
  ((d =? 0) && (0 <? c) || (c =? 0) && (0 <? d) || (d =? 0) && (c =? 0))
  && (0 <=? d) && (0 <=? c).

(** A text PostgreSQL accepts: no NUL character (psycopg2 refuses it). *)
Definition text_ok (s : Py.str) : bool :=
  forallb (fun c => negb (Ascii.eqb c (ascii_of_nat 0))) s.

(** A value of a [String(n)] column: at most [n] characters. *)
Definition varchar_ok (n : nat) (s : Py.str) : bool :=
  Nat.leb (List.length s) n && text_ok s.

(** A value of a [Numeric(14, 2)] column, in hundredths: below 10^12. *)
Definition numeric_ok (c : Z) : bool := Z.abs c <? 10 ^ 14.

(** A line the database accepts: its CHECK constraints, and its values
    fitting their columns ([description] is [Text], [gst_category] is
    [String(100)]). *)
Definition line_ok (l : line) : bool :=
  line_checks l && numeric_ok (ln_debit l) && numeric_ok (ln_credit l)
  && text_ok (ln_description l) && varchar_ok 100 (ln_gst l).

(** A client row the database accepts ([client_name] is [String(255)],
    [client_type] is [String(50)]). *)
Definition client_ok (c : client) : bool :=
  varchar_ok 255 (cl_name c) && varchar_ok 50 (cl_type c).

(** A journal entry the database accepts: its [description] ([Text]).  Its
    [reference_number] ([String(100)]) has 27 characters in the source, and
    [created_by] is the constant text "CSV Import". *)
Definition entry_ok (e : entry) : bool :=
  match je_description e with Some d => text_ok d | None => true end.

Definition find_account (s : store) (id : Z) : option account :=
  find (fun a => acc_id a =? id) (st_accounts s).

Definition find_client (s : store) (id : Z) : option client :=
  find (fun c => cl_id c =? id) (st_clients s).

(** [entry.lines]: the lines of an entry, in insertion order. *)
Definition lines_of (s : store) (id : Z) : list line :=
  filter (fun l => ln_entry l =? id) (st_lines s).

(* ------------------------------------------------------------------ *)
(** ** The SQLAlchemy session ([DatabaseConnection.session_scope])

    The session holds the working view of the database (every row added
    so far), the lines added but not yet flushed, and whether a failed
    flush has left it needing a rollback.  The source opens sessions with
    [autoflush=False]: rows reach the database at an explicit [flush()] or
    at [commit()].  A Python exception does not undo the session state it
    leaves behind; only the rollback of [session_scope] does. *)

Record sess := mksess { ss_db : store; ss_pending : list line; ss_broken : bool }.

Definition M (A : Type) : Type := sess -> result A * sess.

Definition ret {A} (a : A) : M A := fun s => (Ok a, s).

Definition bind {A B} (m : M A) (k : A -> M B) : M B :=
  fun s => match m s with
           | (Ok a, s') => k a s'
           | (Err e, s') => (Err e, s')
           end.

Notation "x <- m ;; k" := (bind m (fun x => k))
  (at level 61, m at next level, right associativity).

Definition raise {A} (e : exn) : M A := fun s => (Err e, s).

Definition lift {A} (r : result A) : M A :=
  match r with Ok a => ret a | Err e => raise e end.

(** [try: ... except Exception: ...]: the outcome, never raising. *)
Definition try_ {A} (m : M A) : M (result A) :=
  fun s => let '(r, s') := m s in (Ok r, s').

Definition get_db : M store := fun s => (Ok (ss_db s), s).

Definition map_db (f : store -> store) : M unit :=
  fun s => (Ok tt, mksess (f (ss_db s)) (ss_pending s) (ss_broken s)).

(** Sending a statement. *)
Definition execute : M unit :=
  fun s => if ss_broken s then (Err PendingRollbackError, s)
           else if st_up (ss_db s) then (Ok tt, s)
           else (Err OperationalError, s).

(** [session.flush()]: the pending lines, and the other row added since the
    last flush, are inserted; [new_ok] tells whether that row (a client or
    a journal entry, each flushed right after it is added) is accepted.  A
    row the database refuses raises and leaves the session needing a
    rollback. *)
Definition flush_new (new_ok : bool) : M unit :=
  fun s => if ss_broken s then (Err PendingRollbackError, s)
           else if negb (st_up (ss_db s)) then (Err OperationalError, s)
           else if forallb line_ok (ss_pending s) && new_ok
           then (Ok tt, mksess (ss_db s) [] false)
           else (Err (if forallb line_checks (ss_pending s) then DataError else IntegrityError),
                 mksess (ss_db s) (ss_pending s) true).

(** A flush with no new row other than lines (an account of the default
    chart, whose code and name fit their columns, or nothing). *)
Definition flush : M unit := flush_new true.

(** A fresh primary key ([default=uuid.uuid4]). *)
Definition fresh_id : M Z :=
  fun s => let d := ss_db s in
           (Ok (st_next d),
            mksess (mkstore (st_up d) (st_accounts d) (st_clients d) (st_entries d)
                            (st_lines d) (st_next d + 1))
                   (ss_pending s) (ss_broken s)).

Definition add_account (a : account) : M unit :=
  map_db (fun d => mkstore (st_up d) (st_accounts d ++ [a]) (st_clients d)
                           (st_entries d) (st_lines d) (st_next d)).

Definition add_client (c : client) : M unit :=
  map_db (fun d => mkstore (st_up d) (st_accounts d) (st_clients d ++ [c])
                           (st_entries d) (st_lines d) (st_next d)).

Definition add_entry (e : entry) : M unit :=
  map_db (fun d => mkstore (st_up d) (st_accounts d) (st_clients d)
                           (st_entries d ++ [e]) (st_lines d) (st_next d)).

Definition add_line (l : line) : M unit :=
  fun s => let d := ss_db s in
           (Ok tt, mksess (mkstore (st_up d) (st_accounts d) (st_clients d)
                                   (st_entries d) (st_lines d ++ [l]) (st_next d))
                          (ss_pending s ++ [l]) (ss_broken s)).

(** [with db_session() as session: body]: commit on success (a final
    flush), rollback on an exception.  Returns the body's outcome and the
    database after the session. *)
Definition run_session {A} (body : M A) (db : store) : result A * store :=
  match body (mksess db [] false) with
  | (Ok a, s1) =>
      match flush s1 with
      | (Ok _, s2) => (Ok a, ss_db s2)
      | (Err e, _) => (Err e, db)
      end
  | (Err e, _) => (Err e, db)
  end.

(* ------------------------------------------------------------------ *)
(** ** Chart of accounts provisioner: [get_or_create_default_accounts] *)

Definition default_accounts : list (Py.str * Py.str * account_type) :=
  [(Py.lit "1000", Py.lit "Bank Account", ASSET);
   (Py.lit "4000", Py.lit "Revenue", INCOME);
   (Py.lit "5000", Py.lit "Expenses", EXPENSE);
   (Py.lit "1200", Py.lit "Accounts Receivable", ASSET)].

(** [session.query(ChartOfAccount).filter_by(business_id=.., account_code=..).first()] *)
Definition query_account (b : Z) (code : Py.str) : M (option account) :=
  _ <- execute ;;
  d <- get_db ;;
  ret (find (fun a => (acc_business a =? b) && str_eqb (acc_code a) code) (st_accounts d)).

(** The body of the loop over [default_accounts]. *)
Definition get_or_create_account (b : Z) (code name : Py.str) (ty : account_type)
  : M account :=
  found <- query_account b code ;;
  match found with
  | Some a => ret a
  | None =>
      id <- fresh_id ;;
      let a := mkaccount id b code name ty true true in
      _ <- add_account a ;;
      _ <- flush ;;
      ret a
  end.

Fixpoint provision (b : Z) (defs : list (Py.str * Py.str * account_type))
  : M (list (Py.str * account)) :=
  match defs with
  | [] => ret []
  | (code, name, ty) :: rest =>
      acc <- get_or_create_account b code name ty ;;
      accs <- provision b rest ;;
      ret ((name, acc) :: accs)
  end.

(** Returns the dict [{account name: account}] as an association list. *)
Definition get_or_create_default_accounts (b : Z) : M (list (Py.str * account)) :=
  provision b default_accounts.

(* ------------------------------------------------------------------ *)
(** ** Party resolver: [get_or_create_client] *)

(** [session.query(Client).filter_by(business_id=.., client_name=.., is_active=True).first()] *)
Definition query_client (b : Z) (name : Py.str) : M (option client) :=
  _ <- execute ;;
  d <- get_db ;;
  ret (find (fun c => (cl_business c =? b) && str_eqb (cl_name c) name && cl_active c)
            (st_clients d)).

Definition get_or_create_client (name : Py.str) (b : Z) : M client :=
  found <- query_client b name ;;
  match found with
  | Some c => ret c
  | None =>
      id <- fresh_id ;;
      let c := mkclient id b name (Py.lit "customer") true in
      _ <- add_client c ;;
      _ <- flush_new (client_ok c) ;;
      ret c
  end.

(* ------------------------------------------------------------------ *)
(** ** Ledger poster: [save_transactions_to_database] *)

Definition lookup_name (accts : list (Py.str * account)) (name : Py.str) : option account :=
  option_map snd (find (fun p => str_eqb (fst p) name) accts).

(** [accounts[name]] *)
Definition account_named (accts : list (Py.str * account)) (name : Py.str) : M account :=
  match lookup_name accts name with
  | Some a => ret a
  | None => raise KeyError
  end.

(** [Decimal(str(row['amount']))] *)
Definition decimal_of (a : amount_cell) : M Z :=
  match a with ANum c => ret c | AText _ => raise InvalidOperation end.

(** [str(row.get('gst_category', ''))] *)
Definition gst_of (r : row) : Py.str :=
  match r_gst r with None => [] | Some g => str_cell g end.

(** [f"CSV-{timestamp}-{uuid[:8]}"]: rendered from the entry's fresh key. *)
Definition reference_number (id : Z) : Py.str := Py.lit "CSV-" ++ Py.show_nat id.

(** [pd.to_datetime(row['date']).date()] *)
Definition entry_date_of {dp : DateParser} (t : Py.str) : M date :=
  match to_datetime t with Some d => ret d | None => raise ValueError end.

(** The body of the [try] block of the loop, for one row. *)
Definition save_row {dp : DateParser} (b : Z) (accts : list (Py.str * account)) (r : row) : M unit :=
  client <- get_or_create_client (str_cell (r_client r)) b ;;
  entry_date <- entry_date_of (r_date r) ;;
  id <- fresh_id ;;
  let desc := str_cell (r_description r) in
  let je := mkentry id b (reference_number id) entry_date (Some desc)
                    CSV_IMPORT true (Py.lit "CSV Import") in
  _ <- add_entry je ;;
  _ <- flush_new (entry_ok je) ;;
  amount <- decimal_of (r_amount r) ;;
  let transaction_type := Py.lower (str_cell (r_type r)) in
  let gst := gst_of r in
  lines <- (if str_eqb transaction_type (Py.lit "income") then
              bank <- account_named accts (Py.lit "Bank Account") ;;
              rev <- account_named accts (Py.lit "Revenue") ;;
              ret (mkline id (acc_id bank) (Some (cl_id client)) 1 amount 0 desc gst,
                   mkline id (acc_id rev) (Some (cl_id client)) 2 0 amount desc gst)
            else
              exp <- account_named accts (Py.lit "Expenses") ;;
              bank <- account_named accts (Py.lit "Bank Account") ;;
              ret (mkline id (acc_id exp) (Some (cl_id client)) 1 amount 0 desc gst,
                   mkline id (acc_id bank) (Some (cl_id client)) 2 0 amount desc gst)) ;;
  _ <- add_line (fst lines) ;;
  add_line (snd lines).

(** [for _, row in transactions_df.iterrows(): try: ...; saved_count += 1
    except Exception: continue] *)
Fixpoint save_rows {dp : DateParser} (b : Z) (accts : list (Py.str * account)) (rows : list row)
  (saved_count : nat) : M nat :=
  match rows with
  | [] => ret saved_count
  | r :: rs =>
      res <- try_ (save_row b accts r) ;;
      save_rows b accts rs (match res with Ok _ => S saved_count | Err _ => saved_count end)
  end.

(** Returns [saved_count] and the database afterwards.  [saved_count] is
    returned even when the final commit fails and the session is rolled
    back. *)
Definition save_transactions_to_database {dp : DateParser} (rows : list row) (b : Z) (db : store)
  : nat * store :=
  let s0 := mksess db [] false in
  match get_or_create_default_accounts b s0 with
  | (Err _, _) => (O, db)
  | (Ok accts, s1) =>
      match save_rows b accts rows O s1 with
      | (Ok n, s2) =>
          match flush s2 with
          | (Ok _, s3) => (n, ss_db s3)
          | (Err _, _) => (n, db)
          end
      | (Err _, _) => (O, db)
      end
  end.

(* ------------------------------------------------------------------ *)
(** ** Duplicate filter: [filter_duplicate_transactions] *)

(** One step of the walk-back loop ([replace(day=1)], then one month back). *)
Definition month_back (d : date) : date :=
  let d := mkdate (year d) (month d) 1 in
  if month d =? 1 then mkdate (year d - 1) 12 (day d)
  else mkdate (year d) (month d - 1) (day d).

Fixpoint iter_month_back (n : nat) (d : date) : date :=
  match n with O => d | S n' => iter_month_back n' (month_back d) end.

(** [six_months_ago], from [datetime.now().date()]. *)
Definition six_months_ago (today : date) : date :=
  iter_month_back 6 (mkdate (year today) (month today) 1).

(** [session.query(JournalEntry).filter(business_id == b, entry_date >= since).all()] *)
Definition query_entries (b : Z) (since : date) : M (list entry) :=
  _ <- execute ;;
  d <- get_db ;;
  ret (filter (fun e => (je_business e =? b) && date_geb (je_date e) since) (st_entries d)).

Definition py_income : Py.str := Py.lit "income".
Definition py_expense : Py.str := Py.lit "expense".

(** The loop over [entry.lines]: the last line with a client gives the
    client name; the last line with a positive side gives the amount and
    the kind. *)
Fixpoint reconstruct (s : store) (client_name : Py.str) (amount : Z)
  (transaction_type : Py.str) (ls : list line) : result (Py.str * Z * Py.str) :=
  match ls with
  | [] => Ok (client_name, amount, transaction_type)
  | l :: ls' =>
      let client_name :=
        match ln_client l with
        | Some cid => match find_client s cid with
                      | Some c => cl_name c
                      | None => client_name
                      end
        | None => client_name
        end in
      if 0 <? ln_debit l then
        match find_account s (ln_account l) with
        | None => Err AttributeError
        | Some a =>
            reconstruct s client_name (ln_debit l)
              (if account_type_eqb (acc_type a) ASSET then py_income else py_expense) ls'
        end
      else if 0 <? ln_credit l then
        match find_account s (ln_account l) with
        | None => Err AttributeError
        | Some a =>
            reconstruct s client_name (ln_credit l)
              (if account_type_eqb (acc_type a) INCOME then py_income else py_expense) ls'
        end
      else reconstruct s client_name amount transaction_type ls'
  end.

(** [x.lower().strip().replace(' ', '') if x else ''] *)
Definition norm_if_nonempty (x : Py.str) : Py.str :=
  match x with [] => [] | _ => norm_text x end.

Definition entry_signature (s : store) (e : entry) : result Py.str :=
  match reconstruct s [] 0 py_expense (lines_of s (je_id e)) with
  | Err x => Err x
  | Ok (client_name, amount, transaction_type) =>
      let description_normalized :=
        match je_description e with Some d => norm_if_nonempty d | None => [] end in
      Ok (signature_of (render_date (je_date e)) (norm_if_nonempty client_name)
            description_normalized (render_cents amount)
            (Py.strip (Py.lower transaction_type)))
  end.

Fixpoint map_result {A B} (f : A -> result B) (xs : list A) : result (list B) :=
  match xs with
  | [] => Ok []
  | x :: xs' => match f x with
                | Err e => Err e
                | Ok y => match map_result f xs' with
                          | Err e => Err e
                          | Ok ys => Ok (y :: ys)
                          end
                end
  end.

Definition mem_str (x : Py.str) (xs : list Py.str) : bool := existsb (str_eqb x) xs.

(** The body of the [try] block. *)
Definition filter_body (today : date) (df : list row) (b : Z)
  : M (list row * nat) :=
  sigs <- lift (map_result create_transaction_signature df) ;;
  entries <- query_entries b (six_months_ago today) ;;
  d <- get_db ;;
  existing_signatures <- lift (map_result (entry_signature d) entries) ;;
  let tagged := combine df sigs in
  let new_only := map fst (filter (fun p => negb (mem_str (snd p) existing_signatures)) tagged) in
  let duplicates := filter (fun p => mem_str (snd p) existing_signatures) tagged in
  ret (new_only, List.length duplicates).

(** Returns [(new_only, len(duplicates))]; on any exception, the input
    batch and 0.  (The source returns the caller's DataFrame object, to
    which a [signature] column may have been added; the rows are the
    input rows.) *)
Definition filter_duplicate_transactions (today : date) (df : list row) (b : Z)
  (db : store) : list row * nat :=
  match fst (run_session (filter_body today df b) db) with
  | Ok r => r
  | Err _ => (df, O)
  end.


(* ------------------------------------------------------------------ *)
(** ** Predicates used in the statements *)

(** A session that can still send statements and flush: no failed flush,
    the database reachable, and the pending lines accepted by the database
    ([line_ok]). *)
Definition healthy (s : sess) : Prop :=
  ss_broken s = false /\ st_up (ss_db s) = true /\ forallb line_ok (ss_pending s) = true.

(** [R s (state after m)] for every start state, whatever [m] returns. *)
Definition pres (R : sess -> sess -> Prop) {A} (m : M A) : Prop :=
  forall s, R s (snd (m s)).

Definition customers_added (s s' : sess) : Prop :=
  exists added, st_clients (ss_db s') = st_clients (ss_db s) ++ added
                /\ Forall (fun c => cl_type c = Py.lit "customer") added.

(** Two texts that differ only in the case of letters, in space
    characters anywhere, or in whitespace added at either end. *)
Inductive text_variant : Py.str -> Py.str -> Prop :=
| tv_refl s : text_variant s s
| tv_sym s t : text_variant s t -> text_variant t s
| tv_trans s t u : text_variant s t -> text_variant t u -> text_variant s u
| tv_case s1 s2 c1 c2 :
    Py.lower_char c1 = Py.lower_char c2 -> text_variant (s1 ++ c1 :: s2) (s1 ++ c2 :: s2)
| tv_space s1 s2 : text_variant (s1 ++ s2) (s1 ++ " "%char :: s2)
| tv_lead w s : Py.is_space w = true -> text_variant s (w :: s)
| tv_trail w s : Py.is_space w = true -> text_variant s (s ++ [w]).

Definition acc_matches (b : Z) (code : Py.str) (a : account) : bool :=
  (acc_business a =? b) && str_eqb (acc_code a) code.

(** Accounts of business [b] with code [code]. *)
Definition count_code (d : store) (b : Z) (code : Py.str) : nat :=
  List.length (filter (acc_matches b code) (st_accounts d)).

Definition system_accounts (d : store) (b : Z) : list account :=
  filter (fun a => (acc_business a =? b) && acc_system a) (st_accounts d).

Definition business_accounts (d : store) (b : Z) : list account :=
  filter (fun a => acc_business a =? b) (st_accounts d).

Definition def_code (def : Py.str * Py.str * account_type) : Py.str := fst (fst def).

Definition default_codes : list Py.str := map def_code default_accounts.

(** [n] successive calls of [get_or_create_default_accounts]. *)
Fixpoint provision_n (n : nat) (b : Z) : M unit :=
  match n with
  | O => ret tt
  | S n' => _ <- get_or_create_default_accounts b ;; provision_n n' b
  end.

Arguments def_code _ /.

Definition sum_debit (ls : list line) : Z := fold_right (fun l acc => ln_debit l + acc) 0 ls.

Definition sum_credit (ls : list line) : Z := fold_right (fun l acc => ln_credit l + acc) 0 ls.

(** The debit and credit totals of the lines of an entry agree. *)
Definition entry_balanced (d : store) (e : entry) : Prop :=
  sum_debit (lines_of d (je_id e)) = sum_credit (lines_of d (je_id e)).

(** From [s] to [s']: keys only grow; entries and lines are only appended,
    with keys allocated in between; the appended lines of every entry key
    balance. *)
Definition balanced_growth (s s' : sess) : Prop :=
  let d := ss_db s in let d' := ss_db s' in
  st_next d <= st_next d'
  /\ exists E L, st_entries d' = st_entries d ++ E /\ st_lines d' = st_lines d ++ L
     /\ Forall (fun e => st_next d <= je_id e < st_next d') E
     /\ Forall (fun l => st_next d <= ln_entry l < st_next d') L
     /\ (forall k, sum_debit (filter (fun l => ln_entry l =? k) L)
                   = sum_credit (filter (fun l => ln_entry l =? k) L)).

(** Sample data. *)
Definition empty_db : store := mkstore true [] [] [] [] 1.

Definition example_income : row :=
  mkrow (Py.lit "2026-03-05") (CStr (Py.lit "TechCorp")) (CStr (Py.lit "Software Development"))
        (ANum 150000) (CStr (Py.lit "income")) None.

Definition example_expense : row :=
  mkrow (Py.lit "2026-03-06") (CStr (Py.lit "Office Mart")) (CStr (Py.lit "Printer paper"))
        (ANum 4250) (CStr (Py.lit "Expense")) (Some (CStr (Py.lit "GST-18"))).

Definition bank_account : account :=
  mkaccount 1 7 (Py.lit "1000") (Py.lit "Bank Account") ASSET true true.
Definition revenue_account : account :=
  mkaccount 2 7 (Py.lit "4000") (Py.lit "Revenue") INCOME true true.
Definition expenses_account : account :=
  mkaccount 3 7 (Py.lit "5000") (Py.lit "Expenses") EXPENSE true true.
Definition receivable_account : account :=
  mkaccount 4 7 (Py.lit "1200") (Py.lit "Accounts Receivable") ASSET true true.

(** The chart of accounts of business 7, and the dict returned for it. *)
Definition example_db : store :=
  mkstore true [bank_account; revenue_account; expenses_account; receivable_account]
          [] [] [] 5.


(** [str(row['type']).lower() == 'income'], the test of the poster. *)
Definition is_income (r : row) : bool :=
  str_eqb (Py.lower (str_cell (r_type r))) (Py.lit "income").



(** The values of a record that reach the database fit their columns: a
    client name of at most 255 characters, a GST tag of at most 100, no NUL
    character in client, description or GST tag, and a numeric amount below
    10^12 in absolute value. *)
Definition fits_columns (r : row) : bool :=
  varchar_ok 255 (str_cell (r_client r)) && text_ok (str_cell (r_description r))
  && varchar_ok 100 (gst_of r)
  && match r_amount r with ANum a => numeric_ok a | AText _ => true end.




(** The lookback start as a closed formula: the first day of the month
    six calendar months before the current month. *)
Definition lookback_start (today : date) : date :=
  if 6 <? month today then mkdate (year today) (month today - 6) 1
  else mkdate (year today - 1) (month today + 6) 1.

(** The entries the duplicate lookup reads: those of business [b] dated on
    or after the lookback start, whatever their posted flag. *)
Definition in_lookback (b : Z) (today : date) (e : entry) : bool :=
  (je_business e =? b) && date_geb (je_date e) (lookback_start today).

(** The store after posting [example_income], with every entry's posted
    flag cleared. *)
Definition unposted_db : store :=
  let d := snd (save_transactions_to_database (dp := iso_to_datetime) [example_income] 7 empty_db) in
  mkstore (st_up d) (st_accounts d) (st_clients d)
    (map (fun e => mkentry (je_id e) (je_business e) (je_ref e) (je_date e)
                     (je_description e) (je_source e) false (je_created_by e))
       (st_entries d))
    (st_lines d) (st_next d).

(** Integrity of a store: keys below the key counter, account and client
    keys unique, and every line referring to an existing account and (if
    any) an existing client, as the foreign keys of the schema require. *)
Definition wf (d : store) : Prop :=
  Forall (fun a => acc_id a < st_next d) (st_accounts d)
  /\ NoDup (map acc_id (st_accounts d))
  /\ Forall (fun c => cl_id c < st_next d) (st_clients d)
  /\ NoDup (map cl_id (st_clients d))
  /\ Forall (fun e => je_id e < st_next d) (st_entries d)
  /\ Forall (fun l => ln_entry l < st_next d
                      /\ find_account d (ln_account l) <> None
                      /\ (forall c, ln_client l = Some c -> find_client d c <> None))
            (st_lines d).

(** [d'] only appends to [d], and the lines it appends belong to entries
    created after [d]. *)
Definition ext (d d' : store) : Prop :=
  st_next d <= st_next d'
  /\ (exists A, st_accounts d' = st_accounts d ++ A)
  /\ (exists C, st_clients d' = st_clients d ++ C)
  /\ (exists E, st_entries d' = st_entries d ++ E)
  /\ (exists L, st_lines d' = st_lines d ++ L /\ Forall (fun l => st_next d <= ln_entry l) L).

(** The existing Bank Account (code 1000) and Revenue (code 4000) accounts
    of business [b] carry their default types. *)
Definition default_typed (d : store) (b : Z) : Prop :=
  forall a, In a (st_accounts d) ->
    (acc_matches b (Py.lit "1000") a = true -> acc_type a = ASSET)
    /\ (acc_matches b (Py.lit "4000") a = true -> acc_type a = INCOME).

(** A well-formed record: a positive numeric amount below 10^12, text
    client and description, kind "income" or "expense" in any letter case;
    a date text that [pd.to_datetime] reads, whose first ten characters are
    the [YYYY-MM-DD] form of the date read, inside the lookback window of
    [today]; a client name of at most 255 characters, a GST tag of at most
    100, and no NUL character in client, description or GST tag. *)
Definition valid_record {dp : DateParser} (today : date) (r : row) : bool :=
  match r_amount r, r_client r, r_description r, r_type r, to_datetime (r_date r) with
  | ANum c, CStr _, CStr _, CStr t, Some dt =>
      (0 <? c)
      && (str_eqb (Py.lower t) py_income || str_eqb (Py.lower t) py_expense)
      && str_eqb (date_text r) (render_date dt)
      && date_geb dt (six_months_ago today)
      && fits_columns r
  | _, _, _, _, _ => false
  end.


(* ================================================================== *)

(* ------------------------------------------------------------------ *)
(** ** Upload step of [main] *)


(* ------------------------------------------------------------------ *)
(** ** Transaction history: [display_database_tab] *)

Definition py_na : Py.str := Py.lit "N/A".
Definition py_unknown : Py.str := Py.lit "Unknown".
Definition py_Income : Py.str := Py.lit "Income".
Definition py_Expense : Py.str := Py.lit "Expense".

(** The loop over [entry.lines] of the Recent Transactions table. *)
Fixpoint display_lines (s : store) (client_name : Py.str) (amount : Z)
  (transaction_type : Py.str) (ls : list line) : result (Py.str * Z * Py.str) :=
  match ls with
  | [] => Ok (client_name, amount, transaction_type)
  | l :: ls' =>
      let client_name :=
        match ln_client l with
        | Some cid => match find_client s cid with
                      | Some c => cl_name c
                      | None => client_name
                      end
        | None => client_name
        end in
      if 0 <? ln_debit l then
        match find_account s (ln_account l) with
        | None => Err AttributeError
        | Some a =>
            display_lines s client_name (ln_debit l)
              (if account_type_eqb (acc_type a) ASSET then py_Income else py_Expense) ls'
        end
      else if 0 <? ln_credit l then
        match find_account s (ln_account l) with
        | None => Err AttributeError
        | Some a =>
            display_lines s client_name (ln_credit l)
              (if account_type_eqb (acc_type a) INCOME then py_Income else py_Expense) ls'
        end
      else display_lines s client_name amount transaction_type ls'
  end.

(** The computed columns of one row of the table: Client, Amount (before
    its rupee formatting), Type and Status; Date, Reference
    and Description are copied from the entry. *)
Definition display_row (s : store) (e : entry) : result (Py.str * Z * Py.str * Py.str) :=
  match display_lines s py_na 0 py_unknown (lines_of s (je_id e)) with
  | Err x => Err x
  | Ok (client_name, amount, transaction_type) =>
      Ok (client_name, amount, transaction_type,
          if je_posted e then Py.lit "Posted" else Py.lit "Draft")
  end.

(** The Chart of Accounts table: the active accounts of the business (the
    query orders them by code; the statements use membership only). *)
Definition listed_accounts (d : store) (b : Z) : list account :=
  filter (fun a => (acc_business a =? b) && acc_active a) (st_accounts d).

(** The "Create Default Chart of Accounts" button:
    [get_or_create_default_accounts] then [session.commit()]. *)
Definition create_default_chart (b : Z) (db : store) : store :=
  match run_session (get_or_create_default_accounts b) db with
  | (Ok _, db') => db'
  | (Err _, _) => db
  end.

(* ------------------------------------------------------------------ *)
(** ** Client repository ([ClientRepository] over [BaseRepository])

    The [clients] table also has the column [deleted_at] (soft delete),
    which the queries of [app.py] never read and which its inserts leave
    NULL.  The repository state is the session together with that column,
    kept as the list of client keys whose [deleted_at] is set (the most
    recent first). *)

Record rsess := mkrsess { rs_sess : sess; rs_deleted_at : list (Z * Z) }.

Inductive repo_exn := DbError (e : exn) | MultipleResultsFound.

Inductive repo_result (A : Type) := ROk (a : A) | RErr (e : repo_exn).
Arguments ROk {A} a.
Arguments RErr {A} e.

Definition RM (A : Type) : Type := rsess -> repo_result A * rsess.

Definition rret {A} (a : A) : RM A := fun rs => (ROk a, rs).

Definition rbind {A B} (m : RM A) (k : A -> RM B) : RM B :=
  fun rs => match m rs with
            | (ROk a, rs') => k a rs'
            | (RErr e, rs') => (RErr e, rs')
            end.

Notation "x <~ m ;; k" := (rbind m (fun x => k))
  (at level 61, m at next level, right associativity).

Definition rraise {A} (e : repo_exn) : RM A := fun rs => (RErr e, rs).

Definition rget : RM rsess := fun rs => (ROk rs, rs).

(** A session operation, inside the repository. *)
Definition in_session {A} (m : M A) : RM A :=
  fun rs => match m (rs_sess rs) with
            | (Ok a, s') => (ROk a, mkrsess s' (rs_deleted_at rs))
            | (Err e, s') => (RErr (DbError e), mkrsess s' (rs_deleted_at rs))
            end.

Definition deleted_at (rs : rsess) (id : Z) : option Z :=
  option_map snd (find (fun p => fst p =? id) (rs_deleted_at rs)).

(** [Client.deleted_at == None] *)
Definition not_deleted (rs : rsess) (c : client) : bool :=
  match deleted_at rs (cl_id c) with None => true | Some _ => false end.

Definition repo_clients (rs : rsess) : list client := st_clients (ss_db (rs_sess rs)).

(** [session.get(Client, id)] *)
Definition get_by_id (id : Z) : RM (option client) :=
  _ <~ in_session execute ;;
  rs <~ rget ;;
  rret (find (fun c => cl_id c =? id) (repo_clients rs)).

(** [get_by_id(id) is not None] *)
Definition exists_ (id : Z) : RM bool :=
  found <~ get_by_id id ;;
  rret (match found with Some _ => true | None => false end).

(** [create(business_id=.., client_name=..)]: [Client(...)] with the
    column defaults [client_type="customer"] and [is_active=True], then
    [session.add] and [session.flush()]. *)
Definition create (b : Z) (name : Py.str) : RM client :=
  in_session (id <- fresh_id ;;
              let c := mkclient id b name (Py.lit "customer") true in
              _ <- add_client c ;;
              _ <- flush_new (client_ok c) ;;
              ret c).

(** [get_by_business(business_id, active_only)], in store order (the query
    has no ORDER BY). *)
Definition get_by_business (b : Z) (active_only : bool) : RM (list client) :=
  _ <~ in_session execute ;;
  rs <~ rget ;;
  rret (filter (fun c => (cl_business c =? b)
                         && (if active_only then cl_active c && not_deleted rs c else true))
               (repo_clients rs)).

(** PostgreSQL [ILIKE] with its default escape character, the backslash:
    [%] matches any run of characters, [_] exactly one, a backslash makes
    the next character literal, and other characters compare after case
    folding ([lower_char]).  A pattern that ends in a lone backslash is an
    error in PostgreSQL; [search_by_name] never builds one, since its
    pattern ends in [%], and the case is modelled as no match. *)
Fixpoint ilike (p s : Py.str) : bool :=
  match p with
  | [] => match s with [] => true | _ :: _ => false end
  | c :: p' =>
      if Ascii.eqb c "%"%char then
        (fix go (s : Py.str) : bool :=
           ilike p' s || match s with [] => false | _ :: s' => go s' end) s
      else if Ascii.eqb c "_"%char then
        match s with [] => false | _ :: s' => ilike p' s' end
      else if Ascii.eqb c "\"%char then
        match p', s with
        | x :: p'', y :: s' => Ascii.eqb (Py.lower_char x) (Py.lower_char y) && ilike p'' s'
        | _, _ => false
        end
      else
        match s with
        | [] => false
        | y :: s' => Ascii.eqb (Py.lower_char c) (Py.lower_char y) && ilike p' s'
        end
  end.

(** [search_by_name(business_id, search_term)]: the pattern is
    [f"%{search_term}%"], the term itself is not escaped. *)
Definition search_by_name (b : Z) (search_term : Py.str) : RM (list client) :=
  _ <~ in_session execute ;;
  rs <~ rget ;;
  rret (filter (fun c => (cl_business c =? b)
                         && ilike ("%"%char :: search_term ++ ["%"%char]) (cl_name c)
                         && not_deleted rs c)
               (repo_clients rs)).

(** [select(Client).where(business_id == .., client_name == .., deleted_at == None)] *)
Definition get_or_create_query (rs : rsess) (b : Z) (name : Py.str) : list client :=
  filter (fun c => (cl_business c =? b) && str_eqb (cl_name c) name && not_deleted rs c)
         (repo_clients rs).

(** [get_or_create(business_id, client_name)] (no further keyword
    arguments): [scalar_one_or_none()] raises on two or more rows. *)
Definition get_or_create (b : Z) (name : Py.str) : RM (client * bool) :=
  _ <~ in_session execute ;;
  rs <~ rget ;;
  match get_or_create_query rs b name with
  | [] => c <~ create b name ;; rret (c, true)
  | [existing] => rret (existing, false)
  | _ :: _ :: _ => rraise MultipleResultsFound
  end.

Definition set_deleted_at (id now : Z) : RM unit :=
  fun rs => (ROk tt, mkrsess (rs_sess rs) ((id, now) :: rs_deleted_at rs)).

(** [soft_delete(entity_id)]: [update(entity_id, deleted_at=now) is not
    None], [now] being [datetime.utcnow()]. *)
Definition soft_delete (now id : Z) : RM bool :=
  entity <~ get_by_id id ;;
  match entity with
  | None => rret false
  | Some _ => _ <~ set_deleted_at id now ;; _ <~ in_session flush ;; rret true
  end.

(** [session.delete(client)] as flushed by the ORM: [Client.journal_entry_lines]
    has no delete cascade, so the lines that refer to the client get
    [client_id] set to NULL, then the client row is deleted; the foreign
    key's [ondelete="RESTRICT"] is not reached, as no line refers to the
    row any more. *)
Definition unlink_client (id : Z) (l : line) : line :=
  match ln_client l with
  | Some c => if c =? id then mkline (ln_entry l) (ln_account l) None (ln_number l)
                                  (ln_debit l) (ln_credit l) (ln_description l) (ln_gst l)
              else l
  | None => l
  end.

Definition remove_client (id : Z) (d : store) : store :=
  mkstore (st_up d) (st_accounts d) (filter (fun c => negb (cl_id c =? id)) (st_clients d))
          (st_entries d) (map (unlink_client id) (st_lines d)) (st_next d).

(** [delete(entity_id)] *)
Definition delete (id : Z) : RM bool :=
  entity <~ get_by_id id ;;
  match entity with
  | None => rret false
  | Some _ => _ <~ in_session (map_db (remove_client id)) ;; _ <~ in_session flush ;; rret true
  end.

(** Keys of the clients table and of its [deleted_at] column lie below the
    key counter, and the stored client names fit their column, as in every
    state of the database. *)
Definition repo_wf (rs : rsess) : Prop :=
  Forall (fun c => cl_id c < st_next (ss_db (rs_sess rs))) (repo_clients rs)
  /\ Forall (fun p => fst p < st_next (ss_db (rs_sess rs))) (rs_deleted_at rs)
  /\ Forall (fun c => client_ok c = true) (repo_clients rs).

Definition appends_for (b : Z) (d d' : store) : Prop :=
  st_next d <= st_next d'
  /\ (exists A, st_accounts d' = st_accounts d ++ A /\ Forall (fun a => acc_business a = b) A)
  /\ (exists C, st_clients d' = st_clients d ++ C /\ Forall (fun c => cl_business c = b) C)
  /\ (exists E L, st_entries d' = st_entries d ++ E /\ st_lines d' = st_lines d ++ L
        /\ Forall (fun e => je_business e = b /\ st_next d <= je_id e < st_next d') E
        /\ Forall (fun l => In (ln_entry l) (map je_id E)) L).

Definition sess_appends_for (b : Z) (s s' : sess) : Prop := appends_for b (ss_db s) (ss_db s').

(** The client [create] inserts, and the state after it. *)
Definition created_client (s : sess) (b : Z) (name : Py.str) : client :=
  mkclient (st_next (ss_db s)) b name (Py.lit "customer") true.

Definition after_create (s : sess) (b : Z) (name : Py.str) : sess :=
  let d := ss_db s in
  mksess (mkstore (st_up d) (st_accounts d) (st_clients d ++ [created_client s b name])
                  (st_entries d) (st_lines d) (st_next d + 1)) [] false.

(** Characters with no meaning in a [LIKE] pattern. *)
Definition plain_char (c : ascii) : bool :=
  negb (Ascii.eqb c "%"%char || Ascii.eqb c "_"%char || Ascii.eqb c "\"%char).

Definition line_of_client (k : Z) (l : line) : bool :=
  match ln_client l with Some c => c =? k | None => false end.

(** [session.query(JournalEntryLine).filter_by(client_id=client.id).count()],
    the "Transactions" column of the client directory. *)
Definition client_transactions (d : store) (k : Z) : nat :=
  List.length (filter (line_of_client k) (st_lines d)).

(** The lines appended from [d] to [d'] come in pairs on one client. *)
Definition lines_paired (d d' : store) : Prop :=
  exists P, st_lines d' = st_lines d ++ flat_map (fun p => [fst p; snd p]) P
            /\ Forall (fun p => ln_client (fst p) = ln_client (snd p)) P.

Definition sess_lines_paired (s s' : sess) : Prop := lines_paired (ss_db s) (ss_db s').


(** * Proofs *)

(** The MD5 implementation on the test vectors of RFC 1321. *)
Example md5_empty :
  MD5.hexdigest [] = Py.lit "d41d8cd98f00b204e9800998ecf8427e".
Proof. vm_compute. reflexivity. Qed.

Example md5_abc :
  MD5.hexdigest (Py.encode (Py.lit "abc")) = Py.lit "900150983cd24fb0d6963f7d28e17f72".
Proof. vm_compute. reflexivity. Qed.



Lemma client_ok_customer id b name :
  client_ok (mkclient id b name (Py.lit "customer") true) = varchar_ok 255 name.
Proof. unfold client_ok. simpl cl_name. simpl cl_type. rewrite andb_true_r. reflexivity. Qed.

Lemma flush_new_eq ok s :
  healthy s -> flush_new ok s =
  if ok then (Ok tt, mksess (ss_db s) [] false)
  else (Err (if forallb line_checks (ss_pending s) then DataError else IntegrityError),
        mksess (ss_db s) (ss_pending s) true).
Proof. intros (Hb & Hu & Hp). unfold flush_new. rewrite Hb, Hu, Hp. reflexivity. Qed.

Lemma goc_client_eq name b s :
  healthy s -> varchar_ok 255 name = true ->
  get_or_create_client name b s =
  match find (fun c => (cl_business c =? b) && str_eqb (cl_name c) name && cl_active c)
             (st_clients (ss_db s)) with
  | Some c => (Ok c, s)
  | None =>
      let d := ss_db s in
      let c := mkclient (st_next d) b name (Py.lit "customer") true in
      (Ok c, mksess (mkstore (st_up d) (st_accounts d) (st_clients d ++ [c])
                             (st_entries d) (st_lines d) (st_next d + 1)) [] false)
  end.
Proof.
  destruct s as [[up accs cls ens lns nx] p br]; intros (Hb & Hu & Hp) Hn; simpl in *; subst.
  unfold get_or_create_client, query_client, bind, execute, get_db, ret; simpl.
  destruct (find _ cls); [reflexivity|].
  unfold fresh_id, add_client, map_db, flush_new; simpl. rewrite Hp, client_ok_customer, Hn.
  reflexivity.
Qed.

Lemma str_eqb_eq s t : str_eqb s t = true <-> s = t.
Proof.
  revert t; induction s as [|a s IH]; intros [|b t]; simpl; try (split; congruence).
  rewrite andb_true_iff, Ascii.eqb_eq, IH. split; [intros [-> ->]; reflexivity|intros H; inversion H; auto].
Qed.

Lemma str_eqb_refl s : str_eqb s s = true.
Proof. apply str_eqb_eq; reflexivity. Qed.

Lemma find_app {X} (f : X -> bool) l1 l2 :
  find f (l1 ++ l2) = match find f l1 with Some x => Some x | None => find f l2 end.
Proof. induction l1 as [|x l1 IH]; simpl; [reflexivity|]. destruct (f x); auto. Qed.

(** ** Monotone properties of session programs *)

Section Preservation.

Variable R : sess -> sess -> Prop.
Local Notation pres := (pres R).
Hypothesis R_refl : forall s, R s s.
Hypothesis R_trans : forall s1 s2 s3, R s1 s2 -> R s2 s3 -> R s1 s3.


Lemma pres_ret {A} (a : A) : pres (ret a).
Proof. intros s; apply R_refl. Qed.

Lemma pres_raise {A} e : pres (@raise A e).
Proof. intros s; apply R_refl. Qed.

Lemma pres_lift {A} (r : result A) : pres (lift r).
Proof. destruct r; [apply pres_ret|apply pres_raise]. Qed.

Lemma pres_bind {A B} (m : M A) (k : A -> M B) :
  pres m -> (forall a, pres (k a)) -> pres (bind m k).
Proof.
  intros Hm Hk s. unfold bind. specialize (Hm s).
  destruct (m s) as [[a|e] s'] eqn:E; simpl in *; [|exact Hm].
  eapply R_trans; [exact Hm|apply Hk].
Qed.

Lemma pres_try {A} (m : M A) : pres m -> pres (try_ m).
Proof. intros Hm s. specialize (Hm s). unfold try_. destruct (m s); exact Hm. Qed.

Lemma pres_save_rows {dp : DateParser} b accts :
  (forall r, pres (save_row b accts r)) ->
  forall rows n, pres (save_rows b accts rows n).
Proof.
  intros Hrow rows; induction rows as [|r rows IH]; intros n; simpl.
  - apply pres_ret.
  - apply pres_bind; [apply pres_try, Hrow|intros res; apply IH].
Qed.

End Preservation.

Ltac solve_pres :=
  repeat first
    [ apply pres_bind; [|intro]
    | apply pres_ret
    | apply pres_raise
    | apply pres_lift
    | progress cbv zeta
    | match goal with |- pres _ (match ?x with _ => _ end) => destruct x end ].

(** ** Clients are only ever created as customers *)


Lemma customers_added_refl s : customers_added s s.
Proof. exists []; rewrite app_nil_r; auto. Qed.

Lemma customers_added_trans s1 s2 s3 :
  customers_added s1 s2 -> customers_added s2 s3 -> customers_added s1 s3.
Proof.
  intros (a1 & E1 & F1) (a2 & E2 & F2). exists (a1 ++ a2).
  rewrite E2, E1, app_assoc. split; [reflexivity|apply Forall_app; auto].
Qed.

Ltac pres_with refl trans :=
  repeat first
    [ eapply pres_bind; [exact trans| |intro]
    | eapply pres_try; exact trans
    | apply pres_ret; exact refl
    | apply pres_raise; exact refl
    | apply pres_lift; exact refl
    | progress cbv zeta
    | match goal with |- pres _ (match ?x with _ => _ end) => destruct x end ].

Lemma keep_clients_pres {A} (m : M A) :
  (forall s, st_clients (ss_db (snd (m s))) = st_clients (ss_db s)) ->
  pres customers_added m.
Proof. intros H s. exists []. rewrite app_nil_r; auto. Qed.

Ltac keep_clients := apply keep_clients_pres; intros [[] ? ?]; reflexivity.

Lemma cust_execute : pres customers_added execute.
Proof. apply keep_clients_pres; intros [[] ? []]; simpl; [reflexivity|]. destruct st_up0; reflexivity. Qed.

Lemma cust_flush_new ok : pres customers_added (flush_new ok).
Proof.
  apply keep_clients_pres; intros [[] ? []]; unfold flush_new; simpl; [reflexivity|].
  destruct st_up0; simpl; [|reflexivity]. destruct (_ && ok); reflexivity.
Qed.

Lemma cust_flush : pres customers_added flush.
Proof. apply cust_flush_new. Qed.

Lemma cust_get_db : pres customers_added get_db.
Proof. keep_clients. Qed.

Lemma cust_fresh_id : pres customers_added fresh_id.
Proof. keep_clients. Qed.

Lemma cust_add_account a : pres customers_added (add_account a).
Proof. keep_clients. Qed.

Lemma cust_add_entry e : pres customers_added (add_entry e).
Proof. keep_clients. Qed.

Lemma cust_add_line l : pres customers_added (add_line l).
Proof. keep_clients. Qed.

Lemma cust_add_client c : cl_type c = Py.lit "customer" -> pres customers_added (add_client c).
Proof. intros Hc [[] ? ?]. exists [c]. simpl. auto. Qed.

Ltac cust_leaf :=
  first [ apply cust_execute | apply cust_flush_new | apply cust_get_db | apply cust_fresh_id
        | apply cust_add_account | apply cust_add_entry | apply cust_add_line
        | apply cust_add_client; reflexivity ].

Lemma cust_get_or_create_client name b : pres customers_added (get_or_create_client name b).
Proof.
  unfold get_or_create_client, query_client.
  pres_with customers_added_refl customers_added_trans; cust_leaf.
Qed.

Lemma cust_save_row {dp : DateParser} b accts r : pres customers_added (save_row b accts r).
Proof.
  unfold save_row, entry_date_of, account_named, decimal_of.
  pres_with customers_added_refl customers_added_trans;
    first [ apply cust_get_or_create_client | cust_leaf ].
Qed.

Lemma cust_provision b defs : pres customers_added (provision b defs).
Proof.
  induction defs as [|[[code name] ty] defs IH]; simpl.
  - apply pres_ret, customers_added_refl.
  - unfold get_or_create_account, query_account.
    pres_with customers_added_refl customers_added_trans; first [ exact IH | cust_leaf ].
Qed.

(** C10: every client row that [save_transactions_to_database] creates,
    for records of any kind, has client type customer: the clients of the
    database afterwards are the old ones followed by new rows whose
    [cl_type] is the text customer. *)
Theorem save_creates_customers_only {dp : DateParser} rows b db :
  exists added, st_clients (snd (save_transactions_to_database rows b db)) = st_clients db ++ added
                /\ Forall (fun c => cl_type c = Py.lit "customer") added.
Proof.
  unfold save_transactions_to_database.
  set (s0 := mksess db [] false).
  pose proof (cust_provision b default_accounts s0) as H1.
  unfold get_or_create_default_accounts.
  destruct (provision b default_accounts s0) as [[accts|e] s1] eqn:E1; simpl in H1;
    [|exists []; rewrite app_nil_r; auto].
  pose proof (pres_save_rows customers_added customers_added_refl customers_added_trans
                b accts (cust_save_row b accts) rows O s1) as H2.
  destruct (save_rows b accts rows O s1) as [[n|e] s2] eqn:E2; simpl in H2;
    [|exists []; rewrite app_nil_r; auto].
  pose proof (cust_flush s2) as H3.
  destruct (flush s2) as [[u|e] s3] eqn:E3; simpl in H3;
    [|exists []; rewrite app_nil_r; auto].
  exact (customers_added_trans _ _ _ (customers_added_trans _ _ _ H1 H2) H3).
Qed.

(** ** Normalization of text fields *)

Lemma lstrip_remove_spaces s : Py.lstrip (Py.remove_spaces s) = Py.remove_spaces (Py.lstrip s).
Proof.
  induction s as [|c s IH]; simpl; [reflexivity|].
  destruct (Ascii.eqb c " ") eqn:Ec; simpl.
  - apply Ascii.eqb_eq in Ec; subst c. simpl. exact IH.
  - destruct (Py.is_space c) eqn:Es; [exact IH|]. simpl. rewrite Ec. reflexivity.
Qed.

Lemma remove_spaces_app s t : Py.remove_spaces (s ++ t) = Py.remove_spaces s ++ Py.remove_spaces t.
Proof. apply filter_app. Qed.

Lemma remove_spaces_rev s : Py.remove_spaces (rev s) = rev (Py.remove_spaces s).
Proof.
  induction s as [|c s IH]; simpl; [reflexivity|].
  rewrite remove_spaces_app, IH. unfold Py.remove_spaces; simpl.
  destruct (negb (Ascii.eqb c " "%char)); simpl; [reflexivity|apply app_nil_r].
Qed.

Lemma strip_remove_spaces s : Py.strip (Py.remove_spaces s) = Py.remove_spaces (Py.strip s).
Proof.
  unfold Py.strip, Py.rstrip.
  rewrite lstrip_remove_spaces, <- remove_spaces_rev, lstrip_remove_spaces, remove_spaces_rev.
  reflexivity.
Qed.

Lemma norm_text_alt s : norm_text s = Py.strip (Py.remove_spaces (Py.lower s)).
Proof. unfold norm_text. rewrite strip_remove_spaces. reflexivity. Qed.

Lemma lower_char_space w : Py.is_space w = true -> Py.lower_char w = w.
Proof.
  unfold Py.is_space, Py.lower_char. intros H.
  destruct (65 <=? Py.code w) eqn:E1, (Py.code w <=? 90) eqn:E2,
           (192 <=? Py.code w) eqn:E3, (Py.code w <=? 222) eqn:E4; simpl; auto;
  repeat match goal with
         | H : (_ <=? _) = _ |- _ => first [apply Z.leb_le in H | apply Z.leb_gt in H]
         end;
  repeat rewrite orb_true_iff, andb_true_iff in H;
  repeat rewrite Z.eqb_eq, Z.leb_le in H; lia.
Qed.

Lemma lstrip_snoc_space x w :
  Py.is_space w = true ->
  Py.lstrip (x ++ [w]) = match Py.lstrip x with [] => [] | y => y ++ [w] end.
Proof.
  intros Hw. induction x as [|c x IH]; simpl; [rewrite Hw; reflexivity|].
  destruct (Py.is_space c); [exact IH|reflexivity].
Qed.

Lemma strip_lead_space w x : Py.is_space w = true -> Py.strip (w :: x) = Py.strip x.
Proof. intros Hw. unfold Py.strip. simpl. rewrite Hw. reflexivity. Qed.

Lemma strip_trail_space w x : Py.is_space w = true -> Py.strip (x ++ [w]) = Py.strip x.
Proof.
  intros Hw. unfold Py.strip, Py.rstrip. rewrite lstrip_snoc_space by exact Hw.
  destruct (Py.lstrip x) as [|c y]; [reflexivity|].
  rewrite rev_app_distr. simpl. rewrite Hw. reflexivity.
Qed.

Lemma norm_text_variant s t : text_variant s t -> norm_text s = norm_text t.
Proof.
  induction 1 as [s|s t _ IH|s t u _ IH1 _ IH2|s1 s2 c1 c2 Hc|s1 s2|w s Hw|w s Hw].
  - reflexivity.
  - symmetry; exact IH.
  - congruence.
  - unfold norm_text, Py.lower. rewrite !map_app. simpl. rewrite Hc. reflexivity.
  - rewrite !norm_text_alt. unfold Py.lower. rewrite !map_app, !remove_spaces_app.
    reflexivity.
  - unfold norm_text, Py.lower. simpl. rewrite lower_char_space by exact Hw.
    rewrite strip_lead_space by exact Hw. reflexivity.
  - unfold norm_text, Py.lower. rewrite map_app. simpl. rewrite lower_char_space by exact Hw.
    rewrite strip_trail_space by exact Hw. reflexivity.
Qed.

Lemma text_variant_lower_prefix p s t :
  Py.lower s = Py.lower t -> text_variant (p ++ s) (p ++ t).
Proof.
  revert p t; induction s as [|a s IH]; intros p [|c t] H; try discriminate; [constructor|].
  injection H as Hac Hst.
  apply tv_trans with (p ++ c :: s); [apply tv_case; exact Hac|].
  specialize (IH (p ++ [c]) t Hst). rewrite <- !app_assoc in IH. exact IH.
Qed.

Lemma text_variant_lower s t : Py.lower s = Py.lower t -> text_variant s t.
Proof. apply (text_variant_lower_prefix []). Qed.

(** C5 (amended): two records whose party names and descriptions (texts of
    code points below 256) differ only in the case of letters, in space
    characters (U+0020) anywhere, or in whitespace at either end, all other
    fields equal, have the same signature. *)
Theorem signature_text_variant_invariant r1 r2 c1 c2 d1 d2 :
  r_date r1 = r_date r2 -> r_amount r1 = r_amount r2 -> r_type r1 = r_type r2 ->
  r_client r1 = CStr c1 -> r_client r2 = CStr c2 ->
  r_description r1 = CStr d1 -> r_description r2 = CStr d2 ->
  text_variant c1 c2 -> text_variant d1 d2 ->
  create_transaction_signature r1 = create_transaction_signature r2.
Proof.
  intros Hd Ha Ht Hc1 Hc2 Hd1 Hd2 Vc Vd.
  unfold create_transaction_signature, date_text.
  rewrite Hd, Ha, Ht, Hc1, Hc2, Hd1, Hd2. simpl.
  rewrite (norm_text_variant _ _ Vc), (norm_text_variant _ _ Vd). reflexivity.
Qed.

Lemma signature_text_variant_invariant_witness :
  let r1 := mkrow (Py.lit "2026-01-15") (CStr (Py.lit "TechCorp"))
              (CStr (Py.lit "Software Development")) (ANum 100000) (CStr (Py.lit "income")) None in
  let r2 := mkrow (Py.lit "2026-01-15") (CStr (Py.lit "TECHCORP"))
              (CStr (Py.lit "software development")) (ANum 100000) (CStr (Py.lit "income")) None in
  create_transaction_signature r1 = create_transaction_signature r2.
Proof.
  intros r1 r2.
  apply (signature_text_variant_invariant r1 r2 (Py.lit "TechCorp") (Py.lit "TECHCORP")
           (Py.lit "Software Development") (Py.lit "software development"));
    try reflexivity; apply text_variant_lower; vm_compute; reflexivity.
Defined.

(** C5 (counterexample): a description with a tab between its words and the
    same description with a space there have different signatures: only
    U+0020 is removed inside the text. *)
Lemma signature_tab_vs_space_cex :
  let r1 := mkrow (Py.lit "2026-01-15") (CStr (Py.lit "TechCorp"))
              (CStr (Py.lit "Web" ++ [ascii_of_nat 9] ++ Py.lit "dev")) (ANum 1500000)
              (CStr (Py.lit "income")) None in
  let r2 := mkrow (Py.lit "2026-01-15") (CStr (Py.lit "TechCorp"))
              (CStr (Py.lit "Web dev")) (ANum 1500000) (CStr (Py.lit "income")) None in
  create_transaction_signature r1 <> create_transaction_signature r2.
Proof. vm_compute. intros H. discriminate H. Qed.

(** C4: when the database cannot be reached, so that the duplicate-lookup
    query raises, the filter returns the whole input batch as new with a
    duplicate count of 0, without raising. *)
Theorem filter_fail_open today df b db :
  st_up db = false -> filter_duplicate_transactions today df b db = (df, O).
Proof.
  destruct db as [up accs cls ens lns nx]; simpl; intros ->.
  unfold filter_duplicate_transactions, run_session, filter_body, bind, lift.
  destruct (map_result create_transaction_signature df); reflexivity.
Qed.

Lemma filter_fail_open_witness :
  filter_duplicate_transactions (mkdate 2026 3 10)
    [mkrow (Py.lit "2026-01-15") (CStr (Py.lit "TechCorp")) (CStr (Py.lit "Web dev"))
           (ANum 1500000) (CStr (Py.lit "income")) None] 7
    (mkstore false [] [] [] [] 1)
  = ([mkrow (Py.lit "2026-01-15") (CStr (Py.lit "TechCorp")) (CStr (Py.lit "Web dev"))
            (ANum 1500000) (CStr (Py.lit "income")) None], O).
Proof. apply filter_fail_open. reflexivity. Defined.

(** C9 (amended): the party resolver matches the raw name exactly: two calls
    with the same business and the identical raw name, one that fits the
    [client_name] column (at most 255 characters, no NUL), resolve to the
    same client row, and at most one row is created. *)
Theorem party_resolver_same_raw_name name b s :
  healthy s -> varchar_ok 255 name = true ->
  let '(r1, s1) := get_or_create_client name b s in
  let '(r2, s2) := get_or_create_client name b s1 in
  exists c added,
    r1 = Ok c /\ r2 = Ok c /\ cl_name c = name /\ cl_business c = b
    /\ st_clients (ss_db s2) = st_clients (ss_db s) ++ added /\ (List.length added <= 1)%nat.
Proof.
  intros Hs Hn. rewrite (goc_client_eq _ _ _ Hs Hn).
  destruct (find _ (st_clients (ss_db s))) as [c|] eqn:Ef.
  - rewrite (goc_client_eq _ _ _ Hs Hn), Ef.
    apply find_some in Ef as [_ Hc].
    apply andb_true_iff in Hc as [Hc _]; apply andb_true_iff in Hc as [Hb Hcn].
    apply Z.eqb_eq in Hb; apply str_eqb_eq in Hcn.
    exists c, []. rewrite app_nil_r. simpl. repeat split; auto.
  - destruct s as [[up accs cls ens lns nx] p br]; destruct Hs as (Hb & Hu & Hp);
      simpl in *; subst.
    rewrite goc_client_eq by (try exact Hn; repeat split; reflexivity). simpl.
    rewrite find_app, Ef. simpl. rewrite Z.eqb_refl, str_eqb_refl. simpl.
    eexists _, [_]. repeat split; reflexivity.
Qed.

Lemma party_resolver_same_raw_name_witness :
  let s := mksess (mkstore true [] [] [] [] 1) [] false in
  let '(r1, s1) := get_or_create_client (Py.lit "TechCorp") 7 s in
  let '(r2, s2) := get_or_create_client (Py.lit "TechCorp") 7 s1 in
  exists c added,
    r1 = Ok c /\ r2 = Ok c /\ cl_name c = Py.lit "TechCorp" /\ cl_business c = 7
    /\ st_clients (ss_db s2) = st_clients (ss_db s) ++ added /\ (List.length added <= 1)%nat.
Proof.
  apply party_resolver_same_raw_name; [repeat split|]; reflexivity.
Defined.

(** C9 (counterexample): names that differ only in case, and so normalize to
    the same text, resolve to two different client rows; and a name of 256
    characters is not resolved at all: inserting it raises, and the session
    then needs a rollback, so a second call raises too. *)
Lemma party_resolver_case_split_cex :
  let s := mksess (mkstore true [] [] [] [] 1) [] false in
  let long := List.repeat "a"%char 256 in
  (let '(r1, s1) := get_or_create_client (Py.lit "TechCorp") 7 s in
   let '(r2, s2) := get_or_create_client (Py.lit "TECHCORP") 7 s1 in
   norm_text (Py.lit "TechCorp") = norm_text (Py.lit "TECHCORP")
   /\ (exists c1 c2, r1 = Ok c1 /\ r2 = Ok c2 /\ cl_id c1 <> cl_id c2)
   /\ List.length (st_clients (ss_db s2)) = 2%nat)
  /\ (let '(r1, s1) := get_or_create_client long 7 s in
      let '(r2, s2) := get_or_create_client long 7 s1 in
      r1 = Err DataError /\ r2 = Err PendingRollbackError).
Proof.
  vm_compute. split; [split; [reflexivity|split; [|reflexivity]]|split; reflexivity].
  eexists _, _. split; [reflexivity|split; [reflexivity|discriminate]].
Qed.

(** ** Chart of accounts provisioning *)

Lemma goc_account_eq b code name ty s :
  healthy s ->
  get_or_create_account b code name ty s =
  match find (acc_matches b code) (st_accounts (ss_db s)) with
  | Some a => (Ok a, s)
  | None =>
      let d := ss_db s in
      let a := mkaccount (st_next d) b code name ty true true in
      (Ok a, mksess (mkstore (st_up d) (st_accounts d ++ [a]) (st_clients d)
                             (st_entries d) (st_lines d) (st_next d + 1)) [] false)
  end.
Proof.
  destruct s as [[up accs cls ens lns nx] p br]; intros (Hb & Hu & Hp); simpl in *; subst.
  unfold get_or_create_account, query_account, bind, execute, get_db, ret; simpl.
  change (fun a => (acc_business a =? b) && str_eqb (acc_code a) code) with (acc_matches b code).
  destruct (find _ accs); [reflexivity|].
  unfold fresh_id, add_account, map_db, flush, flush_new; simpl. rewrite Hp. reflexivity.
Qed.

Lemma find_none_filter {X} (f : X -> bool) l : find f l = None <-> filter f l = [].
Proof.
  induction l as [|x l IH]; simpl; [tauto|].
  destruct (f x); [split; discriminate|exact IH].
Qed.

Lemma count_code_zero d b code :
  count_code d b code = O <-> find (acc_matches b code) (st_accounts d) = None.
Proof.
  unfold count_code. rewrite find_none_filter. destruct (filter _ _); simpl; split; congruence.
Qed.

Lemma acc_matches_new b code name ty id c :
  acc_matches b c (mkaccount id b code name ty true true) = str_eqb code c.
Proof. unfold acc_matches; simpl. rewrite Z.eqb_refl. reflexivity. Qed.

Lemma count_code_add_account d b c a :
  count_code (mkstore (st_up d) (st_accounts d ++ [a]) (st_clients d) (st_entries d) (st_lines d) (st_next d + 1)) b c
  = (count_code d b c + if acc_matches b c a then 1 else 0)%nat.
Proof.
  unfold count_code; simpl. rewrite filter_app, length_app. simpl.
  destruct (acc_matches b c a); reflexivity.
Qed.


Lemma existsb_code_notin c defs :
  ~ In c (map def_code defs) -> existsb (fun def => str_eqb (def_code def) c) defs = false.
Proof.
  intros Hn. apply not_true_iff_false. intros Hex.
  apply existsb_exists in Hex as (def & Hin & He). apply str_eqb_eq in He.
  apply Hn. rewrite <- He. apply in_map, Hin.
Qed.

Lemma Forall2_impl_in {X Y} (P Q : X -> Y -> Prop) l1 l2 :
  (forall x y, In x l1 -> P x y -> Q x y) -> Forall2 P l1 l2 -> Forall2 Q l1 l2.
Proof.
  intros H HF. induction HF; constructor.
  - apply H; [left; reflexivity | assumption].
  - apply IHHF. intros x' y' Hin. apply H. right; exact Hin.
Qed.

Lemma provision_spec b defs s :
  healthy s -> NoDup (map def_code defs) ->
  exists accts s' added,
    provision b defs s = (Ok accts, s') /\ healthy s'
    /\ st_accounts (ss_db s') = st_accounts (ss_db s) ++ added
    /\ Forall (fun a => acc_business a = b /\ acc_system a = true
                        /\ st_next (ss_db s) <= acc_id a < st_next (ss_db s')) added
    /\ NoDup (map acc_id added)
    /\ List.length added
       = List.length (filter (fun def => Nat.eqb (count_code (ss_db s) b (def_code def)) 0) defs)
    /\ (forall c, count_code (ss_db s') b c =
          if existsb (fun def => str_eqb (def_code def) c) defs
          then Nat.max 1 (count_code (ss_db s) b c) else count_code (ss_db s) b c)
    /\ map fst accts = map (fun def => snd (fst def)) defs
    /\ Forall2 (fun def p => acc_matches b (def_code def) (snd p) = true
                             /\ In (snd p) (st_accounts (ss_db s'))
                             /\ (In (snd p) (st_accounts (ss_db s)) \/ acc_type (snd p) = snd def))
               defs accts
    /\ st_up (ss_db s') = st_up (ss_db s)
    /\ st_clients (ss_db s') = st_clients (ss_db s)
    /\ st_entries (ss_db s') = st_entries (ss_db s)
    /\ st_lines (ss_db s') = st_lines (ss_db s)
    /\ st_next (ss_db s) <= st_next (ss_db s').
Proof.
  revert s; induction defs as [|[[c0 n0] t0] defs IH]; intros s Hs Hnd.
  - exists [], s, []. rewrite app_nil_r. simpl.
    repeat split; try apply Hs; first [reflexivity | constructor | lia | intros; reflexivity].
  - simpl in Hnd. inversion Hnd as [|? ? Hnin Hnd']; subst.
    simpl provision. unfold bind at 1. rewrite goc_account_eq by exact Hs.
    destruct (find (acc_matches b c0) (st_accounts (ss_db s))) as [a|] eqn:Ef.
    + destruct (IH s Hs Hnd') as (accts & s' & added & E & Hs' & Hacc & Hadd & Hnd2 & Hlen & Hcnt
                                  & Hnames & Hf2 & Hup & Hcl & Hen & Hln & Hnx).
      unfold bind. rewrite E. unfold ret.
      exists ((n0, a) :: accts), s', added.
      pose proof Ef as Ef'. apply find_some in Ef' as [Ha Hm].
      assert (Hc0 : count_code (ss_db s) b c0 <> O)
        by (rewrite count_code_zero; congruence).
      simpl. apply Nat.eqb_neq in Hc0. rewrite Hc0.
      split; [reflexivity|]. split; [exact Hs'|]. split; [exact Hacc|].
      split; [exact Hadd|]. split; [exact Hnd2|]. split; [exact Hlen|].
      split.
      { intros c. destruct (str_eqb c0 c) eqn:Ec; simpl.
        - apply str_eqb_eq in Ec; subst c.
          rewrite Hcnt, existsb_code_notin by exact Hnin.
          apply Nat.eqb_neq in Hc0.
          destruct (count_code (ss_db s) b c0); [congruence|reflexivity].
        - apply Hcnt. }
      split; [f_equal; exact Hnames|].
      split.
      { constructor; [|exact Hf2]. simpl. split; [exact Hm|split; [|left; exact Ha]].
        rewrite Hacc. apply in_or_app. left; exact Ha. }
      auto.
    + apply count_code_zero in Ef.
      destruct s as [[up accs cls ens lns nx] p br]; destruct Hs as (Hb & Hu & Hp);
        simpl in *; subst.
      set (a := mkaccount nx b c0 n0 t0 true true).
      set (s1 := mksess (mkstore true (accs ++ [a]) cls ens lns (nx + 1)) [] false).
      assert (Hs1 : healthy s1) by (repeat split).
      destruct (IH s1 Hs1 Hnd') as (accts & s' & added & E & Hs' & Hacc & Hadd & Hnd2 & Hlen
                                    & Hcnt & Hnames & Hf2 & Hup & Hcl & Hen & Hln & Hnx).
      simpl in Hacc, Hadd, Hlen, Hcnt, Hf2, Hup, Hcl, Hen, Hln, Hnx.
      assert (Hs1c : forall c, count_code (ss_db s1) b c
                               = (count_code (mkstore true accs cls ens lns nx) b c
                                  + if str_eqb c0 c then 1 else 0)%nat).
      { intros c. unfold count_code; simpl. rewrite filter_app, length_app. simpl.
        unfold a. rewrite acc_matches_new. destruct (str_eqb c0 c); reflexivity. }
      assert (Hne : forall def, In def defs -> str_eqb c0 (def_code def) = false).
      { intros def Hin. apply not_true_iff_false. intros E0. apply str_eqb_eq in E0.
        apply Hnin. rewrite E0. apply in_map, Hin. }
      simpl in Hne.
      unfold bind. simpl. unfold bind in E. rewrite E. unfold ret.
      exists ((n0, a) :: accts), s', (a :: added).
      split; [reflexivity|]. split; [exact Hs'|].
      split; [rewrite Hacc, <- app_assoc; reflexivity|].
      split.
      { constructor; [unfold a; simpl; repeat split; lia|].
        eapply Forall_impl; [|exact Hadd]. simpl. intros x (? & ? & ? & ?). repeat split; auto; lia. }
      split.
      { simpl. constructor; [|exact Hnd2]. intros Hin. apply in_map_iff in Hin as (x & Hx & Hin).
        rewrite Forall_forall in Hadd. specialize (Hadd x Hin). unfold a in Hx; simpl in Hx. lia. }
      split.
      { simpl. rewrite Ef. simpl. f_equal. rewrite Hlen. f_equal. apply filter_ext_in.
        intros def Hin. rewrite Hs1c, Hne by exact Hin. rewrite Nat.add_0_r. reflexivity. }
      split.
      { intros c. rewrite Hcnt, Hs1c. simpl. destruct (str_eqb c0 c) eqn:Ec; simpl.
        - apply str_eqb_eq in Ec; subst c. rewrite existsb_code_notin by exact Hnin.
          rewrite Ef. reflexivity.
        - rewrite Nat.add_0_r. reflexivity. }
      split; [simpl; f_equal; exact Hnames|].
      split.
      { constructor.
        - simpl. split; [unfold a; rewrite acc_matches_new; apply str_eqb_refl|].
          split; [rewrite Hacc; apply in_or_app; left; apply in_or_app; right; left; reflexivity|].
          right; reflexivity.
        - eapply Forall2_impl_in; [|exact Hf2]. intros def q Hdef (Hm & Hin & Hor).
          split; [exact Hm|split; [exact Hin|]].
          destruct Hor as [Hor|Hor]; [|right; exact Hor].
          apply in_app_or in Hor as [Hor|[Hor|[]]]; [left; exact Hor|].
          rewrite <- Hor in Hm. unfold a in Hm. rewrite acc_matches_new, Hne in Hm by exact Hdef.
          discriminate. }
      simpl. repeat split; auto; lia.
Qed.

Lemma filter_false_in {X} (f : X -> bool) l :
  (forall x, In x l -> f x = false) -> filter f l = [].
Proof.
  induction l as [|x l IHl]; intros H; [reflexivity|]. simpl.
  rewrite H by (left; reflexivity). apply IHl. intros y Hy. apply H. right; exact Hy.
Qed.

Lemma filter_true_in {X} (f : X -> bool) l :
  (forall x, In x l -> f x = true) -> filter f l = l.
Proof.
  induction l as [|x l IHl]; intros H; [reflexivity|]. simpl.
  rewrite H by (left; reflexivity). f_equal. apply IHl. intros y Hy. apply H. right; exact Hy.
Qed.

Lemma default_codes_nodup : NoDup default_codes.
Proof.
  vm_compute.
  repeat (constructor; [simpl; intuition discriminate|]).
  constructor.
Qed.

Lemma existsb_default_codes c :
  existsb (fun def => str_eqb (def_code def) c) default_accounts = true <-> In c default_codes.
Proof.
  unfold default_codes. rewrite existsb_exists, in_map_iff. split.
  - intros (def & Hin & He). apply str_eqb_eq in He. exists def; split; assumption.
  - intros (def & He & Hin). exists def. split; [exact Hin|]. rewrite He. apply str_eqb_refl.
Qed.

Lemma provision_n_spec n b s :
  healthy s ->
  exists s' added,
    provision_n n b s = (Ok tt, s') /\ healthy s'
    /\ st_accounts (ss_db s') = st_accounts (ss_db s) ++ added
    /\ Forall (fun a => acc_business a = b /\ acc_system a = true) added
    /\ (forall c, count_code (ss_db s') b c =
          if existsb (fun def => str_eqb (def_code def) c) default_accounts
          then match n with O => count_code (ss_db s) b c
                       | S _ => Nat.max 1 (count_code (ss_db s) b c) end
          else count_code (ss_db s) b c)
    /\ List.length added = match n with
                           | O => O
                           | S _ => List.length (filter (fun def =>
                                      Nat.eqb (count_code (ss_db s) b (def_code def)) 0)
                                      default_accounts)
                           end.
Proof.
  revert s; induction n as [|n IH]; intros s Hs.
  - exists s, []. rewrite app_nil_r. repeat split; try apply Hs; try constructor.
    intros c. destruct existsb; reflexivity.
  - destruct (provision_spec b default_accounts s Hs default_codes_nodup)
      as (accts & s1 & added1 & E1 & Hs1 & Hacc1 & Hadd1 & _ & Hlen1 & Hcnt1 & _).
    destruct (IH s1 Hs1) as (s' & added2 & E2 & Hs' & Hacc2 & Hadd2 & Hcnt2 & Hlen2).
    exists s', (added1 ++ added2). simpl provision_n. unfold bind at 1.
    unfold get_or_create_default_accounts. rewrite E1, E2.
    split; [reflexivity|]. split; [exact Hs'|].
    split; [rewrite Hacc2, Hacc1, app_assoc; reflexivity|].
    split.
    { apply Forall_app; split; [|exact Hadd2].
      eapply Forall_impl; [|exact Hadd1]. simpl. intros a (? & ? & _). split; assumption. }
    split.
    { intros c. rewrite Hcnt2, Hcnt1. destruct existsb; [|reflexivity].
      destruct n; [reflexivity|]. lia. }
    destruct n as [|n]; [simpl in Hlen2; rewrite length_app, Hlen1, Hlen2; lia|].
    rewrite length_app, Hlen1, Hlen2.
    assert (filter (fun def => Nat.eqb (count_code (ss_db s1) b (def_code def)) 0)
              default_accounts = []) as ->.
    { apply filter_false_in. intros def Hin. rewrite Hcnt1.
      rewrite (proj2 (existsb_exists _ _)) by (exists def; split; [exact Hin|apply str_eqb_refl]).
      apply Nat.eqb_neq; lia. }
    simpl. lia.
Qed.

Lemma length_filter_map {X Y} (f : Y -> bool) (g : X -> Y) l :
  List.length (filter (fun x => f (g x)) l) = List.length (filter f (map g l)).
Proof.
  induction l as [|x l IHl]; [reflexivity|]. simpl.
  destruct (f (g x)); simpl; rewrite IHl; reflexivity.
Qed.

Lemma no_business_accounts d b :
  business_accounts d b = [] ->
  (forall c, count_code d b c = O) /\ system_accounts d b = [].
Proof.
  unfold business_accounts, count_code, system_accounts, acc_matches.
  induction (st_accounts d) as [|a l IHl]; [split; reflexivity|].
  simpl. destruct (acc_business a =? b); [discriminate|]. simpl. exact IHl.
Qed.

(** C8: calling the provisioner N >= 1 times for business [b] on a working
    session succeeds, only appends accounts (no account is updated or
    deleted), leaves exactly [max 1 k] accounts of [b] for each of the four
    default codes that had [k] before and the other codes unchanged, and
    creates one account per default code that was missing; so for a
    business with no accounts, exactly 4 system accounts exist afterwards,
    however many calls were made. *)
Theorem provisioning_idempotent n b s :
  (1 <= n)%nat -> healthy s ->
  exists s' added,
    provision_n n b s = (Ok tt, s')
    /\ st_accounts (ss_db s') = st_accounts (ss_db s) ++ added
    /\ (forall c, In c default_codes ->
                  count_code (ss_db s') b c = Nat.max 1 (count_code (ss_db s) b c))
    /\ (forall c, ~ In c default_codes -> count_code (ss_db s') b c = count_code (ss_db s) b c)
    /\ List.length added
       = List.length (filter (fun c => Nat.eqb (count_code (ss_db s) b c) 0) default_codes)
    /\ (business_accounts (ss_db s) b = [] ->
        List.length (system_accounts (ss_db s') b) = 4%nat).
Proof.
  intros Hn Hs. destruct n as [|n]; [lia|].
  destruct (provision_n_spec (S n) b s Hs)
    as (s' & added & E & _ & Hacc & Hadd & Hcnt & Hlen).
  assert (Hlen' : List.length added
         = List.length (filter (fun c => Nat.eqb (count_code (ss_db s) b c) 0) default_codes)).
  { rewrite Hlen. unfold default_codes.
    apply (length_filter_map (fun c => Nat.eqb (count_code (ss_db s) b c) 0) def_code). }
  exists s', added. split; [exact E|]. split; [exact Hacc|].
  split; [intros c Hc; rewrite Hcnt; apply existsb_default_codes in Hc; rewrite Hc; reflexivity|].
  split.
  { intros c Hc. rewrite Hcnt. destruct existsb eqn:Ex; [|reflexivity].
    apply existsb_default_codes in Ex. contradiction. }
  split; [exact Hlen'|].
  intros Hnone. destruct (no_business_accounts _ _ Hnone) as [H0 Hsys].
  unfold system_accounts in *. rewrite Hacc, filter_app, Hsys. simpl.
  rewrite (filter_true_in _ added), Hlen'.
  - rewrite filter_true_in; [reflexivity|]. intros c _. rewrite H0. reflexivity.
  - rewrite Forall_forall in Hadd. intros a Ha. destruct (Hadd a Ha) as [-> ->].
    rewrite Z.eqb_refl. reflexivity.
Qed.

Lemma provisioning_idempotent_witness :
  let s := mksess (mkstore true [] [] [] [] 1) [] false in
  (1 <= 2)%nat /\ healthy s /\
  exists s' added,
    provision_n 2 7 s = (Ok tt, s')
    /\ st_accounts (ss_db s') = st_accounts (ss_db s) ++ added
    /\ (forall c, In c default_codes ->
                  count_code (ss_db s') 7 c = Nat.max 1 (count_code (ss_db s) 7 c))
    /\ (forall c, ~ In c default_codes -> count_code (ss_db s') 7 c = count_code (ss_db s) 7 c)
    /\ List.length added
       = List.length (filter (fun c => Nat.eqb (count_code (ss_db s) 7 c) 0) default_codes)
    /\ (business_accounts (ss_db s) 7 = [] ->
        List.length (system_accounts (ss_db s') 7) = 4%nat).
Proof.
  intros s. assert (Hs : healthy s) by (vm_compute; repeat split).
  split; [lia|]. split; [exact Hs|].
  apply (provisioning_idempotent 2 7 s); [lia|exact Hs].
Defined.

Lemma sum_debit_app l1 l2 : sum_debit (l1 ++ l2) = sum_debit l1 + sum_debit l2.
Proof. induction l1; simpl; [reflexivity|]. rewrite IHl1. lia. Qed.

Lemma sum_credit_app l1 l2 : sum_credit (l1 ++ l2) = sum_credit l1 + sum_credit l2.
Proof. induction l1; simpl; [reflexivity|]. rewrite IHl1. lia. Qed.

Lemma balanced_growth_refl s : balanced_growth s s.
Proof.
  split; [lia|]. exists [], []. rewrite !app_nil_r. repeat split; try constructor.
Qed.

Lemma Forall_range_weaken {X} (f : X -> Z) lo1 hi1 lo2 hi2 l :
  Forall (fun x => lo1 <= f x < hi1) l ->
  lo2 <= lo1 -> hi1 <= hi2 -> Forall (fun x => lo2 <= f x < hi2) l.
Proof. intros HF H1 H2. revert HF. apply Forall_impl. intros x Hx. lia. Qed.

Lemma balanced_growth_trans s1 s2 s3 :
  balanced_growth s1 s2 -> balanced_growth s2 s3 -> balanced_growth s1 s3.
Proof.
  intros (Hn1 & E1 & L1 & He1 & Hl1 & HE1 & HL1 & Hb1)
         (Hn2 & E2 & L2 & He2 & Hl2 & HE2 & HL2 & Hb2).
  split; [lia|]. exists (E1 ++ E2), (L1 ++ L2).
  rewrite He2, He1, Hl2, Hl1, !app_assoc. split; [reflexivity|]. split; [reflexivity|].
  split; [apply Forall_app; split;
          [apply (Forall_range_weaken _ _ _ _ _ _ HE1) | apply (Forall_range_weaken _ _ _ _ _ _ HE2)];
          lia|].
  split; [apply Forall_app; split;
          [apply (Forall_range_weaken _ _ _ _ _ _ HL1) | apply (Forall_range_weaken _ _ _ _ _ _ HL2)];
          lia|].
  intros k. rewrite !filter_app, sum_debit_app, sum_credit_app, Hb1, Hb2. reflexivity.
Qed.

Lemma bal_keep {A} (m : M A) :
  (forall s, st_entries (ss_db (snd (m s))) = st_entries (ss_db s)
             /\ st_lines (ss_db (snd (m s))) = st_lines (ss_db s)
             /\ st_next (ss_db s) <= st_next (ss_db (snd (m s)))) ->
  pres balanced_growth m.
Proof.
  intros H s. destruct (H s) as (He & Hl & Hn). split; [exact Hn|].
  exists [], []. rewrite He, Hl, !app_nil_r. repeat split; try constructor.
Qed.

Ltac bal_keep_tac :=
  apply bal_keep; intros [[up ? ? ? ? nx] ? []];
  unfold execute, flush, flush_new, get_db, fresh_id, add_account, add_client, map_db; simpl;
  repeat match goal with |- context [if ?c then _ else _] => destruct c end;
  simpl; repeat split; lia.

Lemma bal_execute : pres balanced_growth execute.
Proof. bal_keep_tac. Qed.

Lemma bal_flush_new ok : pres balanced_growth (flush_new ok).
Proof. bal_keep_tac. Qed.

Lemma bal_flush : pres balanced_growth flush.
Proof. apply bal_flush_new. Qed.

Lemma bal_get_db : pres balanced_growth get_db.
Proof. bal_keep_tac. Qed.

Lemma bal_fresh_id : pres balanced_growth fresh_id.
Proof. bal_keep_tac. Qed.

Lemma bal_add_account a : pres balanced_growth (add_account a).
Proof. bal_keep_tac. Qed.

Lemma bal_add_client c : pres balanced_growth (add_client c).
Proof. bal_keep_tac. Qed.

Ltac bal_leaf :=
  first [ apply bal_execute | apply bal_flush_new | apply bal_get_db | apply bal_fresh_id
        | apply bal_add_account | apply bal_add_client ].

Lemma bal_get_or_create_client name b : pres balanced_growth (get_or_create_client name b).
Proof.
  unfold get_or_create_client, query_client.
  pres_with balanced_growth_refl balanced_growth_trans; bal_leaf.
Qed.

Lemma bal_provision b defs : pres balanced_growth (provision b defs).
Proof.
  induction defs as [|[[code name] ty] defs IH]; simpl.
  - apply pres_ret, balanced_growth_refl.
  - unfold get_or_create_account, query_account.
    pres_with balanced_growth_refl balanced_growth_trans; first [ exact IH | bal_leaf ].
Qed.

Lemma bal_save_row {dp : DateParser} b accts r : pres balanced_growth (save_row b accts r).
Proof.
  unfold save_row. apply pres_bind;
    [exact balanced_growth_trans|apply bal_get_or_create_client|intros client].
  apply pres_bind; [exact balanced_growth_trans| |intros entry_date].
  { unfold entry_date_of. destruct (to_datetime (r_date r));
      [apply pres_ret|apply pres_raise]; exact balanced_growth_refl. }
  intros [[up accs cls ens lns nx] p br].
  unfold bind at 1, fresh_id; simpl.
  unfold bind at 1, add_entry, map_db; simpl.
  unfold bind at 1, flush, flush_new; simpl.
  destruct br; simpl.
  { split; [simpl; lia|]. eexists [_], []. rewrite app_nil_r.
    repeat split; repeat constructor; simpl; lia. }
  destruct up; simpl.
  2:{ split; [simpl; lia|]. eexists [_], []. rewrite app_nil_r.
      repeat split; repeat constructor; simpl; lia. }
  destruct (forallb line_ok p && _); simpl.
  2:{ split; [simpl; lia|]. eexists [_], []. rewrite app_nil_r.
      repeat split; repeat constructor; simpl; lia. }
  unfold bind at 1, decimal_of.
  destruct (r_amount r) as [amount|txt]; simpl.
  2:{ split; [simpl; lia|]. eexists [_], []. rewrite app_nil_r.
      repeat split; repeat constructor; simpl; lia. }
  unfold ret, account_named.
  unfold bind, raise, add_line; simpl;
  repeat (match goal with
          | |- context [match lookup_name ?a ?n with Some _ => _ | None => _ end] =>
              destruct (lookup_name a n)
          | |- context [if str_eqb ?x ?y then _ else _] => destruct (str_eqb x y)
          end; simpl);
    (split; [simpl; lia|]);
    first
      [ eexists [_], []; rewrite app_nil_r; repeat split; repeat constructor; simpl; lia
      | eexists [_], [_; _]; rewrite <- app_assoc;
        split; [reflexivity|]; split; [reflexivity|];
        split; [repeat constructor; simpl; lia|];
        split; [repeat constructor; simpl; lia|];
        intros k; simpl; destruct (nx =? k); simpl; lia ].
Qed.

Lemma balanced_growth_entries s s' :
  Forall (fun l => ln_entry l < st_next (ss_db s)) (st_lines (ss_db s)) ->
  balanced_growth s s' ->
  exists added, st_entries (ss_db s') = st_entries (ss_db s) ++ added
                /\ Forall (entry_balanced (ss_db s')) added.
Proof.
  intros Hold (Hn & E & L & He & Hl & HE & HL & Hb). exists E. split; [exact He|].
  rewrite Forall_forall in *. intros e Hin. specialize (HE e Hin).
  unfold entry_balanced, lines_of. rewrite Hl, filter_app.
  rewrite (filter_false_in _ (st_lines (ss_db s))).
  - apply Hb.
  - intros l Hl'. specialize (Hold l Hl'). apply Z.eqb_neq. lia.
Qed.

(** C2: for any batch of records, of any kind, the journal entries left in
    the database by [save_transactions_to_database] are the old entries
    followed by new ones, and every new entry has equal debit and credit
    totals over its lines (the old lines belonging to entries keyed below
    the key counter). *)
Theorem save_entries_balanced {dp : DateParser} rows b db :
  Forall (fun l => ln_entry l < st_next db) (st_lines db) ->
  exists added,
    st_entries (snd (save_transactions_to_database rows b db)) = st_entries db ++ added
    /\ Forall (entry_balanced (snd (save_transactions_to_database rows b db))) added.
Proof.
  intros Hold.
  assert (Hnone : exists added, st_entries db = st_entries db ++ added
                                /\ Forall (entry_balanced db) added)
    by (exists []; rewrite app_nil_r; auto).
  unfold save_transactions_to_database.
  set (s0 := mksess db [] false).
  pose proof (bal_provision b default_accounts s0) as H1.
  unfold get_or_create_default_accounts.
  destruct (provision b default_accounts s0) as [[accts|e] s1] eqn:E1; simpl in H1;
    [|exact Hnone].
  pose proof (pres_save_rows balanced_growth balanced_growth_refl balanced_growth_trans
                b accts (bal_save_row b accts) rows O s1) as H2.
  destruct (save_rows b accts rows O s1) as [[n|e] s2] eqn:E2; simpl in H2; [|exact Hnone].
  pose proof (bal_flush s2) as H3.
  destruct (flush s2) as [[u|e] s3] eqn:E3; simpl in H3; [|exact Hnone].
  apply (balanced_growth_entries s0 s3 Hold).
  exact (balanced_growth_trans _ _ _ (balanced_growth_trans _ _ _ H1 H2) H3).
Qed.

Lemma save_entries_balanced_witness :
  Forall (fun l => ln_entry l < st_next empty_db) (st_lines empty_db) /\
  exists added,
    st_entries (snd (save_transactions_to_database (dp := iso_to_datetime) [example_income; example_expense] 7 empty_db))
    = st_entries empty_db ++ added
    /\ Forall (entry_balanced
                 (snd (save_transactions_to_database (dp := iso_to_datetime) [example_income; example_expense] 7 empty_db)))
              added.
Proof.
  split; [constructor|].
  apply (save_entries_balanced (dp := iso_to_datetime) [example_income; example_expense] 7 empty_db).
  constructor.
Defined.

Lemma goc_client_ok name b s :
  healthy s -> varchar_ok 255 name = true ->
  exists c s1, get_or_create_client name b s = (Ok c, s1) /\ healthy s1
    /\ cl_name c = name /\ cl_business c = b
    /\ st_entries (ss_db s1) = st_entries (ss_db s) /\ st_lines (ss_db s1) = st_lines (ss_db s).
Proof.
  intros Hs Hn. rewrite (goc_client_eq _ _ _ Hs Hn).
  destruct (find _ (st_clients (ss_db s))) as [c|] eqn:Ef.
  - apply find_some in Ef as [_ Hc].
    apply andb_true_iff in Hc as [Hc _]; apply andb_true_iff in Hc as [Hb Hn'].
    apply Z.eqb_eq in Hb; apply str_eqb_eq in Hn'.
    exists c, s. repeat split; try apply Hs; auto.
  - destruct s as [[up accs cls ens lns nx] p br]; destruct Hs as (Hbr & Hu & Hp);
      simpl in *; subst.
    eexists _, _. split; [reflexivity|]. repeat split; try reflexivity; assumption.
Qed.

Lemma fits_columns_parts r :
  fits_columns r = true ->
  varchar_ok 255 (str_cell (r_client r)) = true /\ text_ok (str_cell (r_description r)) = true
  /\ varchar_ok 100 (gst_of r) = true
  /\ (forall a, r_amount r = ANum a -> numeric_ok a = true).
Proof.
  unfold fits_columns. intros H.
  apply andb_true_iff in H as [H H4]; apply andb_true_iff in H as [H H3];
    apply andb_true_iff in H as [H1 H2].
  split; [exact H1|]. split; [exact H2|]. split; [exact H3|].
  intros a Ha. rewrite Ha in H4. exact H4.
Qed.

Lemma line_ok_pair id acc1 acc2 c a desc gst :
  0 <= a -> numeric_ok a = true -> text_ok desc = true -> varchar_ok 100 gst = true ->
  forallb line_ok [mkline id acc1 c 1 a 0 desc gst; mkline id acc2 c 2 0 a desc gst] = true.
Proof.
  intros Ha Hn Hd Hg. unfold line_ok, line_checks; simpl. rewrite Hn, Hd, Hg.
  destruct (Z.eqb_spec a 0) as [->|Hne]; [reflexivity|].
  assert ((0 <? a) = true) as -> by (apply Z.ltb_lt; lia).
  assert ((0 <=? a) = true) as -> by (apply Z.leb_le; lia). reflexivity.
Qed.




Lemma goc_client_cases name b s :
  healthy s -> varchar_ok 255 name = true ->
  exists c s1, get_or_create_client name b s = (Ok c, s1)
    /\ cl_name c = name /\ cl_business c = b
    /\ ((In c (st_clients (ss_db s)) /\ s1 = s)
        \/ (cl_id c = st_next (ss_db s)
            /\ s1 = mksess (mkstore (st_up (ss_db s)) (st_accounts (ss_db s))
                                    (st_clients (ss_db s) ++ [c]) (st_entries (ss_db s))
                                    (st_lines (ss_db s)) (st_next (ss_db s) + 1)) [] false)).
Proof.
  intros Hs Hn. rewrite (goc_client_eq _ _ _ Hs Hn).
  destruct (find _ (st_clients (ss_db s))) as [c|] eqn:Ef.
  - apply find_some in Ef as [Hin Hc].
    apply andb_true_iff in Hc as [Hc _]; apply andb_true_iff in Hc as [Hb Hn'].
    apply Z.eqb_eq in Hb; apply str_eqb_eq in Hn'.
    exists c, s. repeat split; auto.
  - eexists _, _. split; [reflexivity|]. simpl. split; [reflexivity|]. split; [reflexivity|].
    right. split; reflexivity.
Qed.


Lemma save_row_num_eq {dp : DateParser} b accts r s a dt bank rev exp :
  healthy s -> r_amount r = ANum a -> to_datetime (r_date r) = Some dt ->
  varchar_ok 255 (str_cell (r_client r)) = true -> text_ok (str_cell (r_description r)) = true ->
  lookup_name accts (Py.lit "Bank Account") = Some bank ->
  lookup_name accts (Py.lit "Revenue") = Some rev ->
  lookup_name accts (Py.lit "Expenses") = Some exp ->
  exists client s1,
    get_or_create_client (str_cell (r_client r)) b s = (Ok client, s1) /\ healthy s1 /\
    let d := ss_db s1 in
    let id := st_next d in
    let desc := str_cell (r_description r) in
    let l1 := mkline id (acc_id (if is_income r then bank else exp)) (Some (cl_id client)) 1 a 0
                     desc (gst_of r) in
    let l2 := mkline id (acc_id (if is_income r then rev else bank)) (Some (cl_id client)) 2 0 a
                     desc (gst_of r) in
    save_row b accts r s =
      (Ok tt, mksess (mkstore (st_up d) (st_accounts d) (st_clients d)
                        (st_entries d ++ [mkentry id b (reference_number id) dt
                                            (Some desc) CSV_IMPORT true (Py.lit "CSV Import")])
                        (st_lines d ++ [l1; l2]) (id + 1))
                     [l1; l2] false).
Proof.
  intros Hs Ham Hdt Hn Hd Hbank Hrev Hexp.
  destruct (goc_client_ok (str_cell (r_client r)) b s Hs Hn)
    as (client & s1 & Eg & Hs1 & _ & _ & _ & _).
  exists client, s1. split; [exact Eg|]. split; [exact Hs1|].
  destruct s1 as [[up accs cls ens lns nx] p br]; destruct Hs1 as (Hb1 & Hu & Hp);
    simpl in Hb1, Hu, Hp; subst br up.
  unfold save_row, account_named. rewrite Hbank, Hrev, Hexp. unfold is_income.
  destruct (str_eqb (Py.lower (str_cell (r_type r))) (Py.lit "income"));
  unfold bind at 1; rewrite Eg;
  unfold bind, entry_date_of, fresh_id, add_entry, map_db, flush_new, entry_ok, decimal_of,
    add_line, ret;
    simpl; rewrite Hdt; simpl; rewrite Hp, Hd, Ham; simpl; rewrite <- app_assoc; reflexivity.
Qed.

























Lemma default_provisioning b s :
  healthy s ->
  exists s1 added bank rev exp recv,
    get_or_create_default_accounts b s
      = (Ok [(Py.lit "Bank Account", bank); (Py.lit "Revenue", rev);
             (Py.lit "Expenses", exp); (Py.lit "Accounts Receivable", recv)], s1)
    /\ healthy s1
    /\ st_accounts (ss_db s1) = st_accounts (ss_db s) ++ added
    /\ Forall (fun a => acc_business a = b /\ acc_system a = true
                        /\ st_next (ss_db s) <= acc_id a < st_next (ss_db s1)) added
    /\ NoDup (map acc_id added)
    /\ acc_matches b (Py.lit "1000") bank = true /\ acc_matches b (Py.lit "4000") rev = true
    /\ acc_matches b (Py.lit "5000") exp = true
    /\ In bank (st_accounts (ss_db s1)) /\ In rev (st_accounts (ss_db s1))
    /\ In exp (st_accounts (ss_db s1))
    /\ (In bank (st_accounts (ss_db s)) \/ acc_type bank = ASSET)
    /\ (In rev (st_accounts (ss_db s)) \/ acc_type rev = INCOME)
    /\ (In exp (st_accounts (ss_db s)) \/ acc_type exp = EXPENSE)
    /\ st_up (ss_db s1) = st_up (ss_db s)
    /\ st_clients (ss_db s1) = st_clients (ss_db s)
    /\ st_entries (ss_db s1) = st_entries (ss_db s)
    /\ st_lines (ss_db s1) = st_lines (ss_db s)
    /\ st_next (ss_db s) <= st_next (ss_db s1).
Proof.
  intros Hs.
  destruct (provision_spec b default_accounts s Hs default_codes_nodup)
    as (accts & s1 & added & E & Hs1 & Hacc & Hadd & Hnd & _ & _ & Hnames & Hf2
        & Hup & Hcl & Hen & Hln & Hnx).
  unfold default_accounts in Hf2.
  inversion Hf2 as [|d1 p1 l1 r1 H1 F1]; subst.
  inversion F1 as [|d2 p2 l2 r2 H2 F2]; subst.
  inversion F2 as [|d3 p3 l3 r3 H3 F3]; subst.
  inversion F3 as [|d4 p4 l4 r4 H4 F4]; subst.
  inversion F4; subst.
  destruct p1 as [n1 bank], p2 as [n2 rev], p3 as [n3 exp], p4 as [n4 recv].
  simpl in Hnames. injection Hnames as -> -> -> ->.
  destruct H1 as (M1 & I1 & T1), H2 as (M2 & I2 & T2), H3 as (M3 & I3 & T3).
  exists s1, added, bank, rev, exp, recv.
  split; [exact E|]. split; [exact Hs1|]. split; [exact Hacc|].
  split; [eapply Forall_impl; [|exact Hadd]; simpl; intros a (? & ? & ?); auto|].
  split; [exact Hnd|]. split; [exact M1|]. split; [exact M2|]. split; [exact M3|].
  split; [exact I1|]. split; [exact I2|]. split; [exact I3|].
  split; [exact T1|]. split; [exact T2|]. split; [exact T3|].
  auto.
Qed.

Lemma flush_healthy s : healthy s -> flush s = (Ok tt, mksess (ss_db s) [] false).
Proof.
  intros (Hb & Hu & Hp). unfold flush, flush_new. rewrite Hb, Hu, Hp. reflexivity.
Qed.




Lemma six_months_ago_closed today :
  1 <= month today <= 12 -> six_months_ago today = lookback_start today.
Proof.
  destruct today as [y m d]; simpl; intros Hm.
  assert (m = 1 \/ m = 2 \/ m = 3 \/ m = 4 \/ m = 5 \/ m = 6 \/ m = 7 \/ m = 8
          \/ m = 9 \/ m = 10 \/ m = 11 \/ m = 12) by lia.
  repeat destruct H as [-> | H]; [reflexivity ..|]. subst. reflexivity.
Qed.

(** C7 (amended): the duplicate filter reads the signatures of every
    journal entry of business [b] dated on or after the first day of the
    month six calendar months before the current month, posted or not:
    whenever those signatures compute, a record is reported new exactly
    when its signature is not among them. *)
Theorem duplicate_lookup_scope today df b db sigs existing :
  st_up db = true -> 1 <= month today <= 12 ->
  map_result create_transaction_signature df = Ok sigs ->
  map_result (entry_signature db) (filter (in_lookback b today) (st_entries db)) = Ok existing ->
  filter_duplicate_transactions today df b db =
    (map fst (filter (fun p => negb (mem_str (snd p) existing)) (combine df sigs)),
     List.length (filter (fun p => mem_str (snd p) existing) (combine df sigs))).
Proof.
  intros Hup Hm Hs He.
  unfold filter_duplicate_transactions, run_session, filter_body, bind, lift.
  rewrite Hs. unfold query_entries, bind, execute, get_db, ret. simpl. rewrite Hup.
  rewrite six_months_ago_closed by exact Hm. fold (in_lookback b today).
  change (ss_db (mksess db [] false)) with db. rewrite He.
  unfold flush, flush_new; simpl; rewrite Hup; reflexivity.
Qed.

Lemma duplicate_lookup_scope_witness :
  exists sigs existing,
  st_up unposted_db = true /\ 1 <= month (mkdate 2026 3 10) <= 12 /\
  map_result create_transaction_signature [example_income] = Ok sigs /\
  map_result (entry_signature unposted_db)
    (filter (in_lookback 7 (mkdate 2026 3 10)) (st_entries unposted_db)) = Ok existing /\
  filter_duplicate_transactions (mkdate 2026 3 10) [example_income] 7 unposted_db =
    (map fst (filter (fun p => negb (mem_str (snd p) existing)) (combine [example_income] sigs)),
     List.length (filter (fun p => mem_str (snd p) existing) (combine [example_income] sigs))).
Proof.
  assert (H1 : st_up unposted_db = true) by (vm_compute; reflexivity).
  assert (H2 : 1 <= month (mkdate 2026 3 10) <= 12) by (simpl; lia).
  assert (exists sigs, map_result create_transaction_signature [example_income] = Ok sigs)
    as [sigs H3].
  { destruct (map_result create_transaction_signature [example_income]) eqn:E;
      [eexists; reflexivity | vm_compute in E; discriminate]. }
  assert (exists existing, map_result (entry_signature unposted_db)
            (filter (in_lookback 7 (mkdate 2026 3 10)) (st_entries unposted_db)) = Ok existing)
    as [existing H4].
  { destruct (map_result (entry_signature unposted_db)
                (filter (in_lookback 7 (mkdate 2026 3 10)) (st_entries unposted_db))) eqn:E;
      [eexists; reflexivity | vm_compute in E; discriminate]. }
  exists sigs, existing.
  split; [exact H1|]. split; [exact H2|]. split; [exact H3|]. split; [exact H4|].
  exact (duplicate_lookup_scope _ _ _ _ _ _ H1 H2 H3 H4).
Defined.

(** C7 (counterexample): an entry whose posted flag is false still
    contributes its signature, so re-submitting its record is reported as a
    duplicate. *)
Lemma duplicate_lookup_unposted_cex :
  st_entries unposted_db <> [] /\
  forallb je_posted (st_entries unposted_db) = false /\
  filter_duplicate_transactions (mkdate 2026 3 10) [example_income] 7 unposted_db = ([], 1%nat).
Proof. vm_compute. split; [discriminate | split; reflexivity]. Qed.

Lemma find_key {X} (k : X -> Z) (l : list X) x :
  NoDup (map k l) -> In x l -> find (fun y => k y =? k x) l = Some x.
Proof.
  induction l as [|y l IH]; simpl; [tauto|]. intros Hnd Hin.
  inversion Hnd as [|? ? Hnot Hnd']; subst.
  destruct (Z.eqb_spec (k y) (k x)) as [E|E].
  - destruct Hin as [->|Hin]; [reflexivity|].
    exfalso. apply Hnot. rewrite E. apply in_map. exact Hin.
  - destruct Hin as [->|Hin]; [congruence|]. apply IH; assumption.
Qed.

Lemma find_some_app {X} (f : X -> bool) l1 l2 x :
  find f l1 = Some x -> find f (l1 ++ l2) = Some x.
Proof. intros E. rewrite find_app, E. reflexivity. Qed.

Lemma reconstruct_ext d d' cn am ty ls :
  (forall l, In l ls -> find_account d (ln_account l) <> None
                        /\ (forall c, ln_client l = Some c -> find_client d c <> None)) ->
  (forall i a, find_account d i = Some a -> find_account d' i = Some a) ->
  (forall i c, find_client d i = Some c -> find_client d' i = Some c) ->
  reconstruct d' cn am ty ls = reconstruct d cn am ty ls.
Proof.
  intros Hfk Ha Hc. revert cn am ty.
  induction ls as [|l ls IH]; intros cn am ty; simpl; [reflexivity|].
  destruct (Hfk l (or_introl eq_refl)) as [Hacc Hcl].
  assert (IH' := IH (fun l' H => Hfk l' (or_intror H))).
  assert (Ecl : match ln_client l with
                | Some cid => match find_client d' cid with Some c => cl_name c | None => cn end
                | None => cn end
              = match ln_client l with
                | Some cid => match find_client d cid with Some c => cl_name c | None => cn end
                | None => cn end).
  { destruct (ln_client l) as [cid|]; [|reflexivity].
    destruct (find_client d cid) as [c|] eqn:E; [rewrite (Hc _ _ E); reflexivity|].
    exfalso; exact (Hcl cid eq_refl E). }
  rewrite Ecl.
  destruct (find_account d (ln_account l)) as [a|] eqn:Ea; [|exfalso; exact (Hacc eq_refl)].
  rewrite (Ha _ _ Ea).
  destruct (0 <? ln_debit l); [apply IH'|]. destruct (0 <? ln_credit l); apply IH'.
Qed.

Lemma reconstruct_ok d cn am ty ls :
  (forall l, In l ls -> find_account d (ln_account l) <> None) ->
  exists v, reconstruct d cn am ty ls = Ok v.
Proof.
  revert cn am ty. induction ls as [|l ls IH]; intros cn am ty Hfk; simpl; [eexists; reflexivity|].
  assert (IH' : forall cn am ty, exists v, reconstruct d cn am ty ls = Ok v)
    by (intros; apply IH; intros; apply Hfk; right; assumption).
  destruct (find_account d (ln_account l)) as [a|] eqn:Ea;
    [|exfalso; exact (Hfk l (or_introl eq_refl) Ea)].
  destruct (0 <? ln_debit l); [apply IH'|]. destruct (0 <? ln_credit l); apply IH'.
Qed.

Lemma ext_refl d : ext d d.
Proof.
  repeat split; try lia; try (exists []; rewrite app_nil_r; reflexivity).
  exists []. rewrite app_nil_r. split; [reflexivity|constructor].
Qed.

Lemma ext_trans d1 d2 d3 : ext d1 d2 -> ext d2 d3 -> ext d1 d3.
Proof.
  intros (N1 & [A1 EA1] & [C1 EC1] & [E1 EE1] & [L1 [EL1 F1]])
         (N2 & [A2 EA2] & [C2 EC2] & [E2 EE2] & [L2 [EL2 F2]]).
  split; [lia|].
  split; [exists (A1 ++ A2); rewrite EA2, EA1, app_assoc; reflexivity|].
  split; [exists (C1 ++ C2); rewrite EC2, EC1, app_assoc; reflexivity|].
  split; [exists (E1 ++ E2); rewrite EE2, EE1, app_assoc; reflexivity|].
  exists (L1 ++ L2). split; [rewrite EL2, EL1, app_assoc; reflexivity|].
  apply Forall_app; split; [exact F1|].
  eapply Forall_impl; [|exact F2]. simpl; intros; lia.
Qed.

Lemma entry_signature_ext d d' e :
  wf d -> ext d d' -> In e (st_entries d) -> entry_signature d' e = entry_signature d e.
Proof.
  intros (_ & _ & _ & _ & He & Hl) (N & [A EA] & [C EC] & _ & [L [EL FL]]) Hin.
  assert (Hid : je_id e < st_next d) by (rewrite Forall_forall in He; auto).
  assert (Elines : lines_of d' (je_id e) = lines_of d (je_id e)).
  { unfold lines_of. rewrite EL, filter_app.
    replace (filter (fun l => ln_entry l =? je_id e) L) with (@nil line); [apply app_nil_r|].
    symmetry. apply filter_false_in. rewrite Forall_forall in FL. intros l Hl'.
    apply Z.eqb_neq. specialize (FL l Hl'). lia. }
  unfold entry_signature. rewrite Elines.
  rewrite (reconstruct_ext d d').
  - reflexivity.
  - intros l Hl'. unfold lines_of in Hl'. apply filter_In in Hl' as [Hl' _].
    rewrite Forall_forall in Hl. destruct (Hl l Hl') as (_ & ? & ?). auto.
  - intros i a E. unfold find_account in *. rewrite EA. apply find_some_app. exact E.
  - intros i c E. unfold find_client in *. rewrite EC. apply find_some_app. exact E.
Qed.

Lemma entry_signature_ok d e :
  wf d -> exists sig, entry_signature d e = Ok sig.
Proof.
  intros (_ & _ & _ & _ & _ & Hl). unfold entry_signature.
  destruct (reconstruct_ok d [] 0 py_expense (lines_of d (je_id e))) as [[[cn am] ty] E].
  - intros l Hl'. unfold lines_of in Hl'. apply filter_In in Hl' as [Hl' _].
    rewrite Forall_forall in Hl. apply (Hl l Hl').
  - rewrite E. eexists; reflexivity.
Qed.

Lemma nodup_keys_app {X} (k : X -> Z) l1 l2 n :
  NoDup (map k l1) -> NoDup (map k l2) ->
  Forall (fun x => k x < n) l1 -> Forall (fun x => n <= k x) l2 ->
  NoDup (map k (l1 ++ l2)).
Proof.
  intros N1 N2 F1 F2. rewrite map_app. apply NoDup_app; [exact N1|exact N2|].
  intros z H1 H2. apply in_map_iff in H1 as (x1 & <- & H1). apply in_map_iff in H2 as (x2 & E & H2).
  rewrite Forall_forall in F1, F2. specialize (F1 _ H1). specialize (F2 _ H2). lia.
Qed.

Lemma wf_grow d d' A C E L :
  wf d ->
  st_accounts d' = st_accounts d ++ A -> st_clients d' = st_clients d ++ C ->
  st_entries d' = st_entries d ++ E -> st_lines d' = st_lines d ++ L ->
  st_next d <= st_next d' ->
  Forall (fun a => st_next d <= acc_id a < st_next d') A -> NoDup (map acc_id A) ->
  Forall (fun c => st_next d <= cl_id c < st_next d') C -> NoDup (map cl_id C) ->
  Forall (fun e => je_id e < st_next d') E ->
  Forall (fun l => ln_entry l < st_next d'
                   /\ find_account d' (ln_account l) <> None
                   /\ (forall c, ln_client l = Some c -> find_client d' c <> None)) L ->
  wf d'.
Proof.
  intros (W1 & W2 & W3 & W4 & W5 & W6) EA EC EE EL N FA NA FC NC FE FL.
  assert (Ha : forall i a, find_account d i = Some a -> find_account d' i = Some a)
    by (intros i a Ei; unfold find_account in *; rewrite EA; apply find_some_app; exact Ei).
  assert (Hc : forall i c, find_client d i = Some c -> find_client d' i = Some c)
    by (intros i c Ei; unfold find_client in *; rewrite EC; apply find_some_app; exact Ei).
  split; [|split; [|split; [|split; [|split]]]].
  - rewrite EA. apply Forall_app. split.
    + eapply Forall_impl; [|exact W1]. simpl; intros; lia.
    + eapply Forall_impl; [|exact FA]. simpl; intros; lia.
  - rewrite EA. apply (nodup_keys_app _ _ _ (st_next d) W2 NA W1).
    eapply Forall_impl; [|exact FA]. simpl; intros; lia.
  - rewrite EC. apply Forall_app. split.
    + eapply Forall_impl; [|exact W3]. simpl; intros; lia.
    + eapply Forall_impl; [|exact FC]. simpl; intros; lia.
  - rewrite EC. apply (nodup_keys_app _ _ _ (st_next d) W4 NC W3).
    eapply Forall_impl; [|exact FC]. simpl; intros; lia.
  - rewrite EE. apply Forall_app. split; [|exact FE].
    eapply Forall_impl; [|exact W5]. simpl; intros; lia.
  - rewrite EL. apply Forall_app. split; [|exact FL].
    eapply Forall_impl; [|exact W6]. simpl. intros l (H1 & H2 & H3). split; [lia|split].
    + destruct (find_account d (ln_account l)) as [a|] eqn:Ea; [|congruence].
      rewrite (Ha _ _ Ea). discriminate.
    + intros c Ec. specialize (H3 c Ec).
      destruct (find_client d c) as [x|] eqn:Ex; [|congruence].
      rewrite (Hc _ _ Ex). discriminate.
Qed.

Lemma norm_if_nonempty_text x : norm_if_nonempty x = norm_text x.
Proof. destruct x; reflexivity. Qed.

Lemma goc_wf name b s c s1 :
  healthy s -> varchar_ok 255 name = true -> wf (ss_db s) ->
  get_or_create_client name b s = (Ok c, s1) ->
  wf (ss_db s1) /\ ext (ss_db s) (ss_db s1) /\ In c (st_clients (ss_db s1))
  /\ cl_name c = name /\ healthy s1
  /\ st_accounts (ss_db s1) = st_accounts (ss_db s)
  /\ st_entries (ss_db s1) = st_entries (ss_db s)
  /\ st_lines (ss_db s1) = st_lines (ss_db s).
Proof.
  intros Hs Hnm Hw E.
  destruct (goc_client_cases name b s Hs Hnm) as (c' & s1' & E' & Hn & _ & Hcase).
  rewrite E in E'. injection E' as <- <-.
  destruct Hcase as [[Hin ->] | [Hid ->]].
  - exact (conj Hw (conj (ext_refl _) (conj Hin (conj Hn (conj Hs (conj eq_refl (conj eq_refl eq_refl))))))).
  - simpl. assert (Hn0 : st_next (ss_db s) <= st_next (ss_db s) + 1) by lia.
    split.
    { apply (wf_grow (ss_db s) _ [] [c] [] []); simpl; rewrite ?app_nil_r; auto;
        repeat constructor; try lia; intros []. }
    split.
    { split; [simpl; lia|]. simpl.
      split; [exists []; rewrite app_nil_r; reflexivity|].
      split; [exists [c]; reflexivity|].
      split; [exists []; rewrite app_nil_r; reflexivity|].
      exists []. rewrite app_nil_r. split; [reflexivity|constructor]. }
    split; [apply in_or_app; right; left; reflexivity|].
    split; [exact Hn|]. split; [|repeat split].
    destruct Hs as (_ & Hu & _). repeat split; simpl; auto.
Qed.

Lemma find_account_in d a :
  wf d -> In a (st_accounts d) -> find_account d (acc_id a) = Some a.
Proof. intros (_ & W2 & _) Hin. apply (find_key acc_id); assumption. Qed.

Lemma find_client_in d c :
  wf d -> In c (st_clients d) -> find_client d (cl_id c) = Some c.
Proof. intros (_ & _ & _ & W4 & _) Hin. apply (find_key cl_id); assumption. Qed.

Lemma valid_record_parts {dp : DateParser} today r :
  valid_record today r = true ->
  exists c cl de t dt, r_amount r = ANum c /\ r_client r = CStr cl /\ r_description r = CStr de
    /\ r_type r = CStr t /\ to_datetime (r_date r) = Some dt /\ 0 < c
    /\ (str_eqb (Py.lower t) py_income || str_eqb (Py.lower t) py_expense) = true
    /\ date_text r = render_date dt /\ date_geb dt (six_months_ago today) = true
    /\ fits_columns r = true.
Proof.
  unfold valid_record.
  destruct (r_amount r) as [c|], (r_client r) as [cl|], (r_description r) as [de|],
    (r_type r) as [t|], (to_datetime (r_date r)) as [dt|]; try discriminate.
  intros H.
  apply andb_true_iff in H as [H H5]; apply andb_true_iff in H as [H H4];
    apply andb_true_iff in H as [H H3]; apply andb_true_iff in H as [H1 H2].
  exists c, cl, de, t, dt. apply Z.ltb_lt in H1. apply str_eqb_eq in H3.
  repeat split; assumption.
Qed.

Lemma save_row_valid {dp : DateParser} today b accts r s bank rev exp :
  healthy s -> wf (ss_db s) -> valid_record today r = true ->
  lookup_name accts (Py.lit "Bank Account") = Some bank ->
  lookup_name accts (Py.lit "Revenue") = Some rev ->
  lookup_name accts (Py.lit "Expenses") = Some exp ->
  In bank (st_accounts (ss_db s)) -> In rev (st_accounts (ss_db s)) ->
  In exp (st_accounts (ss_db s)) ->
  acc_type bank = ASSET -> acc_type rev = INCOME ->
  exists s', save_row b accts r s = (Ok tt, s') /\ healthy s' /\ wf (ss_db s')
    /\ ext (ss_db s) (ss_db s') /\ st_accounts (ss_db s') = st_accounts (ss_db s)
    /\ exists e, In e (st_entries (ss_db s')) /\ je_business e = b
                 /\ to_datetime (r_date r) = Some (je_date e)
                 /\ entry_signature (ss_db s') e = create_transaction_signature r.
Proof.
  intros Hs Hw Hv Hbank Hrev Hexp Ib Ir Ie Tb Tr.
  destruct (valid_record_parts today r Hv)
    as (c & cl & de & t & dt & Ham & Hcl & Hde & Hty & Hdt & Hc & Ht & Hdtxt & _ & Hfit).
  destruct (fits_columns_parts r Hfit) as (Hcn & Hd & Hg & Hnum).
  specialize (Hnum c Ham).
  destruct (save_row_num_eq b accts r s c dt bank rev exp Hs Ham Hdt Hcn Hd Hbank Hrev Hexp)
    as (client & s1 & Eg & Hs1 & E).
  destruct (goc_wf _ _ _ _ _ Hs Hcn Hw Eg) as (Hw1 & Hx1 & Hin1 & Hn1 & _ & Ha1 & He1 & Hl1).
  simpl in E. rewrite E. clear E.
  rewrite Hcl in Hn1. simpl in Hn1.
  set (d1 := ss_db s1) in *.
  set (id := st_next d1).
  set (ent := mkentry id b (reference_number id) dt (Some (str_cell (r_description r)))
                      CSV_IMPORT true (Py.lit "CSV Import")).
  set (dacc := if is_income r then bank else exp).
  set (cacc := if is_income r then rev else bank).
  set (l1 := mkline id (acc_id dacc) (Some (cl_id client)) 1 c 0 (str_cell (r_description r)) (gst_of r)).
  set (l2 := mkline id (acc_id cacc) (Some (cl_id client)) 2 0 c (str_cell (r_description r)) (gst_of r)).
  set (d' := mkstore (st_up d1) (st_accounts d1) (st_clients d1) (st_entries d1 ++ [ent])
                     (st_lines d1 ++ [l1; l2]) (id + 1)).
  assert (Hdacc : In dacc (st_accounts d1))
    by (rewrite Ha1; unfold dacc; destruct (is_income r); assumption).
  assert (Hcacc : In cacc (st_accounts d1))
    by (rewrite Ha1; unfold cacc; destruct (is_income r); assumption).
  assert (Fd : find_account d' (acc_id dacc) = Some dacc) by (apply (find_account_in d1); assumption).
  assert (Fc : find_account d' (acc_id cacc) = Some cacc) by (apply (find_account_in d1); assumption).
  assert (Fcl : find_client d' (cl_id client) = Some client) by (apply (find_client_in d1); assumption).
  assert (Hw' : wf d').
  { refine (wf_grow d1 d' [] [] [ent] [l1; l2] Hw1 _ _ _ _ _ _ _ _ _ _ _).
    - simpl; rewrite app_nil_r; reflexivity.
    - simpl; rewrite app_nil_r; reflexivity.
    - reflexivity.
    - reflexivity.
    - simpl; unfold id; lia.
    - constructor.
    - constructor.
    - constructor.
    - constructor.
    - constructor; [simpl; unfold id; lia|constructor].
    - constructor; [|constructor; [|constructor]].
      + change (ln_entry l1) with id; change (ln_account l1) with (acc_id dacc);
          change (ln_client l1) with (Some (cl_id client)).
        split; [simpl; lia|]. split; [rewrite Fd; discriminate|].
        intros x Ex; injection Ex as <-; rewrite Fcl; discriminate.
      + change (ln_entry l2) with id; change (ln_account l2) with (acc_id cacc);
          change (ln_client l2) with (Some (cl_id client)).
        split; [simpl; lia|]. split; [rewrite Fc; discriminate|].
        intros x Ex; injection Ex as <-; rewrite Fcl; discriminate. }
  exists (mksess d' [l1; l2] false).
  split; [reflexivity|].
  split.
  { destruct Hs1 as (_ & Hu1 & _). split; [reflexivity|]. split; [exact Hu1|].
    apply line_ok_pair; [lia|exact Hnum|exact Hd|exact Hg]. }
  split; [exact Hw'|].
  split.
  { apply (ext_trans _ d1); [exact Hx1|].
    split; [simpl; unfold id; lia|]. simpl.
    split; [exists []; rewrite app_nil_r; reflexivity|].
    split; [exists []; rewrite app_nil_r; reflexivity|].
    split; [exists [ent]; reflexivity|].
    exists [l1; l2]. split; [reflexivity|]. repeat constructor; simpl; unfold id; lia. }
  split; [simpl; exact Ha1|].
  exists ent. split; [simpl; apply in_or_app; right; left; reflexivity|].
  split; [reflexivity|]. split; [exact Hdt|].
  change (ss_db (mksess d' [l1; l2] false)) with d'.
  unfold entry_signature.
  assert (Hlines : lines_of d' (je_id ent) = [l1; l2]).
  { unfold lines_of. simpl. rewrite filter_app.
    rewrite filter_false_in.
    - simpl. rewrite Z.eqb_refl. reflexivity.
    - intros l Hl. apply Z.eqb_neq. destruct Hw1 as (_ & _ & _ & _ & _ & W6).
      rewrite Forall_forall in W6. destruct (W6 l Hl) as (Hlt & _). unfold id; lia. }
  rewrite Hlines. cbn [reconstruct l1 l2 ln_client ln_debit ln_credit ln_account].
  rewrite Fcl, Fd, Fc.
  assert ((0 <? c) = true) as -> by (apply Z.ltb_lt; exact Hc).
  assert ((0 <? 0) = false) as -> by reflexivity.
  cbn [je_date je_description ent].
  unfold create_transaction_signature. rewrite Ham, Hdtxt, Hcl, Hde, Hty.
  cbn [norm_cell norm_type str_cell].
  rewrite Hn1, !norm_if_nonempty_text.
  unfold cacc, is_income. rewrite Hty. cbn [str_cell].
  destruct (str_eqb (Py.lower t) (Py.lit "income")) eqn:Hi.
  - apply str_eqb_eq in Hi. rewrite Tr, Hi. reflexivity.
  - assert (Hx : Py.lower t = py_expense).
    { apply orb_true_iff in Ht as [Ht|Ht]; apply str_eqb_eq in Ht; [|exact Ht].
      unfold py_income in Ht. rewrite Ht, str_eqb_refl in Hi. discriminate. }
    rewrite Tb, Hx. reflexivity.
Qed.

Lemma save_rows_valid {dp : DateParser} today b accts rows k s bank rev exp :
  healthy s -> wf (ss_db s) -> forallb (valid_record today) rows = true ->
  lookup_name accts (Py.lit "Bank Account") = Some bank ->
  lookup_name accts (Py.lit "Revenue") = Some rev ->
  lookup_name accts (Py.lit "Expenses") = Some exp ->
  In bank (st_accounts (ss_db s)) -> In rev (st_accounts (ss_db s)) ->
  In exp (st_accounts (ss_db s)) ->
  acc_type bank = ASSET -> acc_type rev = INCOME ->
  exists s', save_rows b accts rows k s = (Ok (k + List.length rows)%nat, s')
    /\ healthy s' /\ wf (ss_db s') /\ ext (ss_db s) (ss_db s')
    /\ st_accounts (ss_db s') = st_accounts (ss_db s)
    /\ Forall (fun r => exists e, In e (st_entries (ss_db s')) /\ je_business e = b
                                  /\ to_datetime (r_date r) = Some (je_date e)
                                  /\ entry_signature (ss_db s') e = create_transaction_signature r)
              rows.
Proof.
  intros Hs Hw Hv Hbank Hrev Hexp Ib Ir Ie Tb Tr. revert k s Hs Hw Ib Ir Ie.
  induction rows as [|r rows IH]; intros k s Hs Hw Ib Ir Ie.
  - exists s. rewrite Nat.add_0_r.
    exact (conj eq_refl (conj Hs (conj Hw (conj (ext_refl _) (conj eq_refl (Forall_nil _)))))).
  - simpl in Hv. apply andb_true_iff in Hv as [Hr Hv].
    destruct (save_row_valid today b accts r s bank rev exp Hs Hw Hr Hbank Hrev Hexp Ib Ir Ie Tb Tr)
      as (s1 & E1 & Hs1 & Hw1 & Hx1 & Ha1 & e & He & Heb & Hed & Hes).
    simpl save_rows. unfold bind at 1, try_. rewrite E1.
    rewrite <- Ha1 in Ib, Ir, Ie.
    destruct (IH Hv (S k) s1 Hs1 Hw1 Ib Ir Ie) as (s' & E' & Hs' & Hw' & Hx' & Ha' & Hf').
    exists s'. split; [rewrite E'; f_equal; f_equal; simpl; lia|].
    split; [exact Hs'|]. split; [exact Hw'|]. split; [exact (ext_trans _ _ _ Hx1 Hx')|].
    split; [rewrite Ha', Ha1; reflexivity|].
    constructor; [|exact Hf'].
    exists e. split.
    + destruct Hx' as (_ & _ & _ & [E0 EE] & _). rewrite EE. apply in_or_app. left. exact He.
    + split; [exact Heb|]. split; [exact Hed|].
      rewrite (entry_signature_ext _ _ e Hw1 Hx' He). exact Hes.
Qed.

Lemma map_result_ok {A B} (f : A -> result B) xs :
  (forall x, In x xs -> exists y, f x = Ok y) -> exists ys, map_result f xs = Ok ys.
Proof.
  induction xs as [|x xs IH]; intros H; simpl; [eexists; reflexivity|].
  destruct (H x (or_introl eq_refl)) as [y ->].
  destruct IH as [ys ->]; [intros; apply H; right; assumption|]. eexists; reflexivity.
Qed.

Lemma map_result_forall2 {A B} (f : A -> result B) xs ys :
  map_result f xs = Ok ys -> Forall2 (fun x y => f x = Ok y) xs ys.
Proof.
  revert ys; induction xs as [|x xs IH]; intros ys; simpl.
  - intros E; injection E as <-; constructor.
  - destruct (f x) as [y|e] eqn:Ef; [|discriminate].
    destruct (map_result f xs) as [ys'|e] eqn:Er; [|discriminate].
    intros E; injection E as <-. constructor; [exact Ef|apply IH; reflexivity].
Qed.

Lemma map_result_in {A B} (f : A -> result B) xs ys x y :
  map_result f xs = Ok ys -> In x xs -> f x = Ok y -> In y ys.
Proof.
  intros E Hin Ef. apply map_result_forall2 in E. induction E as [|x' y' xs ys' H E IH].
  - destruct Hin.
  - destruct Hin as [->|Hin]; [left; congruence|right; auto].
Qed.

Lemma mem_str_in x xs : In x xs -> mem_str x xs = true.
Proof.
  intros Hin. unfold mem_str. apply existsb_exists. exists x. split; [exact Hin|apply str_eqb_refl].
Qed.

Lemma combine_all_known {A} (f : A -> result Py.str) xs sigs existing :
  Forall2 (fun x y => f x = Ok y) xs sigs ->
  (forall x y, In x xs -> f x = Ok y -> In y existing) ->
  filter (fun p => negb (mem_str (snd p) existing)) (combine xs sigs) = []
  /\ List.length (filter (fun p => mem_str (snd p) existing) (combine xs sigs)) = List.length xs.
Proof.
  intros F. induction F as [|x y xs ys Hxy F IH]; intros H; simpl; [split; reflexivity|].
  rewrite (mem_str_in y existing (H x y (or_introl eq_refl) Hxy)). simpl.
  destruct IH as [-> ->]; [intros x' y' Hx'; apply H; right; exact Hx'|]. split; reflexivity.
Qed.

Lemma filter_duplicate_eq today df b db sigs existing :
  st_up db = true ->
  map_result create_transaction_signature df = Ok sigs ->
  map_result (entry_signature db)
    (filter (fun e => (je_business e =? b) && date_geb (je_date e) (six_months_ago today))
       (st_entries db)) = Ok existing ->
  filter_duplicate_transactions today df b db =
    (map fst (filter (fun p => negb (mem_str (snd p) existing)) (combine df sigs)),
     List.length (filter (fun p => mem_str (snd p) existing) (combine df sigs))).
Proof.
  intros Hup Hs He.
  unfold filter_duplicate_transactions, run_session, filter_body, bind, lift.
  rewrite Hs. unfold query_entries, bind, execute, get_db, ret. simpl. rewrite Hup.
  change (ss_db (mksess db [] false)) with db. rewrite He.
  unfold flush, flush_new; simpl; rewrite Hup; reflexivity.
Qed.

Lemma valid_record_date {dp : DateParser} today r d :
  valid_record today r = true -> to_datetime (r_date r) = Some d ->
  date_geb d (six_months_ago today) = true.
Proof.
  intros Hv Hd.
  destruct (valid_record_parts today r Hv) as (_ & _ & _ & _ & dt & _ & _ & _ & _ & Hdt & _ & _ & _ & H & _).
  rewrite Hd in Hdt. injection Hdt as ->. exact H.
Qed.

Lemma valid_record_numeric {dp : DateParser} today r :
  valid_record today r = true -> exists y, create_transaction_signature r = Ok y.
Proof.
  unfold valid_record, create_transaction_signature.
  destruct (r_amount r); [|discriminate]. intros _. eexists; reflexivity.
Qed.

(** C1 (amended): for a batch of well-formed records ([valid_record]: a
    positive amount below 10^12, a date text pandas reads whose first ten
    characters are that date in [YYYY-MM-DD] form, inside the lookback
    window, kind income or expense, values that fit their columns), saved
    into a consistent database whose existing Bank Account and Revenue
    accounts carry their default types, every record is counted, and running
    the duplicate filter on the same batch afterwards returns no new record
    and a duplicate count equal to the batch length. *)
Theorem dedup_idempotent {dp : DateParser} today rows b db :
  st_up db = true -> wf db -> default_typed db b ->
  forallb (valid_record today) rows = true ->
  let '(n, db') := save_transactions_to_database rows b db in
  n = List.length rows
  /\ filter_duplicate_transactions today rows b db' = ([], List.length rows).
Proof.
  intros Hup Hw Hty Hv.
  assert (Hs0 : healthy (mksess db [] false)) by (repeat split; assumption).
  destruct (default_provisioning b _ Hs0)
    as (s1 & added & bank & rev & exp & recv & E1 & Hs1 & Ha1 & Fadd & Nadd & Mb & Mr & _
        & Ib & Ir & Ie & Tb & Tr & _ & _ & Hc1 & He1 & Hl1 & Hn1).
  simpl in Ha1, Fadd, Tb, Tr, Hc1, He1, Hl1, Hn1.
  assert (Hw1 : wf (ss_db s1)).
  { refine (wf_grow db (ss_db s1) added [] [] [] Hw Ha1 _ _ _ Hn1 _ Nadd _ _ _ _);
      rewrite ?app_nil_r; try assumption; try constructor.
    eapply Forall_impl; [|exact Fadd]. simpl. intros a (_ & _ & H). exact H. }
  assert (Tb' : acc_type bank = ASSET) by (destruct Tb as [Tb|Tb]; [apply (Hty bank Tb)|]; auto).
  assert (Tr' : acc_type rev = INCOME) by (destruct Tr as [Tr|Tr]; [apply (Hty rev Tr)|]; auto).
  unfold save_transactions_to_database. rewrite E1.
  destruct (save_rows_valid today b
              [(Py.lit "Bank Account", bank); (Py.lit "Revenue", rev);
               (Py.lit "Expenses", exp); (Py.lit "Accounts Receivable", recv)]
              rows O s1 bank rev exp Hs1 Hw1 Hv
              eq_refl eq_refl eq_refl Ib Ir Ie Tb' Tr')
    as (s2 & E2 & Hs2 & Hw2 & _ & _ & Hf2).
  rewrite E2, (flush_healthy _ Hs2). cbn [ss_db]. split; [reflexivity|].
  set (db' := ss_db s2) in *.
  destruct (map_result_ok create_transaction_signature rows) as [sigs Es].
  { intros r Hr. apply (valid_record_numeric today). rewrite forallb_forall in Hv. auto. }
  destruct (map_result_ok (entry_signature db')
              (filter (fun e => (je_business e =? b) && date_geb (je_date e) (six_months_ago today))
                 (st_entries db'))) as [existing Ee].
  { intros e _. apply entry_signature_ok. exact Hw2. }
  assert (Hup2 : st_up db' = true) by apply Hs2.
  rewrite (filter_duplicate_eq today rows b db' sigs existing Hup2 Es Ee).
  destruct (combine_all_known create_transaction_signature rows sigs existing) as [-> ->].
  - apply map_result_forall2. exact Es.
  - intros r y Hr Ey. rewrite Forall_forall in Hf2.
    destruct (Hf2 r Hr) as (e & He & Heb & Hed & Hes).
    apply (map_result_in _ _ _ e y Ee).
    + apply filter_In. split; [exact He|]. rewrite Heb, Z.eqb_refl. simpl.
      apply (valid_record_date today r); [rewrite forallb_forall in Hv; auto|exact Hed].
    + rewrite Hes. exact Ey.
  - reflexivity.
Qed.

Lemma dedup_idempotent_witness :
  st_up empty_db = true /\ wf empty_db /\ default_typed empty_db 7
  /\ forallb (valid_record (dp := iso_to_datetime) (mkdate 2026 3 10)) [example_income; example_expense] = true
  /\ let '(n, db') := save_transactions_to_database (dp := iso_to_datetime) [example_income; example_expense] 7 empty_db in
     n = List.length [example_income; example_expense]
     /\ filter_duplicate_transactions (mkdate 2026 3 10) [example_income; example_expense] 7 db'
        = ([], List.length [example_income; example_expense]).
Proof.
  assert (H1 : st_up empty_db = true) by reflexivity.
  assert (H2 : wf empty_db) by (unfold wf; simpl; repeat split; constructor).
  assert (H3 : default_typed empty_db 7) by (intros a []).
  assert (H4 : forallb (valid_record (dp := iso_to_datetime) (mkdate 2026 3 10))
                 [example_income; example_expense] = true)
    by (vm_compute; reflexivity).
  split; [exact H1|]. split; [exact H2|]. split; [exact H3|]. split; [exact H4|].
  exact (dedup_idempotent (dp := iso_to_datetime) (mkdate 2026 3 10)
           [example_income; example_expense] 7 empty_db H1 H2 H3 H4).
Defined.

(** C1 (counterexample): a record dated before the lookback window is
    posted, but re-submitting it finds no duplicate.  So is a record whose
    date text is not in the [YYYY-MM-DD] form ("2026-3-5"): its signature
    is built from the raw text, the stored entry's from the date read.  An
    amount of 10^12 does not fit [Numeric(14, 2)]: the whole batch is rolled
    back while the count includes it, and nothing is found on re-submission. *)
Lemma dedup_old_record_cex :
  let old := mkrow (Py.lit "2025-01-05") (CStr (Py.lit "TechCorp")) (CStr (Py.lit "Software Development"))
                   (ANum 150000) (CStr (Py.lit "income")) None in
  let short := mkrow (Py.lit "2026-3-5") (CStr (Py.lit "TechCorp")) (CStr (Py.lit "Software Development"))
                     (ANum 150000) (CStr (Py.lit "income")) None in
  let huge := mkrow (Py.lit "2026-03-05") (CStr (Py.lit "TechCorp")) (CStr (Py.lit "Software Development"))
                    (ANum (10 ^ 14)) (CStr (Py.lit "income")) None in
  let '(n, db') := save_transactions_to_database (dp := iso_to_datetime) [old] 7 empty_db in
  let '(n2, db2) := save_transactions_to_database (dp := iso_to_datetime) [short] 7 empty_db in
  let '(n3, db3) := save_transactions_to_database (dp := iso_to_datetime) [huge] 7 empty_db in
  n = 1%nat /\ filter_duplicate_transactions (mkdate 2026 3 10) [old] 7 db' = ([old], 0%nat)
  /\ n2 = 1%nat /\ List.length (st_entries db2) = 1%nat
  /\ filter_duplicate_transactions (mkdate 2026 3 10) [short] 7 db2 = ([short], 0%nat)
  /\ n3 = 1%nat /\ db3 = empty_db
  /\ filter_duplicate_transactions (mkdate 2026 3 10) [huge] 7 db3 = ([huge], 0%nat).
Proof. vm_compute. repeat split. Qed.


(** ** Further properties of the upload, display and repository code *)
Lemma filter_duplicate_cases today df b db :
  filter_duplicate_transactions today df b db = (df, O)
  \/ exists sigs existing,
       map_result create_transaction_signature df = Ok sigs
       /\ map_result (entry_signature db)
            (filter (fun e => (je_business e =? b) && date_geb (je_date e) (six_months_ago today))
               (st_entries db)) = Ok existing
       /\ filter_duplicate_transactions today df b db =
          (map fst (filter (fun p => negb (mem_str (snd p) existing)) (combine df sigs)),
           List.length (filter (fun p => mem_str (snd p) existing) (combine df sigs))).
Proof.
  destruct (map_result create_transaction_signature df) as [sigs|x] eqn:Es.
  2:{ left. unfold filter_duplicate_transactions, run_session, filter_body, bind, lift.
      rewrite Es. reflexivity. }
  destruct (st_up db) eqn:Hup.
  2:{ left. unfold filter_duplicate_transactions, run_session, filter_body, bind, lift.
      rewrite Es. unfold query_entries, bind, execute, ret. simpl. rewrite Hup. reflexivity. }
  destruct (map_result (entry_signature db)
              (filter (fun e => (je_business e =? b) && date_geb (je_date e) (six_months_ago today))
                 (st_entries db))) as [existing|x] eqn:Ee.
  - right. exists sigs, existing. split; [reflexivity|]. split; [reflexivity|].
    apply filter_duplicate_eq; assumption.
  - left. unfold filter_duplicate_transactions, run_session, filter_body, bind, lift.
    rewrite Es. unfold query_entries, bind, execute, get_db, ret. simpl. rewrite Hup.
    change (ss_db (mksess db [] false)) with db. rewrite Ee. reflexivity.
Qed.

Lemma combine_split {A} (f : A -> result Py.str) xs sigs existing :
  Forall2 (fun x y => f x = Ok y) xs sigs ->
  map fst (filter (fun p => negb (mem_str (snd p) existing)) (combine xs sigs))
  = filter (fun x => match f x with Ok y => negb (mem_str y existing) | Err _ => true end) xs
  /\ (List.length (map fst (filter (fun p => negb (mem_str (snd p) existing)) (combine xs sigs)))
      + List.length (filter (fun p => mem_str (snd p) existing) (combine xs sigs)))%nat
     = List.length xs.
Proof.
  intros F. induction F as [|x y xs ys Hxy F [IH1 IH2]]; [split; reflexivity|].
  simpl. rewrite Hxy. destruct (mem_str y existing); simpl.
  - split; [exact IH1|]. rewrite <- IH2. lia.
  - rewrite IH1 in *. split; [reflexivity|]. simpl. lia.
Qed.

(** X1: [filter_duplicate_transactions] keeps a sub-list of the batch, in order, and the kept records plus the reported duplicate count add up to the batch size. *)
Theorem filter_partitions_batch today df b db :
  let '(new_only, duplicate_count) := filter_duplicate_transactions today df b db in
  (exists keep, new_only = filter keep df)
  /\ (List.length new_only + duplicate_count)%nat = List.length df.
Proof.
  destruct (filter_duplicate_cases today df b db) as [->|(sigs & existing & Es & _ & ->)].
  - split; [exists (fun _ => true); symmetry; apply filter_true_in; reflexivity|lia].
  - destruct (combine_split create_transaction_signature df sigs existing
                (map_result_forall2 _ _ _ Es)) as [H1 H2].
    split; [|exact H2]. eexists. exact H1.
Qed.

(** X2: with a well-formed date and no entry of the business in the six-month look-back window, the filter keeps the whole batch and counts no duplicate, even when the batch repeats a record. *)
Theorem filter_ignores_batch_repeats today df b db :
  1 <= month today <= 12 ->
  filter (in_lookback b today) (st_entries db) = [] ->
  filter_duplicate_transactions today df b db = (df, O).
Proof.
  intros Hm Hnone.
  destruct (filter_duplicate_cases today df b db) as [->|(sigs & existing & Es & Ee & ->)];
    [reflexivity|].
  assert (Hq : filter (fun e => (je_business e =? b) && date_geb (je_date e) (six_months_ago today))
                 (st_entries db) = []).
  { rewrite (six_months_ago_closed today Hm). exact Hnone. }
  rewrite Hq in Ee. simpl in Ee. injection Ee as <-.
  apply map_result_forall2 in Es.
  clear Hq Hnone. induction Es as [|x y xs ys Hxy F IH]; [reflexivity|].
  simpl. injection IH as -> ->. reflexivity.
Qed.

Lemma filter_ignores_batch_repeats_witness :
  (1 <= month (mkdate 2026 3 10) <= 12
   /\ filter (in_lookback 7 (mkdate 2026 3 10)) (st_entries example_db) = [])
  /\ filter_duplicate_transactions (mkdate 2026 3 10) [example_income; example_income] 7 example_db
     = ([example_income; example_income], O).
Proof.
  split; [split; [simpl; lia|reflexivity]|].
  apply filter_ignores_batch_repeats; [simpl; lia|reflexivity].
Defined.

(** X3: one record whose amount is not numeric makes signing fail, and the filter then keeps the whole batch and reports no duplicate. *)
Theorem filter_text_amount_fails_open today df b db r t :
  In r df -> r_amount r = AText t ->
  filter_duplicate_transactions today df b db = (df, O).
Proof.
  intros Hin Ht.
  destruct (filter_duplicate_cases today df b db) as [->|(sigs & existing & Es & Ee & ->)];
    [reflexivity|].
  exfalso. apply map_result_forall2 in Es.
  induction Es as [|x y xs ys Hxy F IH]; [destruct Hin|].
  destruct Hin as [->|Hin]; [|auto].
  unfold create_transaction_signature in Hxy. rewrite Ht in Hxy. discriminate.
Qed.

Lemma filter_text_amount_fails_open_witness :
  let bad := mkrow (Py.lit "2026-03-07") (CStr (Py.lit "Acme")) (CStr (Py.lit "Fees"))
                   (AText (Py.lit "n/a")) (CStr (Py.lit "expense")) None in
  (In bad [example_income; bad] /\ r_amount bad = AText (Py.lit "n/a"))
  /\ filter_duplicate_transactions (mkdate 2026 3 10) [example_income; bad] 7
       (snd (save_transactions_to_database (dp := iso_to_datetime) [example_income] 7 empty_db))
     = ([example_income; bad], O).
Proof.
  intros bad. split; [split; [right; left; reflexivity|reflexivity]|].
  apply (filter_text_amount_fails_open _ _ _ _ bad (Py.lit "n/a")); [right; left|]; reflexivity.
Defined.

Lemma appends_for_refl b d : appends_for b d d.
Proof.
  split; [lia|]. split; [exists []; rewrite app_nil_r; auto|].
  split; [exists []; rewrite app_nil_r; auto|].
  exists [], []. rewrite !app_nil_r. repeat split; constructor.
Qed.

Lemma appends_for_trans b d1 d2 d3 :
  appends_for b d1 d2 -> appends_for b d2 d3 -> appends_for b d1 d3.
Proof.
  intros (N1 & (A1 & EA1 & FA1) & (C1 & EC1 & FC1) & (E1 & L1 & EE1 & EL1 & FE1 & FL1))
         (N2 & (A2 & EA2 & FA2) & (C2 & EC2 & FC2) & (E2 & L2 & EE2 & EL2 & FE2 & FL2)).
  split; [lia|].
  split; [exists (A1 ++ A2); rewrite EA2, EA1, app_assoc; split; [reflexivity|apply Forall_app; auto]|].
  split; [exists (C1 ++ C2); rewrite EC2, EC1, app_assoc; split; [reflexivity|apply Forall_app; auto]|].
  exists (E1 ++ E2), (L1 ++ L2). rewrite EE2, EE1, EL2, EL1, !app_assoc.
  split; [reflexivity|]. split; [reflexivity|]. split.
  - apply Forall_app. split.
    + eapply Forall_impl; [|exact FE1]. simpl. intros e (? & ?). split; [assumption|lia].
    + eapply Forall_impl; [|exact FE2]. simpl. intros e (? & ?). split; [assumption|lia].
  - rewrite map_app. apply Forall_app. split.
    + eapply Forall_impl; [|exact FL1]. intros l H. apply in_or_app. left. exact H.
    + eapply Forall_impl; [|exact FL2]. intros l H. apply in_or_app. right. exact H.
Qed.

Lemma sess_appends_for_refl b s : sess_appends_for b s s.
Proof. apply appends_for_refl. Qed.

Lemma sess_appends_for_trans b s1 s2 s3 :
  sess_appends_for b s1 s2 -> sess_appends_for b s2 s3 -> sess_appends_for b s1 s3.
Proof. apply appends_for_trans. Qed.

Lemma appends_keep b {A} (m : M A) :
  (forall s, st_accounts (ss_db (snd (m s))) = st_accounts (ss_db s)
             /\ st_clients (ss_db (snd (m s))) = st_clients (ss_db s)
             /\ st_entries (ss_db (snd (m s))) = st_entries (ss_db s)
             /\ st_lines (ss_db (snd (m s))) = st_lines (ss_db s)
             /\ st_next (ss_db s) <= st_next (ss_db (snd (m s)))) ->
  pres (sess_appends_for b) m.
Proof.
  intros H s. destruct (H s) as (Ha & Hc & He & Hl & Hn). split; [exact Hn|].
  rewrite Ha, Hc, He, Hl.
  split; [exists []; rewrite app_nil_r; auto|].
  split; [exists []; rewrite app_nil_r; auto|].
  exists [], []. rewrite !app_nil_r. repeat split; constructor.
Qed.

Ltac appends_keep_tac :=
  apply appends_keep; intros [[up ? ? ? ? nx] ? []];
  unfold execute, flush, flush_new, get_db, fresh_id; simpl;
  repeat match goal with |- context [if ?c then _ else _] => destruct c end;
  simpl; repeat split; lia.

Lemma app_execute b : pres (sess_appends_for b) execute.
Proof. appends_keep_tac. Qed.

Lemma app_flush b : pres (sess_appends_for b) flush.
Proof. appends_keep_tac. Qed.

Lemma app_flush_new b ok : pres (sess_appends_for b) (flush_new ok).
Proof. appends_keep_tac. Qed.

Lemma app_get_db b : pres (sess_appends_for b) get_db.
Proof. appends_keep_tac. Qed.

Lemma app_fresh_id b : pres (sess_appends_for b) fresh_id.
Proof. appends_keep_tac. Qed.

Lemma app_add_account b a : acc_business a = b -> pres (sess_appends_for b) (add_account a).
Proof.
  intros Ha [[up ? ? ? ? nx] ? ?]. split; [simpl; lia|].
  split; [exists [a]; auto|].
  split; [exists []; simpl; rewrite app_nil_r; auto|].
  exists [], []. simpl. rewrite !app_nil_r. repeat split; constructor.
Qed.

Lemma app_add_client b c : cl_business c = b -> pres (sess_appends_for b) (add_client c).
Proof.
  intros Hc [[up ? ? ? ? nx] ? ?]. split; [simpl; lia|].
  split; [exists []; simpl; rewrite app_nil_r; auto|].
  split; [exists [c]; auto|].
  exists [], []. simpl. rewrite !app_nil_r. repeat split; constructor.
Qed.

Ltac app_leaf :=
  first [ apply app_execute | apply app_flush | apply app_flush_new | apply app_get_db
        | apply app_fresh_id
        | apply app_add_account; reflexivity | apply app_add_client; reflexivity ].

Lemma app_get_or_create_client name b : pres (sess_appends_for b) (get_or_create_client name b).
Proof.
  unfold get_or_create_client, query_client.
  pres_with (sess_appends_for_refl b) (sess_appends_for_trans b); app_leaf.
Qed.

Lemma app_provision b defs : pres (sess_appends_for b) (provision b defs).
Proof.
  induction defs as [|[[code name] ty] defs IH]; simpl.
  - apply pres_ret, sess_appends_for_refl.
  - unfold get_or_create_account, query_account.
    pres_with (sess_appends_for_refl b) (sess_appends_for_trans b); first [ exact IH | app_leaf ].
Qed.

Lemma app_save_row {dp : DateParser} b accts r : pres (sess_appends_for b) (save_row b accts r).
Proof.
  unfold save_row. apply pres_bind;
    [exact (sess_appends_for_trans b)|apply app_get_or_create_client|intros client].
  apply pres_bind; [exact (sess_appends_for_trans b)| |intros entry_date].
  { unfold entry_date_of. destruct (to_datetime (r_date r));
      [apply pres_ret|apply pres_raise]; exact (sess_appends_for_refl b). }
  intros [[up accs cls ens lns nx] p br].
  unfold bind at 1, fresh_id; simpl.
  unfold bind at 1, add_entry, map_db; simpl.
  unfold bind at 1, flush, flush_new; simpl.
  assert (Hkeep : forall L,
    Forall (fun l => In (ln_entry l) [nx]) L ->
    appends_for b (mkstore up accs cls ens lns nx)
      (mkstore up accs cls (ens ++ [mkentry nx b (reference_number nx) entry_date
                                      (Some (str_cell (r_description r))) CSV_IMPORT true
                                      (Py.lit "CSV Import")]) (lns ++ L) (nx + 1))).
  { intros L HL. split; [simpl; lia|].
    split; [exists []; simpl; rewrite app_nil_r; auto|].
    split; [exists []; simpl; rewrite app_nil_r; auto|].
    eexists [_], L. split; [reflexivity|]. split; [reflexivity|].
    split; [repeat constructor; simpl; lia|exact HL]. }
  destruct br; simpl.
  { rewrite <- (app_nil_r lns) at 2. apply Hkeep. constructor. }
  destruct up; simpl.
  2:{ rewrite <- (app_nil_r lns) at 2. apply Hkeep. constructor. }
  destruct (forallb line_ok p && _); simpl.
  2:{ rewrite <- (app_nil_r lns) at 2. apply Hkeep. constructor. }
  unfold bind at 1, decimal_of.
  destruct (r_amount r) as [amount|txt]; simpl.
  2:{ rewrite <- (app_nil_r lns) at 2. apply Hkeep. constructor. }
  unfold ret, account_named.
  unfold bind, raise, add_line; simpl;
  repeat (match goal with
          | |- context [match lookup_name ?a ?n with Some _ => _ | None => _ end] =>
              destruct (lookup_name a n)
          | |- context [if str_eqb ?x ?y then _ else _] => destruct (str_eqb x y)
          end; simpl);
  first
    [ rewrite <- (app_nil_r lns) at 2; apply Hkeep; constructor
    | unfold sess_appends_for; simpl; rewrite <- app_assoc; apply Hkeep;
      repeat constructor ].
Qed.

Lemma save_rows_count_le {dp : DateParser} b accts rows k s k' s' :
  save_rows b accts rows k s = (Ok k', s') -> (k' <= k + List.length rows)%nat.
Proof.
  revert k s. induction rows as [|r rows IH]; intros k s; simpl.
  - unfold ret. intros E. injection E as <- _. lia.
  - unfold bind at 1, try_. destruct (save_row b accts r s) as [res s1].
    intros E. apply IH in E. destruct res; lia.
Qed.

(** X4: [save_transactions_to_database] only appends: accounts, clients and journal entries of the given business, entries keyed at fresh keys, and lines that belong to the appended entries. *)
Theorem save_appends_only {dp : DateParser} rows b db :
  appends_for b db (snd (save_transactions_to_database rows b db)).
Proof.
  unfold save_transactions_to_database.
  pose proof (app_provision b default_accounts (mksess db [] false)) as H1.
  unfold get_or_create_default_accounts.
  destruct (provision b default_accounts (mksess db [] false)) as [[accts|e] s1]; simpl in H1;
    [|apply appends_for_refl].
  pose proof (pres_save_rows _ (sess_appends_for_refl b) (sess_appends_for_trans b) b accts
                (app_save_row b accts) rows O s1) as H2.
  destruct (save_rows b accts rows O s1) as [[n|e] s2]; simpl in H2; [|apply appends_for_refl].
  pose proof (app_flush b s2) as H3.
  destruct (flush s2) as [[u|e] s3]; simpl in H3; [|apply appends_for_refl].
  exact (appends_for_trans _ _ _ _ H1 (appends_for_trans _ _ _ _ H2 H3)).
Qed.

(** X5: the saved count that [save_transactions_to_database] reports never exceeds the number of records passed in. *)
Theorem saved_count_bound {dp : DateParser} rows b db :
  (fst (save_transactions_to_database rows b db) <= List.length rows)%nat.
Proof.
  unfold save_transactions_to_database.
  destruct (get_or_create_default_accounts b (mksess db [] false)) as [[accts|e] s1]; simpl; [|lia].
  destruct (save_rows b accts rows O s1) as [[n|e] s2] eqn:E; simpl; [|lia].
  apply save_rows_count_le in E.
  destruct (flush s2) as [[u|e] s3]; simpl; lia.
Qed.







Lemma display_lines_reconstruct s ls cn am ty cn' ty' :
  (forall l, In l ls -> find_account s (ln_account l) <> None) ->
  (cn = cn' \/ (cn = py_na /\ cn' = [])) ->
  (ty = py_Income <-> ty' = py_income) ->
  exists cn2 am2 ty2 cn2' ty2',
    display_lines s cn am ty ls = Ok (cn2, am2, ty2)
    /\ reconstruct s cn' am ty' ls = Ok (cn2', am2, ty2')
    /\ (cn2 = cn2' \/ (cn2 = py_na /\ cn2' = []))
    /\ (ty2 = py_Income <-> ty2' = py_income).
Proof.
  revert cn am ty cn' ty'.
  induction ls as [|l ls IH]; intros cn am ty cn' ty' Ha Hcn Hty; simpl.
  - do 5 eexists. split; [reflexivity|]. split; [reflexivity|]. auto.
  - assert (Hl : find_account s (ln_account l) <> None) by (apply Ha; left; reflexivity).
    assert (Ha' : forall l', In l' ls -> find_account s (ln_account l') <> None)
      by (intros; apply Ha; right; assumption).
    assert (Hcn' : (match ln_client l with
                    | Some cid => match find_client s cid with Some c => cl_name c | None => cn end
                    | None => cn end)
                   = (match ln_client l with
                      | Some cid => match find_client s cid with Some c => cl_name c | None => cn' end
                      | None => cn' end)
                   \/ ((match ln_client l with
                        | Some cid => match find_client s cid with Some c => cl_name c | None => cn end
                        | None => cn end) = py_na
                       /\ (match ln_client l with
                           | Some cid => match find_client s cid with Some c => cl_name c | None => cn' end
                           | None => cn' end) = [])).
    { destruct (ln_client l) as [cid|]; [destruct (find_client s cid)|]; auto. }
    destruct (find_account s (ln_account l)) as [a|]; [|congruence].
    destruct (0 <? ln_debit l).
    + apply IH; auto. destruct (account_type_eqb (acc_type a) ASSET); split; intros H;
        first [reflexivity | vm_compute in H; discriminate].
    + destruct (0 <? ln_credit l).
      * apply IH; auto. destruct (account_type_eqb (acc_type a) INCOME); split; intros H;
          first [reflexivity | vm_compute in H; discriminate].
      * apply IH; auto.
Qed.

(** X7: when every line of an entry has its account, the transaction history row of the entry shows the same amount as the duplicate-detection reconstruction, the same client (with N/A for none), and Income exactly when the reconstruction says income. *)
Theorem history_matches_fingerprint s e :
  (forall l, In l (lines_of s (je_id e)) -> find_account s (ln_account l) <> None) ->
  exists client_name amount transaction_type status client_name' transaction_type',
    display_row s e = Ok (client_name, amount, transaction_type, status)
    /\ reconstruct s [] 0 py_expense (lines_of s (je_id e))
       = Ok (client_name', amount, transaction_type')
    /\ (client_name = client_name' \/ (client_name = py_na /\ client_name' = []))
    /\ (transaction_type = py_Income <-> transaction_type' = py_income).
Proof.
  intros Ha.
  destruct (display_lines_reconstruct s (lines_of s (je_id e)) py_na 0 py_unknown [] py_expense Ha)
    as (cn & am & ty & cn' & ty' & Ed & Er & Hcn & Hty).
  - right. split; reflexivity.
  - split; intros H; vm_compute in H; discriminate.
  - unfold display_row. rewrite Ed. do 6 eexists. split; [reflexivity|]. eauto.
Qed.

Lemma history_matches_fingerprint_witness :
  let desc := Py.lit "Software Development" in
  let e := mkentry 6 7 (reference_number 6) (mkdate 2026 3 5) (Some desc) CSV_IMPORT true
                   (Py.lit "CSV Import") in
  let d := mkstore true (st_accounts example_db)
             [mkclient 5 7 (Py.lit "TechCorp") (Py.lit "customer") true] [e]
             [mkline 6 1 (Some 5) 1 150000 0 desc []; mkline 6 2 (Some 5) 2 0 150000 desc []] 7 in
  (forall l, In l (lines_of d (je_id e)) -> find_account d (ln_account l) <> None)
  /\ exists client_name amount transaction_type status client_name' transaction_type',
    display_row d e = Ok (client_name, amount, transaction_type, status)
    /\ reconstruct d [] 0 py_expense (lines_of d (je_id e))
       = Ok (client_name', amount, transaction_type')
    /\ (client_name = client_name' \/ (client_name = py_na /\ client_name' = []))
    /\ (transaction_type = py_Income <-> transaction_type' = py_income).
Proof.
  intros desc e d.
  assert (Ha : forall l, In l (lines_of d (je_id e)) -> find_account d (ln_account l) <> None).
  { intros l Hl. simpl in Hl.
    destruct Hl as [<-|[<-|[]]]; simpl; discriminate. }
  split; [exact Ha|]. apply history_matches_fingerprint. exact Ha.
Defined.

Lemma provision_found b defs s :
  healthy s ->
  (forall def, In def defs -> count_code (ss_db s) b (def_code def) <> O) ->
  exists accts, provision b defs s = (Ok accts, s).
Proof.
  intros Hs. induction defs as [|[[code name] ty] defs IH]; intros H; simpl.
  - eexists; reflexivity.
  - unfold bind at 1. rewrite (goc_account_eq b code name ty s Hs).
    destruct (find (acc_matches b code) (st_accounts (ss_db s))) as [a|] eqn:Ef.
    + unfold bind. destruct IH as [accts ->].
      * intros def Hd. apply H. right. exact Hd.
      * eexists. reflexivity.
    + exfalso. apply (H (code, name, ty) (or_introl eq_refl)). simpl.
      apply count_code_zero. exact Ef.
Qed.

(** X8: when the business already has every default account code, the Create Default Chart of Accounts button leaves the database unchanged, even when those accounts are inactive and so not listed. *)
Theorem default_chart_button_noop b db :
  st_up db = true ->
  (forall c, In c default_codes -> count_code db b c <> O) ->
  create_default_chart b db = db.
Proof.
  intros Hup H.
  assert (Hs : healthy (mksess db [] false)) by (repeat split; assumption).
  destruct (provision_found b default_accounts _ Hs) as [accts E].
  { intros def Hd. apply H. unfold default_codes. apply in_map. exact Hd. }
  unfold create_default_chart, run_session, get_or_create_default_accounts.
  rewrite E, (flush_healthy _ Hs). reflexivity.
Qed.

Lemma default_chart_button_noop_witness :
  let inactive a := mkaccount (acc_id a) (acc_business a) (acc_code a) (acc_name a)
                              (acc_type a) (acc_system a) false in
  let db := mkstore true (map inactive (st_accounts example_db)) [] [] [] 5 in
  (st_up db = true /\ (forall c, In c default_codes -> count_code db 7 c <> O))
  /\ create_default_chart 7 db = db /\ listed_accounts db 7 = [].
Proof.
  intros inactive db.
  assert (H : forall c, In c default_codes -> count_code db 7 c <> O).
  { intros c Hc. vm_compute in Hc.
    repeat (destruct Hc as [<-|Hc]; [vm_compute; discriminate|]). destruct Hc. }
  split; [split; [reflexivity|exact H]|].
  split; [apply default_chart_button_noop; [reflexivity|exact H]|reflexivity].
Defined.

Lemma execute_healthy s : healthy s -> execute s = (Ok tt, s).
Proof. intros (Hb & Hu & _). unfold execute. rewrite Hb, Hu. reflexivity. Qed.

Lemma create_eq b name s del :
  healthy s -> varchar_ok 255 name = true ->
  create b name (mkrsess s del) = (ROk (created_client s b name), mkrsess (after_create s b name) del).
Proof.
  destruct s as [[up accs cls ens lns nx] p br]; intros (Hb & Hu & Hp) Hn; simpl in *; subst.
  unfold create, in_session, bind, fresh_id, add_client, map_db, flush, flush_new, ret; simpl.
  rewrite Hp, client_ok_customer, Hn. reflexivity.
Qed.

Lemma after_create_healthy s b name : healthy s -> healthy (after_create s b name).
Proof. intros (Hb & Hu & Hp). split; [reflexivity|]. split; [exact Hu|reflexivity]. Qed.

Lemma get_or_create_found_eq b name s del :
  healthy s ->
  get_or_create b name (mkrsess s del) =
  match get_or_create_query (mkrsess s del) b name with
  | [] => rbind (create b name) (fun c => rret (c, true)) (mkrsess s del)
  | [existing] => (ROk (existing, false), mkrsess s del)
  | _ :: _ :: _ => (RErr MultipleResultsFound, mkrsess s del)
  end.
Proof.
  intros Hs. unfold get_or_create, rbind at 1, in_session at 1. simpl.
  rewrite (execute_healthy s Hs). unfold rbind at 1, rget.
  destruct (get_or_create_query (mkrsess s del) b name) as [|x [|y l]]; reflexivity.
Qed.

Lemma get_or_create_eq b name s del :
  healthy s -> varchar_ok 255 name = true ->
  get_or_create b name (mkrsess s del) =
  match get_or_create_query (mkrsess s del) b name with
  | [] => (ROk (created_client s b name, true), mkrsess (after_create s b name) del)
  | [existing] => (ROk (existing, false), mkrsess s del)
  | _ :: _ :: _ => (RErr MultipleResultsFound, mkrsess s del)
  end.
Proof.
  intros Hs Hn. rewrite (get_or_create_found_eq b name s del Hs).
  destruct (get_or_create_query (mkrsess s del) b name) as [|x [|y l]]; try reflexivity.
  unfold rbind. rewrite (create_eq b name s del Hs Hn). reflexivity.
Qed.

Lemma find_key_below (del : list (Z * Z)) n :
  Forall (fun p => fst p < n) del -> find (fun p => fst p =? n) del = None.
Proof.
  induction 1 as [|p del Hp F IH]; [reflexivity|]. simpl.
  destruct (Z.eqb_spec (fst p) n); [lia|exact IH].
Qed.

Lemma query_after_create s del b name :
  Forall (fun p => fst p < st_next (ss_db s)) del ->
  get_or_create_query (mkrsess (after_create s b name) del) b name
  = get_or_create_query (mkrsess s del) b name ++ [created_client s b name].
Proof.
  intros Hdel. unfold get_or_create_query, repo_clients. simpl. rewrite filter_app. f_equal.
  simpl. rewrite Z.eqb_refl, str_eqb_refl. unfold not_deleted, deleted_at. simpl.
  rewrite (find_key_below del _ Hdel). reflexivity.
Qed.




(** X11: when two or more live clients of the business have the requested name, [get_or_create] raises MultipleResultsFound ([scalar_one_or_none]) and changes nothing. *)
Theorem repo_get_or_create_ambiguous b name rs :
  healthy (rs_sess rs) ->
  (2 <= List.length (get_or_create_query rs b name))%nat ->
  get_or_create b name rs = (RErr MultipleResultsFound, rs).
Proof.
  destruct rs as [s del]. simpl. intros Hs Hlen.
  rewrite (get_or_create_found_eq b name s del Hs).
  destruct (get_or_create_query (mkrsess s del) b name) as [|x [|y l]]; simpl in Hlen;
    [lia|lia|reflexivity].
Qed.

Lemma repo_get_or_create_ambiguous_witness :
  let rs := mkrsess (mksess (mkstore true []
                               [mkclient 1 7 (Py.lit "Acme") (Py.lit "customer") false;
                                mkclient 2 7 (Py.lit "Acme") (Py.lit "customer") true]
                               [] [] 3) [] false) [] in
  (healthy (rs_sess rs) /\ (2 <= List.length (get_or_create_query rs 7 (Py.lit "Acme")))%nat)
  /\ get_or_create 7 (Py.lit "Acme") rs = (RErr MultipleResultsFound, rs).
Proof.
  intros rs.
  assert (H1 : healthy (rs_sess rs)) by (repeat split).
  assert (H2 : (2 <= List.length (get_or_create_query rs 7 (Py.lit "Acme")))%nat)
    by (vm_compute; lia).
  split; [split; assumption|]. exact (repo_get_or_create_ambiguous 7 (Py.lit "Acme") rs H1 H2).
Defined.

Lemma soft_delete_eq now id s del c :
  healthy s -> find (fun c => cl_id c =? id) (st_clients (ss_db s)) = Some c ->
  soft_delete now id (mkrsess s del)
  = (ROk true, mkrsess (mksess (ss_db s) [] false) ((id, now) :: del)).
Proof.
  intros Hs Hf. unfold soft_delete, get_by_id, rbind, in_session. simpl.
  rewrite (execute_healthy s Hs). unfold rget, rret. simpl. unfold repo_clients. simpl.
  rewrite Hf. unfold set_deleted_at. simpl.
  destruct s as [d p br]. destruct Hs as (Hb & Hu & Hp). simpl in *. subst.
  unfold flush, flush_new. simpl. rewrite Hu, Hp. reflexivity.
Qed.

Lemma healthy_flushed d : st_up d = true -> healthy (mksess d [] false).
Proof. intros Hu. repeat split. exact Hu. Qed.

Lemma get_by_id_eq id s del :
  healthy s ->
  get_by_id id (mkrsess s del) = (ROk (find (fun c => cl_id c =? id) (st_clients (ss_db s))), mkrsess s del).
Proof.
  intros Hs. unfold get_by_id, rbind, in_session. simpl. rewrite (execute_healthy s Hs). reflexivity.
Qed.

Lemma get_by_business_eq b active_only s del :
  healthy s ->
  get_by_business b active_only (mkrsess s del)
  = (ROk (filter (fun c => (cl_business c =? b)
                           && (if active_only then cl_active c && not_deleted (mkrsess s del) c else true))
                 (st_clients (ss_db s))), mkrsess s del).
Proof.
  intros Hs. unfold get_by_business, rbind, in_session. simpl. rewrite (execute_healthy s Hs). reflexivity.
Qed.

Lemma find_id_some (cs : list client) id c :
  find (fun c => cl_id c =? id) cs = Some c -> In c cs /\ cl_id c = id.
Proof.
  intros H. apply find_some in H as [H1 H2]. split; [exact H1|apply Z.eqb_eq; exact H2].
Qed.

(** X12: [soft_delete] of an existing client returns True, keeps its row (get_by_id still finds it, get_by_business with active_only = False lists it) and hides it from get_by_business with active_only = True. *)
Theorem soft_delete_hides_but_keeps now id rs c :
  healthy (rs_sess rs) ->
  find (fun c => cl_id c =? id) (repo_clients rs) = Some c ->
  let '(r, rs1) := soft_delete now id rs in
  r = ROk true
  /\ repo_clients rs1 = repo_clients rs
  /\ fst (get_by_id id rs1) = ROk (Some c)
  /\ (exists cs, fst (get_by_business (cl_business c) true rs1) = ROk cs /\ ~ In c cs)
  /\ (exists cs, fst (get_by_business (cl_business c) false rs1) = ROk cs /\ In c cs).
Proof.
  destruct rs as [s del]. unfold repo_clients. simpl. intros Hs Hf.
  rewrite (soft_delete_eq now id s del c Hs Hf).
  destruct (find_id_some _ id c Hf) as [Hin Hid].
  assert (Hs1 : healthy (mksess (ss_db s) [] false)) by (apply healthy_flushed, Hs).
  split; [reflexivity|]. split; [reflexivity|].
  split; [rewrite (get_by_id_eq id _ _ Hs1); simpl; rewrite Hf; reflexivity|].
  split.
  - rewrite (get_by_business_eq _ true _ _ Hs1). eexists. split; [reflexivity|].
    intros H. apply filter_In in H as [_ H]. unfold not_deleted, deleted_at in H. simpl in H.
    rewrite Hid, !Z.eqb_refl in H. simpl in H. rewrite ?andb_false_r in H. discriminate.
  - rewrite (get_by_business_eq _ false _ _ Hs1). eexists. split; [reflexivity|].
    apply filter_In. split; [exact Hin|]. rewrite Z.eqb_refl. reflexivity.
Qed.

Lemma soft_delete_hides_but_keeps_witness :
  let c := mkclient 1 7 (Py.lit "Acme") (Py.lit "customer") true in
  let rs := mkrsess (mksess (mkstore true [] [c] [] [] 2) [] false) [] in
  (healthy (rs_sess rs) /\ find (fun c => cl_id c =? 1) (repo_clients rs) = Some c)
  /\ let '(r, rs1) := soft_delete 1700000000 1 rs in
     r = ROk true
     /\ repo_clients rs1 = repo_clients rs
     /\ fst (get_by_id 1 rs1) = ROk (Some c)
     /\ (exists cs, fst (get_by_business (cl_business c) true rs1) = ROk cs /\ ~ In c cs)
     /\ (exists cs, fst (get_by_business (cl_business c) false rs1) = ROk cs /\ In c cs).
Proof.
  intros c rs.
  assert (H1 : healthy (rs_sess rs)) by (repeat split).
  assert (H2 : find (fun c => cl_id c =? 1) (repo_clients rs) = Some c) by reflexivity.
  split; [split; assumption|]. exact (soft_delete_hides_but_keeps 1700000000 1 rs c H1 H2).
Defined.

Lemma client_ok_name c : client_ok c = true -> varchar_ok 255 (cl_name c) = true.
Proof. unfold client_ok. intros H. apply andb_true_iff in H as [H _]. exact H. Qed.

Lemma query_after_soft_delete d del id now b name :
  get_or_create_query (mkrsess (mksess d [] false) ((id, now) :: del)) b name
  = filter (fun x => negb (cl_id x =? id)) (get_or_create_query (mkrsess (mksess d [] false) del) b name).
Proof.
  unfold get_or_create_query, repo_clients. simpl.
  induction (st_clients d) as [|x cs IH]; [reflexivity|]. simpl.
  unfold not_deleted at 1, deleted_at at 1. simpl.
  destruct (Z.eqb_spec id (cl_id x)) as [E|Hne].
  - simpl. rewrite andb_false_r.
    destruct ((cl_business x =? b) && str_eqb (cl_name x) name
              && not_deleted (mkrsess (mksess d [] false) del) x); simpl;
      [rewrite <- E, Z.eqb_refl; simpl|]; exact IH.
  - assert (E : (cl_id x =? id) = false) by (apply Z.eqb_neq; congruence).
    change (match option_map snd (find (fun p => fst p =? cl_id x) del) with
            | Some _ => false | None => true end)
      with (not_deleted (mkrsess (mksess d [] false) del) x).
    destruct ((cl_business x =? b) && str_eqb (cl_name x) name
              && not_deleted (mkrsess (mksess d [] false) del) x); simpl;
      [rewrite E; simpl; f_equal|]; exact IH.
Qed.

(** X13: after the only live client with a name is soft-deleted, [get_or_create] for that name no longer finds it and creates a new client with a different key. *)
Theorem soft_deleted_not_matched now id rs c :
  healthy (rs_sess rs) -> repo_wf rs ->
  find (fun c => cl_id c =? id) (repo_clients rs) = Some c ->
  get_or_create_query rs (cl_business c) (cl_name c) = [c] ->
  let '(_, rs1) := soft_delete now id rs in
  exists c', fst (get_or_create (cl_business c) (cl_name c) rs1) = ROk (c', true)
             /\ cl_id c' <> cl_id c /\ cl_name c' = cl_name c.
Proof.
  destruct rs as [s del]. unfold repo_clients. simpl. intros Hs (Hcl & Hdel & Hok) Hf Hq.
  simpl in Hcl, Hdel, Hok. unfold repo_clients in Hcl, Hok. simpl in Hcl, Hok.
  rewrite (soft_delete_eq now id s del c Hs Hf).
  destruct (find_id_some _ id c Hf) as [Hin Hid].
  assert (Hs1 : healthy (mksess (ss_db s) [] false)) by (apply healthy_flushed, Hs).
  assert (Hnm : varchar_ok 255 (cl_name c) = true).
  { apply client_ok_name. rewrite Forall_forall in Hok. apply Hok. exact Hin. }
  rewrite (get_or_create_eq _ _ _ _ Hs1 Hnm).
  rewrite query_after_soft_delete.
  assert (Hq' : get_or_create_query (mkrsess (mksess (ss_db s) [] false) del) (cl_business c) (cl_name c)
                = [c]) by exact Hq.
  rewrite Hq'. simpl. rewrite Hid, Z.eqb_refl. simpl.
  eexists. split; [reflexivity|]. simpl.
  rewrite Forall_forall in Hcl. specialize (Hcl c Hin). split; [lia|reflexivity].
Qed.

Lemma soft_deleted_not_matched_witness :
  let c := mkclient 1 7 (Py.lit "Acme") (Py.lit "customer") true in
  let rs := mkrsess (mksess (mkstore true [] [c] [] [] 2) [] false) [] in
  (healthy (rs_sess rs) /\ repo_wf rs /\ find (fun c => cl_id c =? 1) (repo_clients rs) = Some c
   /\ get_or_create_query rs (cl_business c) (cl_name c) = [c])
  /\ let '(_, rs1) := soft_delete 1700000000 1 rs in
     exists c', fst (get_or_create (cl_business c) (cl_name c) rs1) = ROk (c', true)
                /\ cl_id c' <> cl_id c /\ cl_name c' = cl_name c.
Proof.
  intros c rs.
  assert (H1 : healthy (rs_sess rs)) by (repeat split).
  assert (H2 : repo_wf rs) by (split; [|split]; repeat constructor; simpl; lia).
  assert (H3 : find (fun c => cl_id c =? 1) (repo_clients rs) = Some c) by reflexivity.
  assert (H4 : get_or_create_query rs (cl_business c) (cl_name c) = [c]) by (vm_compute; reflexivity).
  split; [auto|]. exact (soft_deleted_not_matched 1700000000 1 rs c H1 H2 H3 H4).
Defined.

Lemma delete_eq id s del c :
  healthy s -> find (fun c => cl_id c =? id) (st_clients (ss_db s)) = Some c ->
  delete id (mkrsess s del) = (ROk true, mkrsess (mksess (remove_client id (ss_db s)) [] false) del).
Proof.
  intros Hs Hf. unfold delete. unfold rbind at 1. rewrite (get_by_id_eq id s del Hs). rewrite Hf.
  unfold rbind, in_session, map_db. simpl.
  destruct s as [d p br]. destruct Hs as (Hb & Hu & Hp). simpl in *. subst.
  unfold flush, flush_new. simpl. rewrite Hu, Hp. reflexivity.
Qed.

Lemma unlink_client_fields id l :
  ln_entry (unlink_client id l) = ln_entry l /\ ln_account (unlink_client id l) = ln_account l
  /\ ln_debit (unlink_client id l) = ln_debit l /\ ln_credit (unlink_client id l) = ln_credit l.
Proof.
  unfold unlink_client. destruct (ln_client l) as [c|]; [destruct (c =? id)|]; auto.
Qed.

Lemma unlink_client_none id l : ln_client (unlink_client id l) <> Some id.
Proof.
  unfold unlink_client. destruct (ln_client l) as [c|] eqn:E; [|rewrite E; discriminate].
  destruct (Z.eqb_spec c id) as [->|Hne]; simpl; [discriminate|]. rewrite E. congruence.
Qed.

Lemma lines_of_remove_client id d k :
  lines_of (remove_client id d) k = map (unlink_client id) (lines_of d k).
Proof.
  unfold lines_of, remove_client. simpl. induction (st_lines d) as [|l ls IH]; [reflexivity|].
  simpl. destruct (unlink_client_fields id l) as (He & _). rewrite He.
  destruct (ln_entry l =? k); simpl; rewrite IH; reflexivity.
Qed.

Lemma sum_debit_unlink id ls : sum_debit (map (unlink_client id) ls) = sum_debit ls.
Proof.
  induction ls as [|l ls IH]; [reflexivity|]. unfold sum_debit in *. simpl. rewrite IH.
  destruct (unlink_client_fields id l) as (_ & _ & -> & _). reflexivity.
Qed.

Lemma sum_credit_unlink id ls : sum_credit (map (unlink_client id) ls) = sum_credit ls.
Proof.
  induction ls as [|l ls IH]; [reflexivity|]. unfold sum_credit in *. simpl. rewrite IH.
  destruct (unlink_client_fields id l) as (_ & _ & _ & ->). reflexivity.
Qed.

Lemma find_removed id (cs : list client) :
  find (fun c => cl_id c =? id) (filter (fun c => negb (cl_id c =? id)) cs) = None.
Proof.
  induction cs as [|c cs IH]; [reflexivity|]. simpl.
  destruct (cl_id c =? id) eqn:E; simpl; [exact IH|]. rewrite E. exact IH.
Qed.

(** X14: [delete] of an existing client returns True, the client no longer exists, the journal lines that referred to it stay with their entries, accounts and amounts but lose their client, and every entry keeps its balance. *)
Theorem delete_client_unlinks_lines id rs c :
  healthy (rs_sess rs) ->
  find (fun c => cl_id c =? id) (repo_clients rs) = Some c ->
  let '(r, rs1) := delete id rs in
  let d := ss_db (rs_sess rs) in
  let d1 := ss_db (rs_sess rs1) in
  r = ROk true
  /\ fst (exists_ id rs1) = ROk false
  /\ map (fun l => (ln_entry l, ln_account l, ln_debit l, ln_credit l)) (st_lines d1)
     = map (fun l => (ln_entry l, ln_account l, ln_debit l, ln_credit l)) (st_lines d)
  /\ Forall (fun l => ln_client l <> Some id) (st_lines d1)
  /\ st_entries d1 = st_entries d
  /\ (forall e, entry_balanced d1 e <-> entry_balanced d e).
Proof.
  destruct rs as [s del]. unfold repo_clients. simpl. intros Hs Hf.
  rewrite (delete_eq id s del c Hs Hf). simpl.
  split; [reflexivity|]. split.
  - unfold exists_, rbind. rewrite get_by_id_eq; [|apply healthy_flushed; apply Hs].
    simpl. rewrite find_removed. reflexivity.
  - split; [|split; [|split; [reflexivity|]]].
    + rewrite map_map. apply map_ext. intros l.
      destruct (unlink_client_fields id l) as (-> & -> & -> & ->). reflexivity.
    + apply Forall_forall. intros l Hl. apply in_map_iff in Hl as (l0 & <- & _).
      apply unlink_client_none.
    + intros e. unfold entry_balanced. rewrite lines_of_remove_client, sum_debit_unlink, sum_credit_unlink.
      reflexivity.
Qed.

Lemma delete_client_unlinks_lines_witness :
  let c := mkclient 5 7 (Py.lit "TechCorp") (Py.lit "customer") true in
  let desc := Py.lit "Software Development" in
  let rs := mkrsess (mksess (mkstore true (st_accounts example_db) [c]
                              [mkentry 6 7 (reference_number 6) (mkdate 2026 3 5) (Some desc)
                                       CSV_IMPORT true (Py.lit "CSV Import")]
                              [mkline 6 1 (Some 5) 1 150000 0 desc [];
                               mkline 6 2 (Some 5) 2 0 150000 desc []] 7) [] false) [] in
  (healthy (rs_sess rs) /\ find (fun c => cl_id c =? 5) (repo_clients rs) = Some c)
  /\ let '(r, rs1) := delete 5 rs in
     let d := ss_db (rs_sess rs) in
     let d1 := ss_db (rs_sess rs1) in
     r = ROk true
     /\ fst (exists_ 5 rs1) = ROk false
     /\ map (fun l => (ln_entry l, ln_account l, ln_debit l, ln_credit l)) (st_lines d1)
        = map (fun l => (ln_entry l, ln_account l, ln_debit l, ln_credit l)) (st_lines d)
     /\ Forall (fun l => ln_client l <> Some 5) (st_lines d1)
     /\ st_entries d1 = st_entries d
     /\ (forall e, entry_balanced d1 e <-> entry_balanced d e).
Proof.
  intros c desc rs.
  assert (H1 : healthy (rs_sess rs)) by (repeat split).
  assert (H2 : find (fun c => cl_id c =? 5) (repo_clients rs) = Some c) by reflexivity.
  split; [split; assumption|]. exact (delete_client_unlinks_lines 5 rs c H1 H2).
Defined.

(** X15: [delete], [soft_delete] and [exists] on a key with no client return False and change nothing. *)
Theorem delete_missing_noop id rs :
  healthy (rs_sess rs) ->
  find (fun c => cl_id c =? id) (repo_clients rs) = None ->
  delete id rs = (ROk false, rs) /\ (forall now, soft_delete now id rs = (ROk false, rs))
  /\ exists_ id rs = (ROk false, rs).
Proof.
  destruct rs as [s del]. unfold repo_clients. simpl. intros Hs Hf.
  unfold delete, soft_delete, exists_, rbind. rewrite (get_by_id_eq id s del Hs), Hf.
  repeat split.
Qed.

Lemma delete_missing_noop_witness :
  let rs := mkrsess (mksess (mkstore true [] [mkclient 1 7 (Py.lit "Acme") (Py.lit "customer") true]
                                      [] [] 2) [] false) [] in
  (healthy (rs_sess rs) /\ find (fun c => cl_id c =? 9) (repo_clients rs) = None)
  /\ delete 9 rs = (ROk false, rs) /\ (forall now, soft_delete now 9 rs = (ROk false, rs))
  /\ exists_ 9 rs = (ROk false, rs).
Proof.
  intros rs.
  assert (H1 : healthy (rs_sess rs)) by (repeat split).
  assert (H2 : find (fun c => cl_id c =? 9) (repo_clients rs) = None) by reflexivity.
  split; [split; assumption|]. exact (delete_missing_noop 9 rs H1 H2).
Defined.

(** X19: a deactivated but not soft-deleted client is invisible to the app's [get_or_create_client], which creates a second client with the same name; the repository's [get_or_create] for that name then raises MultipleResultsFound. *)
Theorem deactivated_client_duplicated name b s del c :
  healthy s -> repo_wf (mkrsess s del) ->
  In c (st_clients (ss_db s)) -> cl_business c = b -> cl_name c = name ->
  not_deleted (mkrsess s del) c = true ->
  find (fun c => (cl_business c =? b) && str_eqb (cl_name c) name && cl_active c)
       (st_clients (ss_db s)) = None ->
  let '(r1, s1) := get_or_create_client name b s in
  exists c', r1 = Ok c' /\ cl_id c' <> cl_id c
             /\ get_or_create b name (mkrsess s1 del) = (RErr MultipleResultsFound, mkrsess s1 del).
Proof.
  intros Hs (Hcl & Hdel & Hok) Hin Hb Hn Hnd Hnone. simpl in Hcl, Hdel, Hok.
  unfold repo_clients in Hcl, Hok. simpl in Hcl, Hok.
  assert (Hnm : varchar_ok 255 name = true).
  { rewrite <- Hn. apply client_ok_name. rewrite Forall_forall in Hok. apply Hok. exact Hin. }
  rewrite (goc_client_eq name b s Hs Hnm), Hnone. cbv zeta.
  eexists. split; [reflexivity|]. split.
  - simpl. rewrite Forall_forall in Hcl. specialize (Hcl c Hin). lia.
  - change (mksess _ [] false) with (after_create s b name).
    assert (Hc : In c (get_or_create_query (mkrsess s del) b name)).
    { unfold get_or_create_query. apply filter_In. split; [exact Hin|].
      rewrite Hb, Hn, Z.eqb_refl, str_eqb_refl. exact Hnd. }
    rewrite (get_or_create_eq b name _ del (after_create_healthy s b name Hs) Hnm).
    rewrite (query_after_create s del b name Hdel).
    destruct (get_or_create_query (mkrsess s del) b name) as [|x [|y l]]; [destruct Hc| |];
      reflexivity.
Qed.

Lemma deactivated_client_duplicated_witness :
  let c := mkclient 1 7 (Py.lit "Acme") (Py.lit "customer") false in
  let s := mksess (mkstore true [] [c] [] [] 2) [] false in
  (healthy s /\ repo_wf (mkrsess s []) /\ In c (st_clients (ss_db s)) /\ cl_business c = 7
   /\ cl_name c = Py.lit "Acme" /\ not_deleted (mkrsess s []) c = true
   /\ find (fun c => (cl_business c =? 7) && str_eqb (cl_name c) (Py.lit "Acme") && cl_active c)
        (st_clients (ss_db s)) = None)
  /\ let '(r1, s1) := get_or_create_client (Py.lit "Acme") 7 s in
     exists c', r1 = Ok c' /\ cl_id c' <> cl_id c
                /\ get_or_create 7 (Py.lit "Acme") (mkrsess s1 [])
                   = (RErr MultipleResultsFound, mkrsess s1 []).
Proof.
  intros c s.
  assert (H1 : healthy s) by (repeat split).
  assert (H2 : repo_wf (mkrsess s [])) by (split; [|split]; repeat constructor; simpl; lia).
  assert (H3 : In c (st_clients (ss_db s))) by (left; reflexivity).
  split; [exact (conj H1 (conj H2 (conj H3 (conj eq_refl (conj eq_refl (conj eq_refl eq_refl))))))|].
  exact (deactivated_client_duplicated (Py.lit "Acme") 7 s [] c H1 H2 H3 eq_refl eq_refl eq_refl eq_refl).
Defined.





Example ilike_case_folded : ilike (Py.lit "%acme%") (Py.lit "The ACME Co") = true. Proof. vm_compute. reflexivity. Qed.
Example ilike_underscore : ilike (Py.lit "%a_c%") (Py.lit "xAbC") = true. Proof. vm_compute. reflexivity. Qed.
Example ilike_escaped_underscore_mismatch : ilike (Py.lit "%a\_c%") (Py.lit "xAbC") = false. Proof. vm_compute. reflexivity. Qed.
Example ilike_escaped_underscore_match : ilike (Py.lit "%a\_c%") (Py.lit "xA_C") = true. Proof. vm_compute. reflexivity. Qed.

Lemma ilike_percent q s :
  ilike ("%"%char :: q) s = true <-> exists u v, s = u ++ v /\ ilike q v = true.
Proof.
  simpl. induction s as [|y s IH].
  - rewrite orb_false_r. split; [intros H; exists [], []; auto|].
    intros (u & v & E & H). symmetry in E. apply app_eq_nil in E as [-> ->]. exact H.
  - rewrite orb_true_iff. split.
    + intros [H|H]; [exists [], (y :: s); auto|].
      apply IH in H as (u & v & -> & H). exists (y :: u), v. auto.
    + intros (u & v & E & H). destruct u as [|x u].
      * left. simpl in E. subst. exact H.
      * right. simpl in E. injection E as <- E. apply IH. eauto.
Qed.

Lemma ilike_plain p q s :
  forallb plain_char p = true ->
  ilike (p ++ q) s = true
  <-> exists s1 s2, s = s1 ++ s2 /\ Py.lower s1 = Py.lower p /\ ilike q s2 = true.
Proof.
  revert s. induction p as [|c p IH]; intros s Hp.
  - simpl. split; [intros H; exists [], s; auto|].
    intros (s1 & s2 & -> & E & H). destruct s1; [exact H|discriminate].
  - simpl in Hp. apply andb_true_iff in Hp as [Hc Hp]. unfold plain_char in Hc.
    apply negb_true_iff in Hc. apply orb_false_iff in Hc as [Hc H3].
    apply orb_false_iff in Hc as [H1 H2].
    simpl. rewrite H1, H2, H3. destruct s as [|y s].
    + split; [discriminate|]. intros (s1 & s2 & E & El & _).
      symmetry in E. apply app_eq_nil in E as [-> ->]. discriminate.
    + rewrite andb_true_iff, IH by exact Hp. split.
      * intros [Ey (s1 & s2 & -> & El & H)]. exists (y :: s1), s2.
        apply Ascii.eqb_eq in Ey. simpl. rewrite El, Ey. auto.
      * intros (s1 & s2 & E & El & H). destruct s1 as [|x s1]; [discriminate|].
        simpl in E, El. injection E as <- ->. injection El as Ex El.
        split; [apply Ascii.eqb_eq; congruence|]. eauto.
Qed.

Lemma ilike_percent_end s : ilike ["%"%char] s = true.
Proof. apply ilike_percent. exists s, []. rewrite app_nil_r. auto. Qed.

Lemma ilike_contains term name :
  forallb plain_char term = true ->
  ilike ("%"%char :: term ++ ["%"%char]) name = true
  <-> exists u v, Py.lower name = u ++ Py.lower term ++ v.
Proof.
  intros Ht. rewrite ilike_percent. split.
  - intros (u & v & -> & H). apply ilike_plain in H as (s1 & s2 & -> & El & _); [|exact Ht].
    exists (Py.lower u), (Py.lower s2). unfold Py.lower in *. rewrite !map_app, El. reflexivity.
  - intros (u & v & E). unfold Py.lower in E.
    apply map_eq_app in E as (u' & w & -> & Eu & E).
    apply map_eq_app in E as (s1 & s2 & -> & El & Ev).
    exists u', (s1 ++ s2). split; [reflexivity|].
    apply ilike_plain; [exact Ht|]. exists s1, s2. split; [reflexivity|].
    split; [exact El|apply ilike_percent_end].
Qed.

Lemma search_by_name_eq b term s del :
  healthy s ->
  search_by_name b term (mkrsess s del)
  = (ROk (filter (fun c => (cl_business c =? b)
                           && ilike ("%"%char :: term ++ ["%"%char]) (cl_name c)
                           && not_deleted (mkrsess s del) c)
                 (st_clients (ss_db s))), mkrsess s del).
Proof.
  intros (Hb & Hu & _). unfold search_by_name, rbind, in_session, execute. simpl.
  rewrite Hb, Hu. reflexivity.
Qed.

(** X17: for a search term with no %, _ or backslash, [search_by_name] returns exactly the live clients of the business whose lower-cased name contains the lower-cased term, active or not. *)
Theorem search_by_name_substring b term rs :
  healthy (rs_sess rs) -> forallb plain_char term = true ->
  exists found, search_by_name b term rs = (ROk found, rs)
    /\ forall c, In c found <->
         In c (repo_clients rs) /\ cl_business c = b /\ not_deleted rs c = true
         /\ exists u v, Py.lower (cl_name c) = u ++ Py.lower term ++ v.
Proof.
  destruct rs as [s del]. simpl. intros Hs Ht.
  rewrite (search_by_name_eq b term s del Hs). eexists. split; [reflexivity|].
  intros c. rewrite filter_In, !andb_true_iff, Z.eqb_eq, ilike_contains by exact Ht.
  unfold repo_clients. simpl. tauto.
Qed.

Lemma search_by_name_substring_witness :
  let rs := mkrsess (mksess (mkstore true []
              [mkclient 1 7 (Py.lit "Acme Corp") (Py.lit "customer") false;
               mkclient 2 7 (Py.lit "Globex") (Py.lit "customer") true;
               mkclient 3 8 (Py.lit "ACME Ltd") (Py.lit "customer") true] [] [] 4) [] false) [] in
  (healthy (rs_sess rs) /\ forallb plain_char (Py.lit "acme") = true)
  /\ exists found, search_by_name 7 (Py.lit "acme") rs = (ROk found, rs)
    /\ forall c, In c found <->
         In c (repo_clients rs) /\ cl_business c = 7 /\ not_deleted rs c = true
         /\ exists u v, Py.lower (cl_name c) = u ++ Py.lower (Py.lit "acme") ++ v.
Proof.
  intros rs.
  assert (H1 : healthy (rs_sess rs)) by (repeat split).
  assert (H2 : forallb plain_char (Py.lit "acme") = true) by reflexivity.
  split; [exact (conj H1 H2)|]. exact (search_by_name_substring 7 (Py.lit "acme") rs H1 H2).
Defined.

(** X18: [search_by_name] does not escape the term: the term % lists every live client of the business. *)
Theorem search_percent_lists_all b rs :
  healthy (rs_sess rs) ->
  search_by_name b (Py.lit "%") rs
  = (ROk (filter (fun c => (cl_business c =? b) && not_deleted rs c) (repo_clients rs)), rs).
Proof.
  destruct rs as [s del]. intros Hs. cbn [rs_sess] in Hs.
  assert (H : forall n, ilike ("%"%char :: Py.lit "%" ++ ["%"%char]) n = true).
  { intros n. apply ilike_percent. exists [], n. split; [reflexivity|].
    change (ilike ("%"%char :: ["%"%char]) n = true). apply ilike_percent.
    exists n, []. rewrite app_nil_r. split; [reflexivity|apply ilike_percent_end]. }
  rewrite (search_by_name_eq b _ s del Hs). unfold repo_clients. cbn [rs_sess].
  f_equal. f_equal. apply filter_ext. intros c. rewrite H, andb_true_r. reflexivity.
Qed.

Lemma search_percent_lists_all_witness :
  let rs := mkrsess (mksess (mkstore true []
              [mkclient 1 7 (Py.lit "Acme Corp") (Py.lit "customer") true;
               mkclient 2 7 (Py.lit "Globex") (Py.lit "customer") true] [] [] 3) [] false)
              [(2, 1700000000)] in
  healthy (rs_sess rs)
  /\ search_by_name 7 (Py.lit "%") rs
     = (ROk (filter (fun c => (cl_business c =? 7) && not_deleted rs c) (repo_clients rs)), rs).
Proof.
  intros rs. assert (H : healthy (rs_sess rs)) by (repeat split).
  split; [exact H|]. exact (search_percent_lists_all 7 rs H).
Defined.

Lemma lines_paired_refl d : lines_paired d d.
Proof. exists []. rewrite app_nil_r. auto. Qed.

Lemma lines_paired_trans d1 d2 d3 :
  lines_paired d1 d2 -> lines_paired d2 d3 -> lines_paired d1 d3.
Proof.
  intros (P1 & E1 & F1) (P2 & E2 & F2). exists (P1 ++ P2).
  rewrite E2, E1, flat_map_app, app_assoc. split; [reflexivity|apply Forall_app; auto].
Qed.

Lemma sess_lines_paired_refl s : sess_lines_paired s s.
Proof. apply lines_paired_refl. Qed.

Lemma sess_lines_paired_trans s1 s2 s3 :
  sess_lines_paired s1 s2 -> sess_lines_paired s2 s3 -> sess_lines_paired s1 s3.
Proof. apply lines_paired_trans. Qed.

Lemma paired_keep {A} (m : M A) :
  (forall s, st_lines (ss_db (snd (m s))) = st_lines (ss_db s)) -> pres sess_lines_paired m.
Proof. intros H s. exists []. rewrite H, app_nil_r. auto. Qed.

Ltac paired_keep_tac :=
  apply paired_keep; intros [[up ? ? ? ? nx] ? []];
  unfold execute, flush, flush_new, get_db, fresh_id, add_account, add_client; simpl;
  repeat match goal with |- context [if ?c then _ else _] => destruct c end;
  reflexivity.

Lemma paired_execute : pres sess_lines_paired execute.
Proof. paired_keep_tac. Qed.

Lemma paired_flush : pres sess_lines_paired flush.
Proof. paired_keep_tac. Qed.

Lemma paired_flush_new ok : pres sess_lines_paired (flush_new ok).
Proof. paired_keep_tac. Qed.

Lemma paired_get_db : pres sess_lines_paired get_db.
Proof. paired_keep_tac. Qed.

Lemma paired_fresh_id : pres sess_lines_paired fresh_id.
Proof. paired_keep_tac. Qed.

Lemma paired_add_account a : pres sess_lines_paired (add_account a).
Proof. paired_keep_tac. Qed.

Lemma paired_add_client c : pres sess_lines_paired (add_client c).
Proof. paired_keep_tac. Qed.

Ltac paired_leaf :=
  first [ apply paired_execute | apply paired_flush | apply paired_flush_new | apply paired_get_db
        | apply paired_fresh_id
        | apply paired_add_account | apply paired_add_client ].

Lemma paired_get_or_create_client name b : pres sess_lines_paired (get_or_create_client name b).
Proof.
  unfold get_or_create_client, query_client.
  pres_with sess_lines_paired_refl sess_lines_paired_trans; paired_leaf.
Qed.

Lemma paired_provision b defs : pres sess_lines_paired (provision b defs).
Proof.
  induction defs as [|[[code name] ty] defs IH]; simpl.
  - apply pres_ret, sess_lines_paired_refl.
  - unfold get_or_create_account, query_account.
    pres_with sess_lines_paired_refl sess_lines_paired_trans; first [ exact IH | paired_leaf ].
Qed.

Lemma paired_save_row {dp : DateParser} b accts r : pres sess_lines_paired (save_row b accts r).
Proof.
  unfold save_row. apply pres_bind;
    [exact sess_lines_paired_trans|apply paired_get_or_create_client|intros client].
  apply pres_bind; [exact sess_lines_paired_trans| |intros entry_date].
  { unfold entry_date_of. destruct (to_datetime (r_date r));
      [apply pres_ret|apply pres_raise]; exact sess_lines_paired_refl. }
  intros [[up accs cls ens lns nx] p br].
  unfold bind at 1, fresh_id; simpl.
  unfold bind at 1, add_entry, map_db; simpl.
  unfold bind at 1, flush, flush_new; simpl.
  assert (Hkeep : forall L (s' : sess),
    (L = [] \/ exists l1 l2, L = [l1; l2] /\ ln_client l1 = ln_client l2) ->
    st_lines (ss_db s') = lns ++ L ->
    lines_paired (mkstore up accs cls ens lns nx) (ss_db s')).
  { intros L s' [->|(l1 & l2 & -> & E)] Hs'.
    - exists []. rewrite Hs'. auto.
    - exists [(l1, l2)]. rewrite Hs'. split; [reflexivity|]. repeat constructor. exact E. }
  destruct br; simpl.
  { apply (Hkeep []); [left; reflexivity|simpl; rewrite ?app_nil_r; reflexivity]. }
  destruct up; simpl.
  2:{ apply (Hkeep []); [left; reflexivity|simpl; rewrite ?app_nil_r; reflexivity]. }
  destruct (forallb line_ok p && _); simpl.
  2:{ apply (Hkeep []); [left; reflexivity|simpl; rewrite ?app_nil_r; reflexivity]. }
  unfold bind at 1, decimal_of.
  destruct (r_amount r) as [amount|txt]; simpl.
  2:{ apply (Hkeep []); [left; reflexivity|simpl; rewrite ?app_nil_r; reflexivity]. }
  unfold ret, account_named.
  unfold bind, raise, add_line; simpl;
  repeat (match goal with
          | |- context [match lookup_name ?a ?n with Some _ => _ | None => _ end] =>
              destruct (lookup_name a n)
          | |- context [if str_eqb ?x ?y then _ else _] => destruct (str_eqb x y)
          end; simpl);
  first
    [ apply (Hkeep []); [left; reflexivity|simpl; rewrite ?app_nil_r; reflexivity]
    | eapply Hkeep; [|simpl; rewrite <- app_assoc; reflexivity];
      right; do 2 eexists; split; reflexivity ].
Qed.

Lemma client_transactions_paired k l0 P :
  Forall (fun p => ln_client (fst p) = ln_client (snd p)) P ->
  List.length (filter (line_of_client k) (l0 ++ flat_map (fun p => [fst p; snd p]) P))
  = (List.length (filter (line_of_client k) l0)
     + 2 * List.length (filter (fun p => line_of_client k (fst p)) P))%nat.
Proof.
  intros F. rewrite filter_app, length_app. f_equal.
  induction F as [|[l1 l2] P E F IH]; [reflexivity|]. simpl in *.
  assert (E2 : line_of_client k l2 = line_of_client k l1) by (unfold line_of_client; rewrite E; reflexivity).
  rewrite E2.
  destruct (line_of_client k l1); simpl; rewrite IH; lia.
Qed.

(** X9: the Transactions count of a client in the clients tab counts journal lines, and an upload adds them in pairs: every client's count grows by an even number. *)
Theorem upload_counts_two_lines_per_transaction {dp : DateParser} rows b db k :
  exists n, client_transactions (snd (save_transactions_to_database rows b db)) k
            = (client_transactions db k + 2 * n)%nat.
Proof.
  assert (H : lines_paired db (snd (save_transactions_to_database rows b db))).
  { unfold save_transactions_to_database.
    pose proof (paired_provision b default_accounts (mksess db [] false)) as H1.
    unfold get_or_create_default_accounts.
    destruct (provision b default_accounts (mksess db [] false)) as [[accts|e] s1]; simpl in H1;
      [|apply lines_paired_refl].
    pose proof (pres_save_rows _ sess_lines_paired_refl sess_lines_paired_trans b accts
                  (paired_save_row b accts) rows O s1) as H2.
    destruct (save_rows b accts rows O s1) as [[n|e] s2]; simpl in H2; [|apply lines_paired_refl].
    pose proof (paired_flush s2) as H3.
    destruct (flush s2) as [[u|e] s3]; simpl in H3; [|apply lines_paired_refl].
    exact (lines_paired_trans _ _ _ H1 (lines_paired_trans _ _ _ H2 H3)). }
  destruct H as (P & E & F). unfold client_transactions. rewrite E.
  rewrite (client_transactions_paired k _ P F). eexists. reflexivity.
Qed.
